(** * VNova Assistant: the story timeline (src/story_manager/story_timeline.py)

    A shallow embedding of [StoryEvent] and [StoryTimeline] and the
    properties of the timeline that the specification states: event
    creation, branch points, undo of a generation, the asset registry and
    the persistence codec. *)

From Stdlib Require Import List String Ascii ZArith Bool Arith Lia.
From Stdlib Require Import DecimalString Eqdep_dec.
Import ListNotations.
Open Scope string_scope.

#[local] Set Warnings "-register-all".

(** ** Values of the persisted document

    The values that [json.dump] writes and [json.load] reads back.  A float
    is carried as its IEEE-754 bit pattern: the timeline never computes with
    one.  An object keeps its members in insertion order, as a Python dict
    does. *)
Inductive json : Type :=
| JNull
| JBool (b : bool)
| JInt (n : Z)
| JFloat (bits : Z)
| JStr (s : string)
| JArr (items : list json)
| JObj (members : list (string * json)).

(** ** Python dictionaries with string keys

    Insertion-ordered association lists.  Assigning to a key that is bound
    keeps its position; a new key goes to the end. *)
Definition dict (V : Type) : Type := list (string * V).

Section Dict.
Context {V : Type}.

Fixpoint dict_get (k : string) (d : dict V) : option V :=
  match d with
  | [] => None
  | (k', v) :: d' => if String.eqb k k' then Some v else dict_get k d'
  end.

(** [k in d] *)
Definition dict_mem (k : string) (d : dict V) : bool :=
  match dict_get k d with Some _ => true | None => false end.

(** [d[k] = v] *)
Fixpoint dict_set (k : string) (v : V) (d : dict V) : dict V :=
  match d with
  | [] => [(k, v)]
  | (k', v') :: d' =>
      if String.eqb k k' then (k', v) :: d' else (k', v') :: dict_set k v d'
  end.

(** [del d[k]], and the dict part of [d.pop(k, None)] *)
Fixpoint dict_del (k : string) (d : dict V) : dict V :=
  match d with
  | [] => []
  | (k', v') :: d' =>
      if String.eqb k k' then d' else (k', v') :: dict_del k d'
  end.

(** A mutation of the object bound to [k]: [d[k].field = ...]. *)
Fixpoint dict_modify (k : string) (f : V -> V) (d : dict V) : dict V :=
  match d with
  | [] => []
  | (k', v') :: d' =>
      if String.eqb k k' then (k', f v') :: d' else (k', v') :: dict_modify k f d'
  end.

Definition dict_keys (d : dict V) : list string := map fst d.
End Dict.

(** Python truthiness of an optional string: [None] and [""] are false. *)
Definition truthy (o : option string) : bool :=
  match o with
  | None => false
  | Some s => negb (String.eqb s "")
  end.

(** [a == b] on values that are [None] or a string. *)
Definition opt_eqb (a b : option string) : bool :=
  match a, b with
  | None, None => true
  | Some x, Some y => String.eqb x y
  | _, _ => false
  end.

(** [l.remove(x)]: drops the first occurrence; [None] is the [ValueError]
    raised when there is none. *)
Fixpoint list_remove (x : string) (l : list string) : option (list string) :=
  match l with
  | [] => None
  | y :: l' =>
      if String.eqb x y then Some l'
      else match list_remove x l' with
           | Some r => Some (y :: r)
           | None => None
           end
  end.

(** The decimal text of an integer, as an f-string prints it. *)
Definition str_int (z : Z) : string := NilZero.string_of_int (Z.to_int z).

(** [p in s] on two strings: [p] occurs in [s]. *)
Fixpoint substringb (p s : string) : bool :=
  String.prefix p s
  || match s with
     | EmptyString => false
     | String _ s' => substringb p s'
     end.

(** ** Results of calls that can raise

    [Raises e] is a Python exception leaving the call.  [OutOfModel] is a
    document field whose JSON type is not the one the program writes (a
    number as [head_event_id], say): Python stores such a value as it is,
    the typed records below do not hold it, and the embedding does not
    follow that call further. *)
Inductive py_exn : Type := KeyError | TypeError | ValueError | AttributeError.

Inductive outcome (A : Type) : Type :=
| Returns (a : A)
| Raises (e : py_exn)
| OutOfModel.
Arguments Returns {A} a.
Arguments Raises {A} e.
Arguments OutOfModel {A}.

Definition bind {A B : Type} (c : outcome A) (k : A -> outcome B) : outcome B :=
  match c with
| Returns a => k a
| Raises e => Raises e
  | OutOfModel => OutOfModel
  end.

Notation "x <- c ;; k" := (bind c (fun x => k))
  (at level 61, c at next level, right associativity).

(** [key in container], by the type of the container. *)
Definition json_contains (container : json) (key : string) : outcome bool :=
  match container with
| JObj m => Returns (dict_mem key m)
| JArr l =>
      Returns (existsb (fun x => match x with
                                 | JStr s => String.eqb s key
                                 | _ => false
                                 end) l)
| JStr s => Returns (substringb key s)
  | _ => Raises TypeError
  end.

(** [d.get(k, default)] on the members of an object. *)
Definition obj_get (k : string) (m : list (string * json)) (default : json)
    : json :=
  match dict_get k m with
  | Some v => v
  | None => default
  end.

(** A value that is [None] or a string, and back. *)
Definition enc_opt_str (o : option string) : json :=
  match o with
  | None => JNull
  | Some s => JStr s
  end.

Definition dec_opt_str (j : json) : outcome (option string) :=
  match j with
| JNull => Returns None
| JStr s => Returns (Some s)
  | _ => OutOfModel
  end.

Definition dec_str (j : json) : outcome string :=
  match j with
| JStr s => Returns s
  | _ => OutOfModel
  end.

Definition dec_bool (j : json) : outcome bool :=
  match j with
| JBool b => Returns b
  | _ => OutOfModel
  end.

Fixpoint dec_strs (l : list json) : outcome (list string) :=
  match l with
  | [] => Returns []
  | j :: l' => s <- dec_str j ;; r <- dec_strs l' ;; Returns (s :: r)
  end.

Definition dec_str_list (j : json) : outcome (list string) :=
  match j with
| JArr l => dec_strs l
  | _ => OutOfModel
  end.

Definition dec_list (j : json) : outcome (list json) :=
  match j with
| JArr l => Returns l
  | _ => OutOfModel
  end.

(** ** Files

    What a path holds, as far as [open] and [json.load] can tell.  A
    document is kept as the value [json.load] returns for it. *)
Inductive file : Type :=
| Missing
| Unopenable
| Garbled
| BadEncoding
| Document (doc : json).

Definition files : Type := string -> file.

Definition write_file (path : string) (f : file) (fs : files) : files :=
  fun p => if String.eqb p path then f else fs p.

(** ** What the program takes from the Python runtime

    [datetime] objects with their three conversions, [json.dumps], the
    built-in [hash] on strings (keyed per process, hence only known to be a
    function) and [str] on a value. *)
Class Runtime : Type := {
  datetime : Type;
  datetime_str : datetime -> string;
  isoformat : datetime -> string;
  fromisoformat : string -> option datetime;
  json_dumps : json -> string;
  hash : string -> Z;
  py_str : json -> string
}.

(** ** StoryEvent and StoryTimeline, over the type of the timestamps *)
Record StoryEvent (datetime : Type) : Type := mkStoryEvent {
  event_id : string;
  timestamp : datetime;
  event_type : string;
  data : json;
  parent_event_id : option string;
  child_event_ids : list string;
  ollama_request_id : option string;
  emotion : json;
  is_branch_point : bool;
  branch_choices : list json
}.
Arguments mkStoryEvent {datetime}.
Arguments event_id {datetime}.
Arguments timestamp {datetime}.
Arguments event_type {datetime}.
Arguments data {datetime}.
Arguments parent_event_id {datetime}.
Arguments child_event_ids {datetime}.
Arguments ollama_request_id {datetime}.
Arguments emotion {datetime}.
Arguments is_branch_point {datetime}.
Arguments branch_choices {datetime}.

Record StoryTimeline (datetime : Type) : Type := mkStoryTimeline {
  events : dict (StoryEvent datetime);
  head_event_id : option string;
  characters : json;
  active_branch_id : option string;
  assets : json;
  dirty : bool
}.
Arguments mkStoryTimeline {datetime}.
Arguments events {datetime}.
Arguments head_event_id {datetime}.
Arguments characters {datetime}.
Arguments active_branch_id {datetime}.
Arguments assets {datetime}.
Arguments dirty {datetime}.

Section Timeline.
Context {R : Runtime}.


Definition set_event_id (v : string) (e : StoryEvent datetime)
    : StoryEvent datetime :=
  mkStoryEvent v (timestamp e) (event_type e) (data e) (parent_event_id e)
    (child_event_ids e) (ollama_request_id e) (emotion e)
    (is_branch_point e) (branch_choices e).

Definition set_parent_event_id (v : option string) (e : StoryEvent datetime)
    : StoryEvent datetime :=
  mkStoryEvent (event_id e) (timestamp e) (event_type e) (data e) v
    (child_event_ids e) (ollama_request_id e) (emotion e)
    (is_branch_point e) (branch_choices e).

Definition set_child_event_ids (v : list string) (e : StoryEvent datetime)
    : StoryEvent datetime :=
  mkStoryEvent (event_id e) (timestamp e) (event_type e) (data e)
    (parent_event_id e) v (ollama_request_id e) (emotion e)
    (is_branch_point e) (branch_choices e).

Definition set_emotion (v : json) (e : StoryEvent datetime)
    : StoryEvent datetime :=
  mkStoryEvent (event_id e) (timestamp e) (event_type e) (data e)
    (parent_event_id e) (child_event_ids e) (ollama_request_id e) v
    (is_branch_point e) (branch_choices e).

Definition set_is_branch_point (v : bool) (e : StoryEvent datetime)
    : StoryEvent datetime :=
  mkStoryEvent (event_id e) (timestamp e) (event_type e) (data e)
    (parent_event_id e) (child_event_ids e) (ollama_request_id e)
    (emotion e) v (branch_choices e).

Definition set_branch_choices (v : list json) (e : StoryEvent datetime)
    : StoryEvent datetime :=
  mkStoryEvent (event_id e) (timestamp e) (event_type e) (data e)
    (parent_event_id e) (child_event_ids e) (ollama_request_id e)
    (emotion e) (is_branch_point e) v.

(** [child_event_ids.append(c)] *)
Definition append_child (c : string) (e : StoryEvent datetime)
    : StoryEvent datetime :=
  set_child_event_ids (child_event_ids e ++ [c]) e.

(** [branch_choices.append(c)] *)
Definition append_choice (c : json) (e : StoryEvent datetime)
    : StoryEvent datetime :=
  set_branch_choices (branch_choices e ++ [c]) e.

(** The id that [StoryEvent.__init__] builds:
    [f"{timestamp}-{event_type}-{hash(json.dumps(data))}"]. *)
Definition make_event_id (ts : datetime) (ety : string) (d : json) : string :=
  datetime_str ts ++ "-" ++ ety ++ "-" ++ str_int (hash (json_dumps d)).

(** [StoryEvent.__init__] *)
Definition new_StoryEvent (ts : datetime) (ety : string) (d : json)
    (parent : option string) (req : option string) : StoryEvent datetime :=
  {| event_id := make_event_id ts ety d;
     timestamp := ts;
     event_type := ety;
     data := d;
     parent_event_id := parent;
     child_event_ids := [];
     ollama_request_id := req;
     emotion := JNull;
     is_branch_point := false;
     branch_choices := [] |}.


Definition set_events (v : dict (StoryEvent datetime)) (t : StoryTimeline datetime)
    : StoryTimeline datetime :=
  mkStoryTimeline v (head_event_id t) (characters t) (active_branch_id t)
    (assets t) (dirty t).

Definition set_head_event_id (v : option string) (t : StoryTimeline datetime)
    : StoryTimeline datetime :=
  mkStoryTimeline (events t) v (characters t) (active_branch_id t)
    (assets t) (dirty t).

Definition set_active_branch_id (v : option string) (t : StoryTimeline datetime)
    : StoryTimeline datetime :=
  mkStoryTimeline (events t) (head_event_id t) (characters t) v
    (assets t) (dirty t).

Definition set_assets (v : json) (t : StoryTimeline datetime)
    : StoryTimeline datetime :=
  mkStoryTimeline (events t) (head_event_id t) (characters t)
    (active_branch_id t) v (dirty t).

Definition set_dirty (v : bool) (t : StoryTimeline datetime)
    : StoryTimeline datetime :=
  mkStoryTimeline (events t) (head_event_id t) (characters t)
    (active_branch_id t) (assets t) v.

(** [StoryTimeline.__init__] *)
Definition init_timeline : StoryTimeline datetime :=
  {| events := [];
     head_event_id := None;
     characters := JObj [];
     active_branch_id := None;
     assets := JObj [("backgrounds", JObj []); ("characters", JObj []);
                     ("sounds", JObj []); ("music", JObj [])];
     dirty := false |}.

(** [get_event] *)
Definition get_event (t : StoryTimeline datetime) (k : string)
    : option (StoryEvent datetime) :=
  dict_get k (events t).

(** [add_event]; [now] is the reading of [datetime.now()].  Returns the
    new id and the timeline after the call. *)
Definition add_event (now : datetime) (ety : string) (d : json)
    (parent : option string) (req : option string) (t : StoryTimeline datetime)
    : string * StoryTimeline datetime :=
  let parent := match parent with None => head_event_id t | Some _ => parent end in
  let new_event := new_StoryEvent now ety d parent req in
  let new_id := event_id new_event in
  let evs := dict_set new_id new_event (events t) in
  let evs :=
    match parent with
    | Some p =>
        if truthy parent && dict_mem p evs
        then dict_modify p (append_child new_id) evs
        else evs
    | None => evs
    end in
  (new_id,
   {| events := evs;
      head_event_id := Some new_id;
      characters := characters t;
      active_branch_id := active_branch_id t;
      assets := assets t;
      dirty := true |}).

(** One option of the list given to [create_branch_point]:
    [{"text": ..., "data": ...}], where ["data"] may be missing. *)
Record BranchChoice : Type := mkBranchChoice {
  choice_text : string;
  choice_data : option json
}.

(** [{'text': choice['text'], 'content': choice.get('data', {})}] *)
Definition choice_payload (c : BranchChoice) : json :=
  JObj [("text", JStr (choice_text c));
        ("content", match choice_data c with Some d => d | None => JObj [] end)].

(** [{"text": choice['text'], "target_id": branch_event_id}] *)
Definition choice_entry (c : BranchChoice) (branch_event_id : string) : json :=
  JObj [("text", JStr (choice_text c)); ("target_id", JStr branch_event_id)].

Definition is_nil {A : Type} (l : list A) : bool :=
  match l with [] => true | _ :: _ => false end.

(** One turn of the inner loop of [create_branch_point]: a saved child
    that is still in [events] gets the branch event as parent and is
    appended to the children of the branch event. *)
Definition reattach_one (branch_event_id : string) (evs : dict (StoryEvent datetime))
    (child_id : string) : dict (StoryEvent datetime) :=
  match dict_get child_id evs with
  | Some _ =>
      dict_modify branch_event_id (append_child child_id)
        (dict_modify child_id (set_parent_event_id (Some branch_event_id)) evs)
  | None => evs
  end.

Definition reattach_children (branch_event_id : string)
    (existing_children : list string) (evs : dict (StoryEvent datetime))
    : dict (StoryEvent datetime) :=
  fold_left (reattach_one branch_event_id) existing_children evs.

(** The body of the loop over the options, with [now] the reading of
    [datetime.now()] in its call of [add_event].  [live] tells whether the
    local [event] is still the object bound to [event_id] in [events]:
    [add_event] rebinds that key when the id it generates is [event_id]
    itself, and from then on the appends to [event.branch_choices] reach
    an object the timeline no longer holds.  Returns the id of the branch
    event, [live] and the timeline after the turn. *)
Definition branch_body (now : datetime) (eid : string)
    (existing_children : list string) (choice : BranchChoice)
    (live : bool) (created_branch_ids : list string) (t : StoryTimeline datetime)
    : string * bool * StoryTimeline datetime :=
  let '(branch_event_id, t1) :=
    add_event now "branch_option" (choice_payload choice) (Some eid) None t in
  let live := live && negb (String.eqb branch_event_id eid) in
  let t2 :=
    if negb (is_nil existing_children) && is_nil created_branch_ids
    then set_events
           (reattach_children branch_event_id existing_children (events t1)) t1
    else t1 in
  let t3 :=
    if live
    then set_events
           (dict_modify eid (append_choice (choice_entry choice branch_event_id))
              (events t2)) t2
    else t2 in
  (branch_event_id, live, t3).

(** The loop over the options; [clock i] is the reading of the clock in
    turn [i]. *)
Fixpoint branch_loop (clock : nat -> datetime) (i : nat) (eid : string)
    (existing_children : list string) (choices : list BranchChoice)
    (live : bool) (created_branch_ids : list string) (t : StoryTimeline datetime)
    : list string * StoryTimeline datetime :=
  match choices with
  | [] => (created_branch_ids, t)
  | choice :: rest =>
      let '(branch_event_id, live, t3) :=
        branch_body (clock i) eid existing_children choice live
          created_branch_ids t in
      branch_loop clock (S i) eid existing_children rest live
        (created_branch_ids ++ [branch_event_id]) t3
  end.

(** [create_branch_point]: the flag, the created ids, the timeline after. *)
Definition create_branch_point (clock : nat -> datetime) (eid : string)
    (choices : list BranchChoice) (t : StoryTimeline datetime)
    : (bool * list string) * StoryTimeline datetime :=
  match dict_get eid (events t) with
  | None => ((false, []), t)
  | Some event =>
      let existing_children := child_event_ids event in
      let evs :=
        dict_modify eid
          (fun e => set_branch_choices []
                      (set_child_event_ids [] (set_is_branch_point true e)))
          (events t) in
      let '(created, t') :=
        branch_loop clock 0 eid existing_children choices true []
          (set_events evs t) in
      ((true, created), set_dirty true t')
  end.

(** [select_branch] *)
Definition select_branch (branch_id : string) (t : StoryTimeline datetime)
    : bool * StoryTimeline datetime :=
  if dict_mem branch_id (events t)
  then (true, set_head_event_id (Some branch_id)
                (set_active_branch_id (Some branch_id) t))
  else (false, t).

(** ** Undo of a generation *)

(** The keys of the events whose [ollama_request_id] equals the argument,
    in the order of [events]. *)
Definition events_to_remove (req : option string) (t : StoryTimeline datetime)
    : list string :=
  map fst (filter (fun kv => opt_eqb (ollama_request_id (snd kv)) req) (events t)).

(** [parent.child_event_ids.remove(event_id)], with the [ValueError]
    swallowed. *)
Definition remove_child (k : string) (parent : StoryEvent datetime)
    : StoryEvent datetime :=
  match list_remove k (child_event_ids parent) with
  | Some cs => set_child_event_ids cs parent
  | None => parent
  end.

(** One turn of the removal loop. *)
Definition undo_step (t : StoryTimeline datetime) (k : string)
    : StoryTimeline datetime :=
  let event := dict_get k (events t) in
  let evs := dict_del k (events t) in
  let evs :=
    match event with
    | Some e =>
        match parent_event_id e with
        | Some p =>
            if truthy (parent_event_id e)
            then match dict_get p evs with
                 | Some _ => dict_modify p (remove_child k) evs
                 | None => evs
                 end
            else evs
        | None => evs
        end
    | None => evs
    end in
  let head :=
    if opt_eqb (head_event_id t) (Some k)
    then match event with Some e => parent_event_id e | None => None end
    else head_event_id t in
  set_head_event_id head (set_events evs t).

(** [undo_ollama_generation] *)
Definition undo_ollama_generation (req : option string) (t : StoryTimeline datetime)
    : bool * StoryTimeline datetime :=
  let to_remove := events_to_remove req t in
  if is_nil to_remove then (false, t)
  else (true, set_dirty true (fold_left undo_step to_remove t)).

(** ** Asset registry *)

(** [add_asset] *)
Definition add_asset (category asset_id : string) (asset_data : json)
    (t : StoryTimeline datetime) : outcome (bool * StoryTimeline datetime) :=
  present <- json_contains (assets t) category ;;
  if negb present then Returns (false, t)
  else
    let asset_data :=
      match asset_data with
      | JObj _ => asset_data
      | _ => JObj [("path", JStr (py_str asset_data))]
      end in
    match assets t with
    | JObj m =>
        match dict_get category m with
        | Some (JObj bucket) =>
            Returns (true,
                     set_dirty true
                       (set_assets
                          (JObj (dict_set category
                                   (JObj (dict_set asset_id asset_data bucket)) m))
                          t))
        | _ => Raises TypeError
        end
    | _ => Raises TypeError
    end.

(** [self.assets[category]] once [category in self.assets] holds. *)
Definition assets_bucket (category : string) (t : StoryTimeline datetime)
    : outcome json :=
  match assets t with
  | JObj m =>
      match dict_get category m with
      | Some b => Returns b
      | None => Raises KeyError
      end
  | _ => Raises TypeError
  end.

(** [remove_asset] *)
Definition remove_asset (category asset_id : string) (t : StoryTimeline datetime)
    : outcome (bool * StoryTimeline datetime) :=
  present <- json_contains (assets t) category ;;
  if negb present then Returns (false, t)
  else
    b <- assets_bucket category t ;;
    held <- json_contains b asset_id ;;
    if negb held then Returns (false, t)
    else
      match assets t, b with
      | JObj m, JObj bucket =>
          Returns (true,
                   set_dirty true
                     (set_assets
                        (JObj (dict_set category
                                 (JObj (dict_del asset_id bucket)) m))
                        t))
      | _, _ => Raises TypeError
      end.

(** ** Persistence *)

(** [StoryEvent.to_dict] *)
Definition to_dict (e : StoryEvent datetime) : json :=
  JObj [("event_id", JStr (event_id e));
        ("timestamp", JStr (isoformat (timestamp e)));
        ("event_type", JStr (event_type e));
        ("data", data e);
        ("parent_event_id", enc_opt_str (parent_event_id e));
        ("child_event_ids", JArr (map JStr (child_event_ids e)));
        ("ollama_request_id", enc_opt_str (ollama_request_id e));
        ("emotion", emotion e);
        ("is_branch_point", JBool (is_branch_point e));
        ("branch_choices", JArr (branch_choices e))].

(** [data[k]] on the document of an event. *)
Definition item (k : string) (m : list (string * json)) : outcome json :=
  match dict_get k m with
  | Some v => Returns v
  | None => Raises KeyError
  end.

(** [datetime.fromisoformat(x)] *)
Definition parse_timestamp (x : json) : outcome datetime :=
  match x with
  | JStr s =>
      match fromisoformat s with
      | Some ts => Returns ts
      | None => Raises ValueError
      end
  | _ => Raises TypeError
  end.

(** [StoryEvent.from_dict] *)
Definition from_dict (d : json) : outcome (StoryEvent datetime) :=
  match d with
  | JObj m =>
      ts_doc <- item "timestamp" m ;;
      ts <- parse_timestamp ts_doc ;;
      ety_doc <- item "event_type" m ;;
      ety <- dec_str ety_doc ;;
      payload <- item "data" m ;;
      parent <- dec_opt_str (obj_get "parent_event_id" m JNull) ;;
      req <- dec_opt_str (obj_get "ollama_request_id" m JNull) ;;
      let event := new_StoryEvent ts ety payload parent req in
      id_doc <- item "event_id" m ;;
      id <- dec_str id_doc ;;
      children <- dec_str_list (obj_get "child_event_ids" m (JArr [])) ;;
      let emo := obj_get "emotion" m JNull in
      flag <- dec_bool (obj_get "is_branch_point" m (JBool false)) ;;
      choices <- dec_list (obj_get "branch_choices" m (JArr [])) ;;
      Returns (set_branch_choices choices
                 (set_is_branch_point flag
                    (set_emotion emo
                       (set_child_event_ids children
                          (set_event_id id event)))))
  | _ => Raises TypeError
  end.

(** [{eid: event.to_dict() for eid, event in self.events.items()}] *)
Definition save_events (evs : dict (StoryEvent datetime)) : dict json :=
  fold_left (fun acc kv => dict_set (fst kv) (to_dict (snd kv)) acc) evs [].

(** [{eid: StoryEvent.from_dict(edata) for eid, edata in ....items()}] *)
Fixpoint load_events (items : list (string * json)) (acc : dict (StoryEvent datetime))
    : outcome (dict (StoryEvent datetime)) :=
  match items with
  | [] => Returns acc
  | (eid, edata) :: rest =>
      e <- from_dict edata ;;
      load_events rest (dict_set eid e acc)
  end.

(** [data_to_save] of [save_timeline] *)
Definition data_to_save (t : StoryTimeline datetime) : json :=
  JObj [("events", JObj (save_events (events t)));
        ("head_event_id", enc_opt_str (head_event_id t));
        ("active_branch_id", enc_opt_str (active_branch_id t));
        ("characters", characters t);
        ("assets", assets t)].

(** [save_timeline]: the timeline and the files after the call.  An
    [IOError] on opening the file is printed and nothing changes. *)
Definition save_timeline (filepath : string) (t : StoryTimeline datetime) (fs : files)
    : StoryTimeline datetime * files :=
  match fs filepath with
  | Unopenable => (t, fs)
  | _ => (set_dirty false t, write_file filepath (Document (data_to_save t)) fs)
  end.

(** The body of the [try] of [load_timeline] once [json.load] has
    returned [data_loaded]. *)
Definition load_document (data_loaded : json)
    : outcome (StoryTimeline datetime) :=
  match data_loaded with
  | JObj top =>
      match obj_get "events" top (JObj []) with
      | JObj items =>
          evs <- load_events items [] ;;
          head <- dec_opt_str (obj_get "head_event_id" top JNull) ;;
          active <- dec_opt_str (obj_get "active_branch_id" top JNull) ;;
          Returns {| events := evs;
                     head_event_id := head;
                     characters := obj_get "characters" top (JObj []);
                     active_branch_id := active;
                     assets := obj_get "assets" top (JObj []);
                     dirty := false |}
      | _ => Raises AttributeError
      end
  | _ => Raises AttributeError
  end.

(** [load_timeline]: the timeline after the call, when it returns.  A
    [FileNotFoundError], another [IOError] and a [JSONDecodeError] are
    caught and [__init__] runs; a [UnicodeDecodeError] is a [ValueError]
    and is not caught.  When an exception leaves the call nothing was
    assigned yet. *)
Definition load_timeline (filepath : string) (t : StoryTimeline datetime) (fs : files)
    : outcome (StoryTimeline datetime) :=
  match fs filepath with
  | Missing => Returns init_timeline
  | Unopenable => Returns init_timeline
  | Garbled => Returns init_timeline
  | BadEncoding => Raises ValueError
  | Document data_loaded => load_document data_loaded
  end.

(** ** Reading the timeline *)

(** [get_branch_options] *)
Definition get_branch_options (eid : string) (t : StoryTimeline datetime)
    : list json :=
  match dict_get eid (events t) with
  | None => []
  | Some event => if is_branch_point event then branch_choices event else []
  end.

(** [StoryTimeline.is_branch_point] *)
Definition is_branch_point_at (eid : string) (t : StoryTimeline datetime)
    : bool :=
  match dict_get eid (events t) with
  | None => false
  | Some event => is_branch_point event
  end.

(** [get_assets] *)
Definition get_assets (category : option string) (t : StoryTimeline datetime)
    : outcome json :=
  match category with
  | None => Returns (assets t)
  | Some c =>
      present <- json_contains (assets t) c ;;
      if negb present then Returns (JObj []) else assets_bucket c t
  end.

(** [get_all_branches] *)
Definition get_all_branches (t : StoryTimeline datetime) : list json :=
  map (fun kv =>
         JObj [("event_id", JStr (fst kv));
               ("timestamp", JStr (isoformat (timestamp (snd kv))));
               ("content", data (snd kv));
               ("choices", JArr (branch_choices (snd kv)))])
    (filter (fun kv => is_branch_point (snd kv)) (events t)).

(** [x[k]] with a string [k]: only a dict can be subscripted by it. *)
Definition subscript (x : json) (k : string) : outcome json :=
  match x with
  | JObj m => item k m
  | _ => Raises TypeError
  end.

(** [self.get_event(x)] on a value taken from a document: [dict.get]
    hashes its argument, and only a string can be a key of [events]. *)
Definition get_event_of (t : StoryTimeline datetime) (x : json)
    : outcome (option (StoryEvent datetime)) :=
  match x with
  | JStr s => Returns (get_event t s)
  | JArr _ | JObj _ => Raises TypeError
  | _ => Returns None
  end.

(** The loop of [get_timeline_data] that builds [branch_details]. *)
Fixpoint branch_details (t : StoryTimeline datetime) (choices : list json)
    : outcome (list json) :=
  match choices with
  | [] => Returns []
  | choice :: rest =>
      target <- subscript choice "target_id" ;;
      branch_event <- get_event_of t target ;;
      detail <-
        match branch_event with
        | Some be =>
            text <- subscript choice "text" ;;
            target_id <- subscript choice "target_id" ;;
            Returns [JObj [("text", text); ("target_id", target_id);
                           ("content", data be)]]
        | None => Returns []
        end ;;
      details <- branch_details t rest ;;
      Returns (detail ++ details)%list
  end.

(** [d[k] = v] on a value. *)
Definition set_item (d : json) (k : string) (v : json) : outcome json :=
  match d with
  | JObj m => Returns (JObj (dict_set k v m))
  | _ => Raises TypeError
  end.

(** [event_data] of one turn of the loop of [get_timeline_data]. *)
Definition event_data (include_branches : bool) (t : StoryTimeline datetime)
    (event : StoryEvent datetime) : outcome json :=
  if include_branches && is_branch_point event
  then details <- branch_details t (branch_choices event) ;;
       set_item (to_dict event) "branch_details" (JArr details)
  else Returns (to_dict event).

(** The [while] loop of [get_timeline_data], from [current_id] with the
    [path] built so far.  [None] when [fuel] turns do not end it. *)
Fixpoint timeline_walk (fuel : nat) (start_event_id : option string)
    (include_branches : bool) (t : StoryTimeline datetime)
    (current_id : option string) (path : list json)
    : option (outcome (list json)) :=
  match current_id with
  | None => Some (Returns path)
  | Some cid =>
      if negb (truthy current_id) then Some (Returns path)
      else
        match fuel with
        | O => None
        | S fuel' =>
            match get_event t cid with
            | None => Some (Returns path)
            | Some event =>
                match event_data include_branches t event with
                | Returns ed =>
                    let path := (path ++ [ed])%list in
                    let current_id := parent_event_id event in
                    if truthy start_event_id && opt_eqb current_id start_event_id
                    then
                      Some (Returns
                              match start_event_id with
                              | Some sid =>
                                  match get_event t sid with
                                  | Some start_event =>
                                      (path ++ [to_dict start_event])%list
                                  | None => path
                                  end
                              | None => path
                              end)
                    else timeline_walk fuel' start_event_id include_branches t
                           current_id path
                | Raises e => Some (Raises e)
                | OutOfModel => Some OutOfModel
                end
            end
        end
  end.

(** Where [get_timeline_data] starts: the active branch if there is one,
    else the head. *)
Definition walk_start (t : StoryTimeline datetime) : option string :=
  if truthy (active_branch_id t) then active_branch_id t else head_event_id t.

(** [get_timeline_data]: the path, oldest event first.  [None] when [fuel]
    turns do not end the loop. *)
Definition get_timeline_data (fuel : nat) (start_event_id : option string)
    (include_branches : bool) (t : StoryTimeline datetime)
    : option (outcome (list json)) :=
  match timeline_walk fuel start_event_id include_branches t (walk_start t) [] with
  | Some (Returns path) => Some (Returns (rev path))
  | r => r
  end.

(** ** The undo button of the main window (src/gui/main_window.py) *)

(** The loop of [MainWindow.undo_last_ollama]: the nearest event from
    [current_id] up the parents that is an [ollama_generation] with a
    request id.  The outer [None] when [fuel] turns do not end it. *)
Fixpoint last_ollama_event (fuel : nat) (t : StoryTimeline datetime)
    (current_id : option string) : option (option (StoryEvent datetime)) :=
  match current_id with
  | None => Some None
  | Some cid =>
      if negb (truthy current_id) then Some None
      else
        match fuel with
        | O => None
        | S fuel' =>
            match get_event t cid with
            | None => Some None
            | Some event =>
                if String.eqb (event_type event) "ollama_generation"
                   && truthy (ollama_request_id event)
                then Some (Some event)
                else last_ollama_event fuel' t (parent_event_id event)
            end
        end
  end.

(** The request id that [undo_last_ollama] passes to
    [undo_ollama_generation], if it finds one. *)
Definition request_id_to_undo (fuel : nat) (t : StoryTimeline datetime)
    : option (option string) :=
  match last_ollama_event fuel t (head_event_id t) with
  | Some (Some last) =>
      if truthy (ollama_request_id last) then Some (ollama_request_id last)
      else Some None
  | Some None => Some None
  | None => None
  end.

End Timeline.

(** ** A runtime to compute with

    Naive [datetime] values as CPython holds them (validated fields), with
    [str], [isoformat] and [fromisoformat] on the texts [isoformat] emits.
    [dumps] and [str_hash] stand for [json.dumps] and the per-process
    [hash]: the timeline only uses that equal payloads give equal numbers. *)
Module Ref.
#[local] Open Scope N_scope.

Record date_fields : Type := mkFields {
  year : N; month : N; day : N;
  hour : N; minute : N; second : N; microsecond : N
}.

Definition is_leap (y : N) : bool :=
  ((y mod 4 =? 0) && negb (y mod 100 =? 0)) || (y mod 400 =? 0).

Definition days_in_month (y m : N) : N :=
  match m with
  | 2 => if is_leap y then 29 else 28
  | 4 | 6 | 9 | 11 => 30
  | _ => 31
  end.

Definition valid (f : date_fields) : bool :=
  (1 <=? year f) && (year f <=? 9999)
  && (1 <=? month f) && (month f <=? 12)
  && (1 <=? day f) && (day f <=? days_in_month (year f) (month f))
  && (hour f <? 24) && (minute f <? 60) && (second f <? 60)
  && (microsecond f <? 1000000).

Record date_time : Type := mkDateTime {
  fields : date_fields;
  fields_ok : valid fields = true
}.

Definition digit (n : N) : ascii := ascii_of_N (48 + n).

Definition digit_val (c : ascii) : option N :=
  let n := N_of_ascii c in
  if (48 <=? n) && (n <=? 57) then Some (n - 48) else None.

(** [n] on [w] digits, zero-padded. *)
Fixpoint pad (w : nat) (n : N) : string :=
  match w with
  | O => EmptyString
  | S w' => String (digit ((n / 10 ^ N.of_nat w') mod 10)) (pad w' n)
  end.

(** Reads [w] digits. *)
Fixpoint read (w : nat) (s : string) (acc : N) : option (N * string) :=
  match w with
  | O => Some (acc, s)
  | S w' =>
      match s with
      | String c s' =>
          match digit_val c with
          | Some v => read w' s' (10 * acc + v)
          | None => None
          end
      | EmptyString => None
      end
  end.

Definition expect (c : ascii) (s : string) : option string :=
  match s with
  | String c' s' => if Ascii.eqb c c' then Some s' else None
  | EmptyString => None
  end.

Definition render (sep : string) (f : date_fields) : string :=
  (pad 4 (year f) ++ "-" ++ pad 2 (month f) ++ "-" ++ pad 2 (day f) ++ sep
   ++ pad 2 (hour f) ++ ":" ++ pad 2 (minute f) ++ ":" ++ pad 2 (second f)
   ++ (if (microsecond f =? 0)%N then "" else "." ++ pad 6 (microsecond f)))%string.

Definition parse_fields (s : string) : option date_fields :=
  match read 4 s 0 with
  | Some (y, s) =>
  match expect "-" s with
  | Some s =>
  match read 2 s 0 with
  | Some (mo, s) =>
  match expect "-" s with
  | Some s =>
  match read 2 s 0 with
  | Some (d, s) =>
  match expect "T" s with
  | Some s =>
  match read 2 s 0 with
  | Some (h, s) =>
  match expect ":" s with
  | Some s =>
  match read 2 s 0 with
  | Some (mi, s) =>
  match expect ":" s with
  | Some s =>
  match read 2 s 0 with
  | Some (se, s) =>
      match s with
      | EmptyString => Some (mkFields y mo d h mi se 0)
      | String c s' =>
          if Ascii.eqb c "." then
            match read 6 s' 0 with
            | Some (us, EmptyString) => Some (mkFields y mo d h mi se us)
            | _ => None
            end
          else None
      end
  | None => None end
  | None => None end
  | None => None end
  | None => None end
  | None => None end
  | None => None end
  | None => None end
  | None => None end
  | None => None end
  | None => None end
  | None => None end.

Definition check (f : date_fields) : option date_time :=
  match bool_dec (valid f) true with
  | left H => Some (mkDateTime f H)
  | right _ => None
  end.

Definition parse (s : string) : option date_time :=
  match parse_fields s with
  | Some f => check f
  | None => None
  end.

Definition quote : string := String (ascii_of_nat 34) EmptyString.

Fixpoint dumps (j : json) : string :=
  match j with
  | JNull => "null"
  | JBool true => "true"
  | JBool false => "false"
  | JInt n => str_int n
  | JFloat b => "0x" ++ str_int b
  | JStr s => quote ++ s ++ quote
  | JArr l =>
      "["
      ++ (fix go (l : list json) : string :=
            match l with
            | [] => ""
            | x :: l' =>
                dumps x ++ match l' with [] => "" | _ :: _ => ", " ++ go l' end
            end) l
      ++ "]"
  | JObj m =>
      "{"
      ++ (fix go (m : list (string * json)) : string :=
            match m with
            | [] => ""
            | (k, x) :: m' =>
                quote ++ k ++ quote ++ ": " ++ dumps x
                ++ match m' with [] => "" | _ :: _ => ", " ++ go m' end
            end) m
      ++ "}"
  end.

Fixpoint str_hash_from (h : Z) (s : string) : Z :=
  match s with
  | EmptyString => h
  | String c s' =>
      str_hash_from ((31 * h + Z.of_N (N_of_ascii c)) mod 2305843009213693951)%Z s'
  end.

Definition str_hash (s : string) : Z := str_hash_from 7%Z s.

Definition to_str (j : json) : string :=
  match j with
  | JNull => "None"
  | JBool true => "True"
  | JBool false => "False"
  | JStr s => s
  | _ => dumps j
  end.

Definition runtime : Runtime :=
  {| datetime := date_time;
     datetime_str := fun t => render " " (fields t);
     isoformat := fun t => render "T" (fields t);
     fromisoformat := parse;
     json_dumps := dumps;
     hash := str_hash;
     py_str := to_str |}.

(** The instant [2024-05-01 10:00:00.us], for examples. *)
Definition at_us (us : N)
    (H : valid (mkFields 2024 5 1 10 0 0 us) = true) : date_time :=
  mkDateTime (mkFields 2024 5 1 10 0 0 us) H.

End Ref.

(** ** The vocabulary of the properties *)

(** The strings of a list are pairwise distinct. *)
Fixpoint all_distinct (l : list string) : bool :=
    match l with
    | [] => true
    | x :: l' => negb (existsb (String.eqb x) l') && all_distinct l'
    end.

Section Vocabulary.
Context {R : Runtime}.
Open Scope list_scope.

(** [e'] is [e] up to its list of children. *)
Definition same_but_children (e e' : StoryEvent datetime) : Prop :=
  e' = set_child_event_ids (child_event_ids e') e.

(** The event under a key after the inner loop: a new parent when the key
    is among the saved children, and the saved children that are in
    [events] appended when the key is the branch event. *)
Definition reattached (b : string) (ex : list string) (mem : string -> bool)
    (x : string) (e : StoryEvent datetime) : StoryEvent datetime :=
  let e1 := if existsb (String.eqb x) ex
            then set_parent_event_id (Some b) e else e in
  if String.eqb x b
  then set_child_event_ids (child_event_ids e1 ++ filter mem ex) e1
  else e1.

(** A run of [add_asset] calls, stopping at the first exception. *)
Fixpoint add_assets (calls : list (string * string * json)) (t : StoryTimeline datetime)
    : outcome (list bool * StoryTimeline datetime) :=
  match calls with
  | [] => Returns ([], t)
  | (category, asset_id, asset_data) :: rest =>
      r <- add_asset category asset_id asset_data t ;;
      rs <- add_assets rest (snd r) ;;
      Returns (fst r :: fst rs, snd rs)
  end.

(** The links of a dict of events are in order: a parent is in the dict
    and lists the child; an event is bound to its own id; no key is the
    empty string; a listed child is in the dict, listed once, and has the
    listing event as parent. *)
Record good (evs : dict (StoryEvent datetime)) : Prop := mkGood {
  g_links : forall k e p,
    dict_get k evs = Some e -> parent_event_id e = Some p ->
    exists ep, dict_get p evs = Some ep /\ In (event_id e) (child_event_ids ep);
  g_ids : forall k e, dict_get k evs = Some e -> event_id e = k;
  g_nonempty : dict_mem "" evs = false;
  g_nodup : forall k e, dict_get k evs = Some e -> NoDup (child_event_ids e);
  g_parent_of : forall k e c,
    dict_get k evs = Some e -> In c (child_event_ids e) ->
    exists ec, dict_get c evs = Some ec /\ parent_event_id ec = Some k
}.

(** The invariant of the reachable timelines: the links are in order and
    the head, when there is one, is in [events]. *)
Definition Inv (t : StoryTimeline datetime) : Prop :=
  good (events t)
  /\ NoDup (dict_keys (events t))
  /\ forall h, head_event_id t = Some h -> dict_mem h (events t) = true.

(** [parent_event_id] is omitted or it is a key of [events]. *)
Definition parent_ok (parent : option string) (t : StoryTimeline datetime)
    : bool :=
  match parent with
  | None => true
  | Some p => dict_mem p (events t)
  end.

(** The ids that the loop of [create_branch_point] generates from turn
    [i] on. *)
Fixpoint branch_ids (clock : nat -> datetime) (i : nat)
    (choices : list BranchChoice) : list string :=
  match choices with
  | [] => []
  | c :: rest =>
      make_event_id (clock i) "branch_option" (choice_payload c)
      :: branch_ids clock (S i) rest
  end.

(** None of the ids is a key of [events]. *)
Definition all_fresh (ids : list string) (t : StoryTimeline datetime) : bool :=
  forallb (fun id => negb (dict_mem id (events t))) ids.

(** Every event that carries [req] has no children. *)
Definition childless (req : option string) (t : StoryTimeline datetime)
    : bool :=
  forallb (fun kv => negb (opt_eqb (ollama_request_id (snd kv)) req)
                     || is_nil (child_event_ids (snd kv)))
    (events t).

(** Every event with a parent has that parent in [events], and the parent
    lists it. *)
Definition links_consistent (t : StoryTimeline datetime) : Prop :=
  forall k e p,
    dict_get k (events t) = Some e -> parent_event_id e = Some p ->
    exists ep, dict_get p (events t) = Some ep
               /\ In (event_id e) (child_event_ids ep).

(** Any sequence of public calls from the empty timeline, [add_event]
    with a parent that is omitted or in [events]. *)
Inductive api_reachable : StoryTimeline datetime -> Prop :=
| api_init : api_reachable init_timeline
| api_add_event now ety d parent req t :
    api_reachable t ->
    parent_ok parent t = true ->
    api_reachable (snd (add_event now ety d parent req t))
| api_create_branch_point clock eid choices t :
    api_reachable t ->
    api_reachable (snd (create_branch_point clock eid choices t))
| api_select_branch branch_id t :
    api_reachable t ->
    api_reachable (snd (select_branch branch_id t))
| api_undo req t :
    api_reachable t ->
    api_reachable (snd (undo_ollama_generation req t))
| api_add_asset category asset_id asset_data t r :
    api_reachable t ->
    add_asset category asset_id asset_data t = Returns r ->
    api_reachable (snd r)
| api_remove_asset category asset_id t r :
    api_reachable t ->
    remove_asset category asset_id t = Returns r ->
    api_reachable (snd r).

(** The same calls, with every generated id new, at least one option
    given to [create_branch_point], and [undo_ollama_generation] called
    when the events it removes have no children. *)
Inductive reachable : StoryTimeline datetime -> Prop :=
| reach_init : reachable init_timeline
| reach_add_event now ety d parent req t :
    reachable t ->
    parent_ok parent t = true ->
    dict_mem (make_event_id now ety d) (events t) = false ->
    reachable (snd (add_event now ety d parent req t))
| reach_create_branch_point clock eid choices t :
    reachable t ->
    is_nil choices = false ->
    all_distinct (branch_ids clock 0 choices) = true ->
    all_fresh (branch_ids clock 0 choices) t = true ->
    reachable (snd (create_branch_point clock eid choices t))
| reach_select_branch branch_id t :
    reachable t ->
    reachable (snd (select_branch branch_id t))
| reach_undo req t :
    reachable t ->
    childless req t = true ->
    reachable (snd (undo_ollama_generation req t))
| reach_add_asset category asset_id asset_data t r :
    reachable t ->
    add_asset category asset_id asset_data t = Returns r ->
    reachable (snd r)
| reach_remove_asset category asset_id t r :
    reachable t ->
    remove_asset category asset_id t = Returns r ->
    reachable (snd r).

(** The entries that the loop of [create_branch_point] appends to
    [branch_choices] from turn [i] on. *)
Fixpoint branch_entries (clock : nat -> datetime) (i : nat)
    (choices : list BranchChoice) : list json :=
  match choices with
  | [] => []
  | c :: rest =>
      choice_entry c (make_event_id (clock i) "branch_option" (choice_payload c))
      :: branch_entries clock (S i) rest
  end.

(** What the first turn of the loop leaves under a key, from what was
    there before the call, when the branch point [a] under [eid] has all
    its children in [events] and the id of the turn is new. *)
Definition first_lookup (now : datetime) (eid : string) (a : StoryEvent datetime)
    (c : BranchChoice) (k : string) (o : option (StoryEvent datetime))
    : option (StoryEvent datetime) :=
  let bid := make_event_id now "branch_option" (choice_payload c) in
  if String.eqb k bid
  then Some (set_child_event_ids (child_event_ids a)
               (new_StoryEvent now "branch_option" (choice_payload c) (Some eid) None))
  else option_map
         (fun e =>
            let e1 := if String.eqb k eid
                      then append_child bid
                             (set_branch_choices []
                                (set_child_event_ids [] (set_is_branch_point true e)))
                      else e in
            let e2 := if existsb (String.eqb k) (child_event_ids a)
                      then set_parent_event_id (Some bid) e1 else e1 in
            if String.eqb k eid then append_choice (choice_entry c bid) e2 else e2)
         o.

(** What the turns of the loop after the first leave under a key, from what
    was there before them, when none of their ids is [eid]. *)
Fixpoint later_lookup (clock : nat -> datetime) (i : nat) (eid : string)
    (choices : list BranchChoice) (k : string)
    (o : option (StoryEvent datetime)) : option (StoryEvent datetime) :=
  match choices with
  | [] => o
  | c :: rest =>
      let bid := make_event_id (clock i) "branch_option" (choice_payload c) in
      later_lookup clock (S i) eid rest k
        (if String.eqb k bid
         then Some (new_StoryEvent (clock i) "branch_option" (choice_payload c)
                      (Some eid) None)
         else if String.eqb k eid
              then option_map (fun e => append_choice (choice_entry c bid)
                                          (append_child bid e)) o
              else o)
  end.

(** What [add_asset] stores for a value: the value when it is a dict,
    else [{'path': str(value)}]. *)
Definition stored_asset (asset_data : json) : json :=
  match asset_data with
  | JObj _ => asset_data
  | _ => JObj [("path", JStr (py_str asset_data))]
  end.

(** The registry has the four categories of [__init__], each a dict. *)
Definition four_buckets (a : json) : Prop :=
  exists b1 b2 b3 b4,
    a = JObj [("backgrounds", JObj b1); ("characters", JObj b2);
              ("sounds", JObj b3); ("music", JObj b4)].

Definition is_category (c : string) : bool :=
  existsb (String.eqb c) ["backgrounds"; "characters"; "sounds"; "music"].

(** An entry of [branch_choices] as [create_branch_point] writes it. *)
Definition entry_ok (c : json) : Prop :=
  exists text target, c = JObj [("text", JStr text); ("target_id", JStr target)].

Definition choices_ok (evs : dict (StoryEvent datetime)) : Prop :=
  Forall (fun kv => Forall entry_ok (branch_choices (snd kv))) evs.

(** Following [parent_event_id] cannot go on forever: every event sits
    strictly above its parent in some ranking of the ids. *)
Definition ranked (evs : dict (StoryEvent datetime)) : Prop :=
  exists rank : string -> nat,
    forall k e p, dict_get k evs = Some e -> parent_event_id e = Some p ->
                  rank p < rank k.

(** [up] is the line of events from [cur] up to a root: each one is in
    [events] under its id, the next one is its parent, the last has none. *)
Fixpoint line_to_root (t : StoryTimeline datetime) (cur : option string)
    (up : list (StoryEvent datetime)) : Prop :=
  match up with
  | [] => cur = None
  | e :: rest =>
      cur = Some (event_id e)
      /\ dict_get (event_id e) (events t) = Some e
      /\ line_to_root t (parent_event_id e) rest
  end.
End Vocabulary.

(** ** Timelines and files to compute with *)
Section ExampleData.
#[local] Existing Instance Ref.runtime.

Definition at1 : datetime := Ref.at_us 1%N eq_refl.
Definition at2 : datetime := Ref.at_us 2%N eq_refl.
Definition at3 : datetime := Ref.at_us 3%N eq_refl.
Definition at4 : datetime := Ref.at_us 4%N eq_refl.
Definition at5 : datetime := Ref.at_us 5%N eq_refl.

Definition text_payload (s : string) : json := JObj [("text", JStr s)].
Definition generation_payload (s : string) : json :=
  JObj [("prompt", JStr "next"); ("response", JStr s); ("suggestions", JArr [])].

(** One text event, then two generated events of the request ["g1"], the
    second attached to the first; the head is the last one. *)
Definition story_root : string * StoryTimeline datetime :=
  add_event at1 "text_node" (text_payload "start") None None init_timeline.
Definition story_gen1 : string * StoryTimeline datetime :=
  add_event at2 "ollama_generation" (generation_payload "a") None (Some "g1")
    (snd story_root).
Definition story_gen2 : string * StoryTimeline datetime :=
  add_event at3 "ollama_generation" (generation_payload "b") None (Some "g1")
    (snd story_gen1).
Definition story_chain : StoryTimeline datetime := snd story_gen2.

(** One text event, one generated event, then a text event after it. *)
Definition story_text_after : string * StoryTimeline datetime :=
  add_event at3 "text_node" (text_payload "then") None None (snd story_gen1).

(** An event with two children. *)
Definition fork_c1 : string * StoryTimeline datetime :=
  add_event at2 "text_node" (text_payload "left") (Some (fst story_root)) None
    (snd story_root).
Definition fork_c2 : string * StoryTimeline datetime :=
  add_event at3 "text_node" (text_payload "right") (Some (fst story_root)) None
    (snd fork_c1).
Definition fork : StoryTimeline datetime := snd fork_c2.

Definition option_x : BranchChoice :=
  mkBranchChoice "x" (Some (JObj [("content", JStr "")])).
Definition option_y : BranchChoice :=
  mkBranchChoice "y" (Some (JObj [("content", JStr "")])).

Definition stuck_clock : nat -> datetime := fun _ => at4.
Definition ticking_clock : nat -> datetime :=
  fun i => match i with O => at4 | _ => at5 end.

(** A story, a generated event, then two options at two readings of the
    clock, a choice among them, an asset, and the undo of the generation. *)
Definition studio_gen : string * StoryTimeline datetime :=
  add_event at2 "ollama_generation" (generation_payload "a")
    (Some (fst story_root)) (Some "g1") (snd story_root).
Definition studio_text : string * StoryTimeline datetime :=
  add_event at3 "text_node" (text_payload "plain") (Some (fst story_root)) None
    (snd studio_gen).
Definition studio_branch : (bool * list string) * StoryTimeline datetime :=
  create_branch_point ticking_clock (fst story_root) [option_x; option_y]
    (snd studio_text).
Definition studio_selected : bool * StoryTimeline datetime :=
  select_branch (make_event_id at4 "branch_option" (choice_payload option_x))
    (snd studio_branch).
Definition studio_undone : bool * StoryTimeline datetime :=
  undo_ollama_generation (Some "g1") (snd studio_selected).
Definition studio : StoryTimeline datetime := snd studio_undone.

(** Files: nothing anywhere, and a project file without an ["assets"] key. *)
Definition no_files : files := fun _ => Missing.
Definition old_project : files :=
  write_file "old.json"
    (Document (JObj [("events", JObj []); ("head_event_id", JNull)])) no_files.

Definition list_project : files :=
  write_file "list.json" (Document (JArr [])) no_files.

(** One background added to the empty registry, then removed. *)
Definition with_sky : StoryTimeline datetime :=
  match add_asset "backgrounds" "sky.png" (JStr "assets/sky.png") init_timeline with
  | Returns r => snd r
  | _ => init_timeline
  end.
Definition without_sky : StoryTimeline datetime :=
  match remove_asset "backgrounds" "sky.png" with_sky with
  | Returns r => snd r
  | _ => with_sky
  end.

(** The root of [studio_text] and the first option of [studio_branch]. *)
Definition studio_root_event : StoryEvent datetime :=
  append_child (fst studio_text)
    (append_child (fst studio_gen)
       (new_StoryEvent at1 "text_node" (text_payload "start") None None)).
Definition studio_option_x : StoryEvent datetime :=
  set_child_event_ids [fst studio_gen; fst studio_text]
    (new_StoryEvent at4 "branch_option" (choice_payload option_x)
       (Some (fst story_root)) None).

(** Two calls of [add_event] at one reading of the clock. *)
Definition same_instant : StoryTimeline datetime :=
  snd (add_event at1 "text_node" (text_payload "start") None None (snd story_root)).
End ExampleData.







(** ** Lemmas on dictionaries *)
Section DictFacts.
Context {V : Type}.
Implicit Types (d : dict V) (k : string).

Lemma dict_get_set k k' (v : V) d :
  dict_get k' (dict_set k v d)
  = if String.eqb k' k then Some v else dict_get k' d.
Proof.
  induction d as [|[k0 v0] d IH]; simpl.
  - destruct (String.eqb k' k); reflexivity.
  - destruct (String.eqb_spec k k0) as [->|Hk]; simpl.
    + destruct (String.eqb k' k0); reflexivity.
    + rewrite IH. destruct (String.eqb_spec k' k0) as [->|Hk0].
      * rewrite (proj2 (String.eqb_neq k0 k)) by congruence. reflexivity.
      * reflexivity.
Qed.

Lemma dict_get_modify k k' (f : V -> V) d :
  dict_get k' (dict_modify k f d)
  = if String.eqb k' k then option_map f (dict_get k' d) else dict_get k' d.
Proof.
  induction d as [|[k0 v0] d IH]; simpl.
  - destruct (String.eqb k' k); reflexivity.
  - destruct (String.eqb_spec k k0) as [->|Hk]; simpl.
    + destruct (String.eqb k' k0); reflexivity.
    + rewrite IH. destruct (String.eqb_spec k' k0) as [->|Hk0].
      * rewrite (proj2 (String.eqb_neq k0 k)) by congruence. reflexivity.
      * reflexivity.
Qed.

Lemma dict_get_del_other k k' d :
  k' <> k -> dict_get k' (dict_del k d) = dict_get k' d.
Proof.
  intros Hne. induction d as [|[k0 v0] d IH]; simpl; [reflexivity|].
  destruct (String.eqb_spec k k0) as [->|Hk]; simpl.
  - rewrite (proj2 (String.eqb_neq k' k0)) by exact Hne. reflexivity.
  - rewrite IH. reflexivity.
Qed.

Lemma dict_keys_modify k (f : V -> V) d :
  dict_keys (dict_modify k f d) = dict_keys d.
Proof.
  unfold dict_keys.
  induction d as [|[k0 v0] d IH]; simpl; [reflexivity|].
  destruct (String.eqb k k0); simpl; [reflexivity|].
  f_equal. exact IH.
Qed.

Lemma dict_get_In k d (v : V) : dict_get k d = Some v -> In (k, v) d.
Proof.
  induction d as [|[k0 v0] d IH]; simpl; [discriminate|].
  destruct (String.eqb_spec k k0) as [->|Hk].
  - intros [= ->]. now left.
  - intros H. right. now apply IH.
Qed.

Lemma dict_get_None k d : dict_get k d = None <-> ~ In k (dict_keys d).
Proof.
  induction d as [|[k0 v0] d IH]; simpl.
  - tauto.
  - destruct (String.eqb_spec k k0) as [->|Hk].
    + split; [discriminate | intros H; exfalso; apply H; now left].
    + rewrite IH. unfold dict_keys. split.
      * intros H [E|E]; [congruence | exact (H E)].
      * intros H E. apply H. now right.
Qed.

Lemma dict_mem_In k d : dict_mem k d = true <-> In k (dict_keys d).
Proof.
  unfold dict_mem. destruct (dict_get k d) as [v|] eqn:E.
  - split; [intros _ | reflexivity].
    apply dict_get_In in E. unfold dict_keys.
    change k with (fst (k, v)). now apply in_map.
  - split; [discriminate|]. intros H. apply dict_get_None in E. contradiction.
Qed.

Lemma In_dict_get k d (v : V) :
  NoDup (dict_keys d) -> In (k, v) d -> dict_get k d = Some v.
Proof.
  induction d as [|[k0 v0] d IH]; simpl; [tauto|].
  intros Hnd [E|E].
  - injection E as -> ->. now rewrite String.eqb_refl.
  - inversion Hnd as [|? ? Hnotin Hnd']; subst.
    destruct (String.eqb_spec k k0) as [->|Hk].
    + exfalso. apply Hnotin. change k0 with (fst (k0, v)). now apply in_map.
    + now apply IH.
Qed.

Lemma dict_keys_del k d :
  NoDup (dict_keys d) ->
  dict_keys (dict_del k d)
  = filter (fun k' => negb (String.eqb k' k)) (dict_keys d).
Proof.
  induction d as [|[k0 v0] d IH]; simpl; [reflexivity|].
  intros Hnd. inversion Hnd as [|? ? Hnotin Hnd']; subst.
  destruct (String.eqb_spec k k0) as [->|Hk].
  - rewrite String.eqb_refl. simpl.
    symmetry. apply forallb_filter_id. apply forallb_forall.
    intros x Hx. apply negb_true_iff. apply String.eqb_neq.
    intros ->. contradiction.
  - rewrite (proj2 (String.eqb_neq k0 k)) by congruence. simpl.
    f_equal. now apply IH.
Qed.
End DictFacts.

(** ** add_event *)
Section AddEvent.
Context {R : Runtime}.

Lemma add_event_id now ety d parent req t :
  fst (add_event now ety d parent req t) = make_event_id now ety d.
Proof. reflexivity. Qed.

(** C9. After [add_event], whatever parent was given (the head, another
    event, an id that is not in [events], or none), [head_event_id] is the
    id the call returned. *)
Theorem add_event_advances_head now ety d parent req t :
  head_event_id (snd (add_event now ety d parent req t))
  = Some (fst (add_event now ety d parent req t)).
Proof. reflexivity. Qed.

(** C8. With a parent id that is not a key of [events], [add_event] still
    returns: the new event is in [events] under the returned id with the
    given id as its [parent_event_id], and every event that was in
    [events] under another key is there unchanged, its [child_event_ids]
    included. *)
Theorem add_event_unknown_parent now ety d p req t :
  dict_mem p (events t) = false ->
  let new_id := fst (add_event now ety d (Some p) req t) in
  let t' := snd (add_event now ety d (Some p) req t) in
  new_id = make_event_id now ety d
  /\ (exists e, dict_get new_id (events t') = Some e
                /\ event_id e = new_id
                /\ parent_event_id e = Some p
                /\ (p <> new_id -> e = new_StoryEvent now ety d (Some p) req))
  /\ (forall k e, dict_get k (events t) = Some e -> k <> new_id ->
                  dict_get k (events t') = Some e)
  /\ (forall k, dict_get k (events t) = None -> k <> new_id ->
                dict_get k (events t') = None).
Proof.
  intros Hp. cbn zeta. unfold add_event. cbn [fst snd events event_id new_StoryEvent].
  set (nid := make_event_id now ety d).
  set (ne := new_StoryEvent now ety d (Some p) req).
  assert (Hmem : dict_mem p (dict_set nid ne (events t)) = String.eqb p nid).
  { unfold dict_mem in *. rewrite dict_get_set.
    destruct (String.eqb p nid); [reflexivity|].
    destruct (dict_get p (events t)); [discriminate | reflexivity]. }
  rewrite Hmem.
  assert (Hother : forall k, k <> nid ->
             dict_get k (dict_modify p (append_child nid) (dict_set nid ne (events t)))
             = dict_get k (events t)
             /\ dict_get k (dict_set nid ne (events t)) = dict_get k (events t)).
  { intros k Hne. rewrite dict_get_modify, dict_get_set.
    rewrite (proj2 (String.eqb_neq k nid)) by exact Hne.
    destruct (String.eqb_spec k p) as [->|Hkp]; [|now split].
    unfold dict_mem in Hp. destruct (dict_get p (events t)); [discriminate|].
    now split. }
  split; [reflexivity|]. split; [|split].
  - destruct (String.eqb_spec p nid) as [E|E].
    + destruct (truthy (Some p)); cbn [andb].
      * exists (append_child nid ne). rewrite dict_get_modify, dict_get_set.
        rewrite E, String.eqb_refl. cbn. repeat split; congruence.
      * exists ne. rewrite dict_get_set, String.eqb_refl. repeat split.
    + rewrite andb_false_r.
      exists ne. rewrite dict_get_set, String.eqb_refl. repeat split.
  - intros k e Hk Hne. destruct (Hother k Hne) as [H1 H2].
    destruct (truthy (Some p) && String.eqb p nid); congruence.
  - intros k Hk Hne. destruct (Hother k Hne) as [H1 H2].
    destruct (truthy (Some p) && String.eqb p nid); congruence.
Qed.

Lemma add_event_keys now ety d parent req t :
  dict_keys (events (snd (add_event now ety d parent req t)))
  = dict_keys (dict_set (make_event_id now ety d)
                 (new_StoryEvent now ety d
                    match parent with None => head_event_id t | Some _ => parent end
                    req)
                 (events t)).
Proof.
  unfold add_event. cbn [snd events event_id new_StoryEvent].
  destruct parent as [p|]; [|destruct (head_event_id t) as [p|]];
    try reflexivity;
    (destruct (truthy (Some p) && _); [apply dict_keys_modify | reflexivity]).
Qed.

Lemma dict_keys_set_bound {V : Type} k (v : V) (d0 : dict V) :
  dict_mem k d0 = true -> dict_keys (dict_set k v d0) = dict_keys d0.
Proof.
  induction d0 as [|[k0 v0] d0 IH]; [discriminate|].
  unfold dict_mem. simpl.
  destruct (String.eqb k k0) eqn:E; [reflexivity|].
  intros H. cbn. f_equal. apply IH. exact H.
Qed.

Lemma dict_mem_set_same {V : Type} k (v : V) (d0 : dict V) :
  dict_mem k (dict_set k v d0) = true.
Proof. unfold dict_mem. now rewrite dict_get_set, String.eqb_refl. Qed.

(** C3. Two calls of [add_event] that read the same instant from the
    clock and get the same kind and payload produce the same id, and the
    second call binds no new key: the event of the first call is no
    longer in [events]. *)
Theorem add_event_same_reading_same_id now ety d p1 r1 p2 r2 t :
  let call1 := add_event now ety d p1 r1 t in
  let call2 := add_event now ety d p2 r2 (snd call1) in
  fst call1 = fst call2
  /\ dict_keys (events (snd call2)) = dict_keys (events (snd call1)).
Proof.
  cbn zeta. split; [reflexivity|].
  rewrite add_event_keys. apply dict_keys_set_bound.
  apply dict_mem_In. rewrite add_event_keys. apply dict_mem_In.
  apply dict_mem_set_same.
Qed.
End AddEvent.

(** ** undo_ollama_generation *)

Lemma opt_eqb_eq (a b : option string) : opt_eqb a b = true <-> a = b.
Proof.
  destruct a as [x|], b as [y|]; simpl; try (split; congruence).
  rewrite String.eqb_eq. split; congruence.
Qed.

Lemma opt_eqb_neq (a b : option string) : opt_eqb a b = false <-> a <> b.
Proof.
  rewrite <- opt_eqb_eq. destruct (opt_eqb a b); split; congruence.
Qed.

Lemma filter_twice {A : Type} (f g : A -> bool) (l : list A) :
  filter f (filter g l) = filter (fun x => g x && f x) l.
Proof.
  induction l as [|a l IH]; cbn; [reflexivity|].
  destruct (g a); cbn; [destruct (f a)|]; now rewrite IH.
Qed.

Section Undo.
Context {R : Runtime}.


Lemma same_but_children_refl e : same_but_children e e.
Proof. destruct e; reflexivity. Qed.

Lemma same_but_children_trans e1 e2 e3 :
  same_but_children e1 e2 -> same_but_children e2 e3 -> same_but_children e1 e3.
Proof.
  unfold same_but_children. intros H12 H23. rewrite H23 at 1. rewrite H12.
  reflexivity.
Qed.

Lemma remove_child_same k e : same_but_children e (remove_child k e).
Proof.
  unfold remove_child. destruct (list_remove k (child_event_ids e)).
  - reflexivity.
  - apply same_but_children_refl.
Qed.

Lemma undo_step_keys t k :
  NoDup (dict_keys (events t)) ->
  dict_keys (events (undo_step t k))
  = filter (fun k' => negb (String.eqb k' k)) (dict_keys (events t)).
Proof.
  intros Hnd. rewrite <- dict_keys_del by exact Hnd.
  unfold undo_step. cbn [events set_head_event_id set_events].
  destruct (dict_get k (events t)) as [e|]; [|reflexivity].
  destruct (parent_event_id e) as [p|]; [|reflexivity].
  destruct (truthy (Some p)); [|reflexivity].
  destruct (dict_get p (dict_del k (events t))); [|reflexivity].
  apply dict_keys_modify.
Qed.

Lemma undo_step_get t k x :
  x <> k ->
  match dict_get x (events t) with
  | Some e => exists e', dict_get x (events (undo_step t k)) = Some e'
                         /\ same_but_children e e'
  | None => dict_get x (events (undo_step t k)) = None
  end.
Proof.
  intros Hx.
  assert (Hdel := dict_get_del_other k x (events t) Hx).
  unfold undo_step. cbn [events set_head_event_id set_events].
  set (evs := dict_del k (events t)) in *.
  assert (Hmod : forall p,
             dict_get x (dict_modify p (remove_child k) evs)
             = option_map (if String.eqb x p then remove_child k else fun e => e)
                 (dict_get x (events t))).
  { intros p. rewrite dict_get_modify, Hdel.
    destruct (String.eqb x p); [reflexivity|].
    destruct (dict_get x (events t)); reflexivity. }
  assert (Hgoal : forall p,
             match dict_get x (events t) with
             | Some e => exists e',
                   dict_get x (dict_modify p (remove_child k) evs) = Some e'
                   /\ same_but_children e e'
             | None => dict_get x (dict_modify p (remove_child k) evs) = None
             end).
  { intros p. rewrite Hmod. destruct (dict_get x (events t)) as [e|]; [|reflexivity].
    cbn. eexists. split; [reflexivity|].
    destruct (String.eqb x p);
      [apply remove_child_same | apply same_but_children_refl]. }
  assert (Hsame :
             match dict_get x (events t) with
             | Some e => exists e', dict_get x evs = Some e' /\ same_but_children e e'
             | None => dict_get x evs = None
             end).
  { rewrite Hdel. destruct (dict_get x (events t)) as [e|]; [|reflexivity].
    exists e. split; [reflexivity | apply same_but_children_refl]. }
  destruct (dict_get k (events t)) as [ek|]; [|exact Hsame].
  destruct (parent_event_id ek) as [p|]; [|exact Hsame].
  destruct (truthy (Some p)); [|exact Hsame].
  destruct (dict_get p evs); [apply Hgoal | exact Hsame].
Qed.

Lemma undo_step_head_other t k :
  head_event_id t <> Some k ->
  head_event_id (undo_step t k) = head_event_id t.
Proof.
  intros H. unfold undo_step. cbn [head_event_id set_head_event_id].
  rewrite (proj2 (opt_eqb_neq _ _) H). reflexivity.
Qed.

Lemma undo_step_head_same t k e :
  head_event_id t = Some k -> dict_get k (events t) = Some e ->
  head_event_id (undo_step t k) = parent_event_id e.
Proof.
  intros H He. unfold undo_step. cbn [head_event_id set_head_event_id].
  rewrite H, He. cbn. rewrite String.eqb_refl. reflexivity.
Qed.

Lemma undo_step_NoDup t k :
  NoDup (dict_keys (events t)) -> NoDup (dict_keys (events (undo_step t k))).
Proof.
  intros Hnd. rewrite undo_step_keys by exact Hnd. now apply NoDup_filter.
Qed.

Lemma undo_fold_keys ks : forall t,
  NoDup (dict_keys (events t)) ->
  dict_keys (events (fold_left undo_step ks t))
  = filter (fun k' => negb (existsb (String.eqb k') ks)) (dict_keys (events t)).
Proof.
  induction ks as [|k ks IH]; intros t Hnd; cbn [fold_left existsb].
  - symmetry. apply forallb_filter_id. apply forallb_forall. reflexivity.
  - rewrite IH by (now apply undo_step_NoDup).
    rewrite undo_step_keys by exact Hnd.
    rewrite filter_twice. apply filter_ext. intros x.
    destruct (String.eqb x k); reflexivity.
Qed.

Lemma undo_fold_get ks x : forall t,
  ~ In x ks ->
  match dict_get x (events t) with
  | Some e => exists e', dict_get x (events (fold_left undo_step ks t)) = Some e'
                         /\ same_but_children e e'
  | None => dict_get x (events (fold_left undo_step ks t)) = None
  end.
Proof.
  induction ks as [|k ks IH]; intros t Hx; cbn [fold_left].
  - destruct (dict_get x (events t)) as [e|]; [|reflexivity].
    exists e. split; [reflexivity | apply same_but_children_refl].
  - assert (Hk : x <> k) by (intros ->; apply Hx; now left).
    assert (Hks : ~ In x ks) by (intros H; apply Hx; now right).
    pose proof (undo_step_get t k x Hk) as H1.
    pose proof (IH (undo_step t k) Hks) as H2.
    destruct (dict_get x (events t)) as [e|].
    + destruct H1 as [e1 [E1 S1]]. rewrite E1 in H2.
      destruct H2 as [e2 [E2 S2]]. exists e2. split; [exact E2|].
      eapply same_but_children_trans; eassumption.
    + rewrite H1 in H2. exact H2.
Qed.

Lemma undo_fold_head_other ks : forall t,
  (forall k, In k ks -> head_event_id t <> Some k) ->
  head_event_id (fold_left undo_step ks t) = head_event_id t.
Proof.
  induction ks as [|k ks IH]; intros t H; cbn [fold_left]; [reflexivity|].
  assert (Hk : head_event_id (undo_step t k) = head_event_id t)
    by (apply undo_step_head_other, H; now left).
  rewrite IH; [exact Hk|].
  intros k' Hin. rewrite Hk. apply H. now right.
Qed.

(** The keys to remove, seen from [dict_get]. *)
Lemma events_to_remove_In req t k :
  NoDup (dict_keys (events t)) ->
  In k (events_to_remove req t)
  <-> exists e, dict_get k (events t) = Some e /\ ollama_request_id e = req.
Proof.
  intros Hnd. unfold events_to_remove. rewrite in_map_iff. split.
  - intros [[k' e] [Hk Hin]]. cbn in Hk. subst k'.
    apply filter_In in Hin. destruct Hin as [Hin Htag]. cbn in Htag.
    exists e. split; [now apply In_dict_get | now apply opt_eqb_eq].
  - intros [e [Hget Hreq]]. exists (k, e). split; [reflexivity|].
    apply filter_In. split; [now apply dict_get_In | now apply opt_eqb_eq].
Qed.

Lemma events_to_remove_NoDup req t :
  NoDup (dict_keys (events t)) -> NoDup (events_to_remove req t).
Proof.
  unfold events_to_remove, dict_keys.
  induction (events t) as [|[k e] evs IH]; cbn; [constructor|].
  intros Hnd. inversion Hnd as [|? ? Hnotin Hnd']; subst.
  destruct (opt_eqb (ollama_request_id e) req); cbn; [|now apply IH].
  constructor; [|now apply IH].
  intros Hin. apply Hnotin. apply in_map_iff in Hin.
  destruct Hin as [kv [E Hin]]. apply filter_In in Hin.
  rewrite <- E. apply in_map. tauto.
Qed.

Lemma dict_mem_get {V : Type} k (d : dict V) :
  dict_mem k d = true <-> exists v, dict_get k d = Some v.
Proof.
  unfold dict_mem. destruct (dict_get k d) as [v|].
  - split; [intros _; now exists v | reflexivity].
  - split; [discriminate | intros [v H]; discriminate].
Qed.

(** The events in [events] after the undo. *)
Lemma undo_survivors req t k :
  NoDup (dict_keys (events t)) ->
  dict_mem k (events (snd (undo_ollama_generation req t))) = true
  <-> exists e, dict_get k (events t) = Some e /\ ollama_request_id e <> req.
Proof.
  intros Hnd.
  assert (Hkeys : dict_keys (events (snd (undo_ollama_generation req t)))
                  = filter (fun k' => negb (existsb (String.eqb k')
                                             (events_to_remove req t)))
                      (dict_keys (events t))).
  { unfold undo_ollama_generation.
    destruct (events_to_remove req t) as [|k0 ks] eqn:E; cbn [is_nil snd].
    - symmetry. apply forallb_filter_id. apply forallb_forall. reflexivity.
    - cbn [events set_dirty]. now apply undo_fold_keys. }
  rewrite dict_mem_In, Hkeys, filter_In, <- dict_mem_In, dict_mem_get.
  rewrite negb_true_iff. split.
  - intros [[e He] Hnot]. exists e. split; [exact He|].
    intros Hreq. apply not_true_iff_false in Hnot. apply Hnot.
    apply existsb_exists. exists k. split; [|apply String.eqb_refl].
    apply events_to_remove_In; [exact Hnd|]. now exists e.
  - intros [e [He Hreq]]. split; [now exists e|].
    apply not_true_iff_false. intros Hex. apply existsb_exists in Hex.
    destruct Hex as [k' [Hin Heq]]. apply String.eqb_eq in Heq. subst k'.
    apply events_to_remove_In in Hin; [|exact Hnd].
    destruct Hin as [e' [He' Hreq']]. congruence.
Qed.
End Undo.

Section UndoClaims.
Context {R : Runtime}.

Lemma undo_flag req t :
  NoDup (dict_keys (events t)) ->
  fst (undo_ollama_generation req t) = true
  <-> exists k e, dict_get k (events t) = Some e /\ ollama_request_id e = req.
Proof.
  intros Hnd. unfold undo_ollama_generation.
  destruct (events_to_remove req t) as [|k0 ks] eqn:E; cbn [is_nil fst].
  - split; [discriminate|]. intros [k [e H]].
    assert (Hin : In k (events_to_remove req t))
      by (apply events_to_remove_In; [exact Hnd | now exists e]).
    rewrite E in Hin. destruct Hin.
  - split; [intros _ | reflexivity].
    assert (Hin : In k0 (events_to_remove req t)) by (rewrite E; now left).
    apply events_to_remove_In in Hin; [|exact Hnd].
    destruct Hin as [e H]. now exists k0, e.
Qed.

Lemma undo_not_ok req t :
  fst (undo_ollama_generation req t) = false ->
  snd (undo_ollama_generation req t) = t.
Proof.
  unfold undo_ollama_generation.
  destruct (is_nil (events_to_remove req t)); [reflexivity | discriminate].
Qed.

Lemma undo_survivor_same req t k e' :
  NoDup (dict_keys (events t)) ->
  dict_get k (events (snd (undo_ollama_generation req t))) = Some e' ->
  exists e, dict_get k (events t) = Some e /\ same_but_children e e'.
Proof.
  intros Hnd He'.
  assert (Hmem : dict_mem k (events (snd (undo_ollama_generation req t))) = true)
    by (apply dict_mem_get; now exists e').
  apply undo_survivors in Hmem; [|exact Hnd].
  destruct Hmem as [e [He Hreq]]. exists e. split; [exact He|].
  revert He'. unfold undo_ollama_generation.
  destruct (is_nil (events_to_remove req t)); cbn [snd].
  - intros He'. assert (e' = e) by congruence. subst e'.
    apply same_but_children_refl.
  - cbn [events set_dirty]. intros He'.
    assert (Hnot : ~ In k (events_to_remove req t)).
    { intros Hin. apply events_to_remove_In in Hin; [|exact Hnd].
      destruct Hin as [e0 [He0 Hreq0]]. congruence. }
    pose proof (undo_fold_get (events_to_remove req t) k t Hnot) as H.
    rewrite He in H. destruct H as [e1 [E1 S1]]. congruence.
Qed.

(** C5. [undo_ollama_generation r] keeps in [events] exactly the events
    whose [ollama_request_id] is not [r] (another id or none), each
    unchanged but for its list of children; it returns true exactly when
    some event left [events], which is when some event carried [r], and
    when it returns false the timeline is as before. *)
Theorem undo_removes_exactly_tagged (r : string) t :
  NoDup (dict_keys (events t)) ->
  let ok := fst (undo_ollama_generation (Some r) t) in
  let t' := snd (undo_ollama_generation (Some r) t) in
  (forall k, dict_mem k (events t') = true
             <-> exists e, dict_get k (events t) = Some e
                           /\ ollama_request_id e <> Some r)
  /\ (forall k e', dict_get k (events t') = Some e' ->
                   exists e, dict_get k (events t) = Some e
                             /\ same_but_children e e')
  /\ (ok = true <-> exists k, dict_mem k (events t) = true
                              /\ dict_mem k (events t') = false)
  /\ (ok = true <-> exists k e, dict_get k (events t) = Some e
                                /\ ollama_request_id e = Some r)
  /\ (ok = false -> t' = t).
Proof.
  intros Hnd. cbn zeta.
  split; [intros k; now apply undo_survivors|].
  split; [intros k e'; now apply undo_survivor_same|].
  split; [|split; [now apply undo_flag | apply undo_not_ok]].
  rewrite undo_flag by exact Hnd. split.
  - intros [k [e [He Hreq]]]. exists k. split; [apply dict_mem_get; now exists e|].
    apply not_true_iff_false. intros Hmem.
    apply undo_survivors in Hmem; [|exact Hnd].
    destruct Hmem as [e0 [He0 Hreq0]]. congruence.
  - intros [k [Hin Hout]]. apply dict_mem_get in Hin. destruct Hin as [e He].
    exists k, e. split; [exact He|].
    destruct (opt_eqb (ollama_request_id e) (Some r)) eqn:E;
      [now apply opt_eqb_eq|].
    apply opt_eqb_neq in E. apply not_true_iff_false in Hout.
    exfalso. apply Hout. apply undo_survivors; [exact Hnd | now exists e].
Qed.

(** The head after the undo, when the head event is removed and its
    parent is not: one step along [parent_event_id]. *)
Lemma undo_head_one_step req t h eh :
  NoDup (dict_keys (events t)) ->
  head_event_id t = Some h ->
  dict_get h (events t) = Some eh ->
  ollama_request_id eh = req ->
  (forall p, parent_event_id eh = Some p -> ~ In p (events_to_remove req t)) ->
  head_event_id (snd (undo_ollama_generation req t)) = parent_event_id eh.
Proof.
  intros Hnd Hhead Hget Hreq Hparent.
  assert (Hin : In h (events_to_remove req t))
    by (apply events_to_remove_In; [exact Hnd | now exists eh]).
  pose proof (events_to_remove_NoDup req t Hnd) as Hnd'.
  unfold undo_ollama_generation.
  destruct (events_to_remove req t) as [|k0 ks0] eqn:E; [destruct Hin|].
  cbn [is_nil snd head_event_id set_dirty]. rewrite <- E in *. clear E k0 ks0.
  apply in_split in Hin. destruct Hin as [ks1 [ks2 Eks]].
  rewrite Eks in *. rewrite fold_left_app. cbn [fold_left].
  apply NoDup_remove_2 in Hnd'.
  assert (H1 : ~ In h ks1) by (intros H; apply Hnd'; apply in_or_app; now left).
  assert (H2 : ~ In h ks2) by (intros H; apply Hnd'; apply in_or_app; now right).
  set (t1 := fold_left undo_step ks1 t).
  assert (Hhead1 : head_event_id t1 = Some h).
  { unfold t1. rewrite undo_fold_head_other; [exact Hhead|].
    intros k Hk. rewrite Hhead. intros [= <-]. contradiction. }
  pose proof (undo_fold_get ks1 h t H1) as Hget1. rewrite Hget in Hget1.
  destruct Hget1 as [eh1 [Hget1 Hsame]]. fold t1 in Hget1.
  assert (Hpar : parent_event_id eh1 = parent_event_id eh)
    by (rewrite Hsame; reflexivity).
  rewrite undo_fold_head_other.
  - rewrite (undo_step_head_same t1 h eh1 Hhead1 Hget1). exact Hpar.
  - intros k Hk. rewrite (undo_step_head_same t1 h eh1 Hhead1 Hget1), Hpar.
    intros Hp. apply (Hparent k Hp). apply in_or_app. right. now right.
Qed.

(** C1, as the program has it. When the head event is removed by
    [undo_ollama_generation r] and its parent is an event of the timeline
    that does not carry [r], the head is that parent after the call, and
    the parent is still in [events]. *)
Theorem undo_head_retreats_to_surviving_parent (r : string) t h eh p ep :
  NoDup (dict_keys (events t)) ->
  head_event_id t = Some h ->
  dict_get h (events t) = Some eh ->
  ollama_request_id eh = Some r ->
  parent_event_id eh = Some p ->
  dict_get p (events t) = Some ep ->
  ollama_request_id ep <> Some r ->
  let t' := snd (undo_ollama_generation (Some r) t) in
  head_event_id t' = Some p
  /\ dict_mem p (events t') = true
  /\ dict_mem h (events t') = false.
Proof.
  intros Hnd Hhead Hget Hreq Hpar Hp Hpreq. cbn zeta. split; [|split].
  - rewrite <- Hpar. apply (undo_head_one_step (Some r) t h eh); try assumption.
    intros p' Hp' Hin. apply events_to_remove_In in Hin; [|exact Hnd].
    destruct Hin as [e0 [He0 Hreq0]]. congruence.
  - apply undo_survivors; [exact Hnd | now exists ep].
  - apply not_true_iff_false. intros Hmem.
    apply undo_survivors in Hmem; [|exact Hnd].
    destruct Hmem as [e0 [He0 Hreq0]]. congruence.
Qed.
End UndoClaims.

(** ** create_branch_point *)

Section DictMem.
Context {V : Type}.
Lemma dict_mem_modify k k' (f : V -> V) (d : dict V) :
  dict_mem k' (dict_modify k f d) = dict_mem k' d.
Proof.
  unfold dict_mem. rewrite dict_get_modify.
  destruct (String.eqb k' k); [|reflexivity].
  destruct (dict_get k' d); reflexivity.
Qed.

Lemma dict_mem_set k k' (v : V) (d : dict V) :
  dict_mem k' (dict_set k v d) = String.eqb k' k || dict_mem k' d.
Proof.
  unfold dict_mem. rewrite dict_get_set.
  destruct (String.eqb k' k); reflexivity.
Qed.
End DictMem.

Ltac eqb_known :=
  repeat match goal with
    | |- context [String.eqb ?x ?x] => rewrite (String.eqb_refl x)
    | H : ?x <> ?y |- context [String.eqb ?x ?y] =>
        rewrite (proj2 (String.eqb_neq x y) H)
    | H : ?y <> ?x |- context [String.eqb ?x ?y] =>
        rewrite (proj2 (String.eqb_neq x y) (not_eq_sym H))
    end.

Section Branch.
Context {R : Runtime}.

(** What [add_event] leaves under a key. *)
Lemma add_event_get now ety d p req t k :
  dict_get k (events (snd (add_event now ety d (Some p) req t)))
  = let nid := make_event_id now ety d in
    let base := if String.eqb k nid
                then Some (new_StoryEvent now ety d (Some p) req)
                else dict_get k (events t) in
    if truthy (Some p) && (String.eqb p nid || dict_mem p (events t))
    then if String.eqb k p then option_map (append_child nid) base else base
    else base.
Proof.
  unfold add_event. cbn [snd events event_id new_StoryEvent]. cbn zeta.
  rewrite dict_mem_set.
  destruct (truthy (Some p) && _).
  - rewrite dict_get_modify, dict_get_set. reflexivity.
  - rewrite dict_get_set. reflexivity.
Qed.

Lemma add_event_mem now ety d parent req t k :
  dict_mem k (events (snd (add_event now ety d parent req t)))
  = String.eqb k (make_event_id now ety d) || dict_mem k (events t).
Proof.
  unfold add_event. cbn [snd events event_id new_StoryEvent].
  destruct parent as [p|]; [|destruct (head_event_id t) as [p|]];
    try (destruct (truthy (Some p) && _));
    rewrite ?dict_mem_modify, dict_mem_set; reflexivity.
Qed.

Lemma reattach_one_mem b evs c k :
  dict_mem k (reattach_one b evs c) = dict_mem k evs.
Proof.
  unfold reattach_one. destruct (dict_get c evs); [|reflexivity].
  now rewrite !dict_mem_modify.
Qed.

Lemma reattach_children_mem b ex : forall evs k,
  dict_mem k (reattach_children b ex evs) = dict_mem k evs.
Proof.
  unfold reattach_children.
  induction ex as [|c ex IH]; intros evs k; cbn [fold_left]; [reflexivity|].
  rewrite IH. apply (reattach_one_mem b evs c k).
Qed.


Lemma reattached_ext b ex mem mem' x e :
  (forall c, mem c = mem' c) ->
  reattached b ex mem x e = reattached b ex mem' x e.
Proof.
  intros H. unfold reattached. now rewrite (filter_ext _ _ H).
Qed.

Lemma reattach_children_get b ex : forall evs x,
  dict_get x (reattach_children b ex evs)
  = option_map (reattached b ex (fun c => dict_mem c evs) x) (dict_get x evs).
Proof.
  unfold reattach_children.
  induction ex as [|c ex IH]; intros evs x; cbn [fold_left].
  - destruct (dict_get x evs) as [e|]; [|reflexivity]. cbn. f_equal.
    unfold reattached. cbn. destruct (String.eqb x b); [|reflexivity].
    rewrite app_nil_r. now destruct e.
  - rewrite IH.
    assert (Hget : dict_get x (reattach_one b evs c)
                   = if dict_mem c evs
                     then option_map
                            (fun e =>
                               let e1 := if String.eqb x c
                                         then set_parent_event_id (Some b) e
                                         else e in
                               if String.eqb x b then append_child c e1 else e1)
                            (dict_get x evs)
                     else dict_get x evs).
    { unfold reattach_one, dict_mem. destruct (dict_get c evs); [|reflexivity].
      rewrite !dict_get_modify.
      destruct (String.eqb x b), (String.eqb x c), (dict_get x evs);
        reflexivity. }
    rewrite Hget.
    destruct (dict_get x evs) as [e|] eqn:Ex.
    + destruct (dict_mem c evs) eqn:Ec; cbn [option_map]; f_equal.
      * rewrite (reattached_ext _ _ _ (fun c0 => dict_mem c0 evs))
          by (intros c0; apply reattach_one_mem).
        unfold reattached. cbn [existsb filter]. rewrite Ec.
        destruct (String.eqb x c), (existsb (String.eqb x) ex),
          (String.eqb x b); destruct e; cbn;
          rewrite <- ?app_assoc; reflexivity.
      * rewrite (reattached_ext _ _ _ (fun c0 => dict_mem c0 evs))
          by (intros c0; apply reattach_one_mem).
        unfold reattached. cbn [existsb filter]. rewrite Ec.
        assert (Hxc : String.eqb x c = false).
        { apply String.eqb_neq. intros ->. unfold dict_mem in Ec.
          rewrite Ex in Ec. discriminate. }
        rewrite Hxc. reflexivity.
    + destruct (dict_mem c evs); reflexivity.
Qed.

Lemma branch_body_id now eid ex c live created t :
  fst (fst (branch_body now eid ex c live created t))
  = make_event_id now "branch_option" (choice_payload c).
Proof. reflexivity. Qed.

Lemma branch_body_live now eid ex c live created t :
  snd (fst (branch_body now eid ex c live created t))
  = live && negb (String.eqb (make_event_id now "branch_option" (choice_payload c)) eid).
Proof. reflexivity. Qed.

Lemma branch_body_get now eid ex c live created t k :
  dict_get k (events (snd (branch_body now eid ex c live created t)))
  = let bid := make_event_id now "branch_option" (choice_payload c) in
    let t1 := snd (add_event now "branch_option" (choice_payload c) (Some eid) None t) in
    let o1 := dict_get k (events t1) in
    let o2 := if negb (is_nil ex) && is_nil created
              then option_map (reattached bid ex (fun x => dict_mem x (events t1)) k) o1
              else o1 in
    if live && negb (String.eqb bid eid)
    then if String.eqb k eid
         then option_map (append_choice (choice_entry c bid)) o2 else o2
    else o2.
Proof.
  unfold branch_body.
  change (add_event now "branch_option" (choice_payload c) (Some eid) None t)
    with (fst (add_event now "branch_option" (choice_payload c) (Some eid) None t),
          snd (add_event now "branch_option" (choice_payload c) (Some eid) None t)).
  cbn iota beta zeta. rewrite add_event_id.
  set (t1 := snd (add_event now "branch_option" (choice_payload c) (Some eid) None t)).
  set (bid := make_event_id now "branch_option" (choice_payload c)).
  cbn [snd].
  destruct (live && negb (String.eqb bid eid));
    destruct (negb (is_nil ex) && is_nil created);
    cbn [events set_events];
    rewrite ?dict_get_modify, ?reattach_children_get; reflexivity.
Qed.

Lemma branch_body_mem now eid ex c live created t k :
  dict_mem k (events (snd (branch_body now eid ex c live created t)))
  = String.eqb k (make_event_id now "branch_option" (choice_payload c))
    || dict_mem k (events t).
Proof.
  rewrite <- (add_event_mem now "branch_option" (choice_payload c) (Some eid) None t k).
  unfold branch_body.
  change (add_event now "branch_option" (choice_payload c) (Some eid) None t)
    with (fst (add_event now "branch_option" (choice_payload c) (Some eid) None t),
          snd (add_event now "branch_option" (choice_payload c) (Some eid) None t)).
  cbn iota beta zeta. cbn [snd].
  destruct (live && negb _); destruct (negb (is_nil ex) && is_nil created);
    cbn [events set_events];
    rewrite ?dict_mem_modify, ?reattach_children_mem; reflexivity.
Qed.

Lemma branch_loop_cons clock i eid ex c rest live created t :
  branch_loop clock i eid ex (c :: rest) live created t
  = let r := branch_body (clock i) eid ex c live created t in
    branch_loop clock (S i) eid ex rest (snd (fst r))
      (created ++ [fst (fst r)]) (snd r).
Proof. reflexivity. Qed.

(** With two options whose generated ids are new and distinct, the
    branch point gets its flag and its two entries, the first branch
    event takes over the two children and the second has none. *)
Lemma create_branch_point_reattaches clock A a c1 c2 o1 o2 t :
  dict_get A (events t) = Some a ->
  child_event_ids a = [c1; c2] ->
  dict_mem c1 (events t) = true ->
  dict_mem c2 (events t) = true ->
  let id1 := make_event_id (clock 0) "branch_option" (choice_payload o1) in
  let id2 := make_event_id (clock 1) "branch_option" (choice_payload o2) in
  dict_mem id1 (events t) = false ->
  dict_mem id2 (events t) = false ->
  id1 <> id2 ->
  let t' := snd (create_branch_point clock A [o1; o2] t) in
  fst (create_branch_point clock A [o1; o2] t) = (true, [id1; id2])
  /\ (exists a', dict_get A (events t') = Some a'
                 /\ is_branch_point a' = true
                 /\ branch_choices a' = [choice_entry o1 id1; choice_entry o2 id2])
  /\ (exists b1, dict_get id1 (events t') = Some b1
                 /\ event_type b1 = "branch_option"
                 /\ parent_event_id b1 = Some A
                 /\ child_event_ids b1 = [c1; c2])
  /\ (exists e1, dict_get c1 (events t') = Some e1 /\ parent_event_id e1 = Some id1)
  /\ (exists e2, dict_get c2 (events t') = Some e2 /\ parent_event_id e2 = Some id1)
  /\ (exists b2, dict_get id2 (events t') = Some b2
                 /\ event_type b2 = "branch_option"
                 /\ parent_event_id b2 = Some A
                 /\ child_event_ids b2 = []).
Proof.
  intros HA Hch Hc1 Hc2 id1 id2 Hf1 Hf2 Hne t'.
  assert (HAm : dict_mem A (events t) = true) by (apply dict_mem_get; eauto).
  assert (N1A : id1 <> A) by congruence.
  assert (N2A : id2 <> A) by congruence.
  assert (N11 : id1 <> c1) by congruence.
  assert (N12 : id1 <> c2) by congruence.
  assert (N21 : id2 <> c1) by congruence.
  assert (N22 : id2 <> c2) by congruence.
  apply dict_mem_get in Hc1, Hc2. destruct Hc1 as [e1 Hc1], Hc2 as [e2 Hc2].
  destruct (String.eqb A c1) eqn:EA1; pose proof EA1 as EA1'; rewrite String.eqb_sym in EA1';
  destruct (String.eqb A c2) eqn:EA2; pose proof EA2 as EA2'; rewrite String.eqb_sym in EA2';
  destruct (String.eqb c1 c2) eqn:E12; pose proof E12 as E12'; rewrite String.eqb_sym in E12';
  destruct (truthy (Some A)) eqn:ET.
  all: subst t'; unfold create_branch_point; rewrite HA, Hch;
    rewrite !branch_loop_cons; cbn zeta; cbn [branch_loop snd fst events set_dirty];
    rewrite !branch_body_live, !branch_body_id; fold id1 id2;
    (split; [reflexivity|]).
  all: repeat match goal with
         | |- _ /\ _ => split
         | |- exists _, _ => eexists
         end.
  all: rewrite ?branch_body_get; cbn zeta; rewrite ?branch_body_live, ?branch_body_id;
    fold id1 id2; cbn [is_nil negb andb app];
    rewrite ?add_event_get; cbn zeta; fold id1 id2;
    rewrite ?branch_body_mem, ?branch_body_get; cbn zeta; fold id1 id2;
    cbn [is_nil negb andb app];
    rewrite ?add_event_get; cbn zeta; fold id1 id2;
    cbn [events set_events]; rewrite ?dict_get_modify, ?dict_mem_modify;
    rewrite ?HAm, ?ET; eqb_known; cbn [negb andb orb];
    unfold reattached; cbn [filter existsb];
    rewrite ?add_event_mem; fold id1; cbn [events set_events];
    rewrite ?dict_mem_modify; unfold dict_mem; rewrite ?Hc1, ?Hc2, ?HA;
    eqb_known; rewrite ?EA1, ?EA1', ?EA2, ?EA2', ?E12, ?E12';
    cbn [negb andb orb option_map]; try reflexivity.
  all: try (cbn; try rewrite Hch; reflexivity).
Qed.
End Branch.

(** ** Persistence *)
Section Persistence.
Context {R : Runtime}.

Lemma dec_opt_str_enc o : dec_opt_str (enc_opt_str o) = Returns o.
Proof. destruct o; reflexivity. Qed.

Lemma dec_strs_JStr l : dec_strs (map JStr l) = Returns l.
Proof.
  induction l as [|s l IH]; cbn; [reflexivity|].
  rewrite IH. reflexivity.
Qed.


Lemma dict_set_fresh {V : Type} k (v : V) (d : dict V) :
  ~ In k (dict_keys d) -> dict_set k v d = (d ++ [(k, v)])%list.
Proof.
  induction d as [|[k0 v0] d IH]; cbn; [reflexivity|].
  intros H. destruct (String.eqb_spec k k0) as [->|Hk].
  - exfalso. apply H. now left.
  - f_equal. apply IH. intros Hin. apply H. now right.
Qed.









Lemma add_asset_no_buckets category asset_id asset_data t :
  assets t = JObj [] ->
  add_asset category asset_id asset_data t = Returns (false, t).
Proof. intros H. unfold add_asset. rewrite H. reflexivity. Qed.

Lemma load_document_no_assets top t :
  dict_get "assets" top = None ->
  load_document (JObj top) = Returns t ->
  assets t = JObj [].
Proof.
  intros Hno. unfold load_document.
  destruct (obj_get "events" top (JObj [])) as [| | | | | |items];
    try discriminate.
  destruct (load_events items []) as [evs| |]; try discriminate. cbn [bind].
  destruct (dec_opt_str (obj_get "head_event_id" top JNull)); try discriminate.
  destruct (dec_opt_str (obj_get "active_branch_id" top JNull)); try discriminate.
  cbn [bind]. intros [= <-]. cbn [assets]. unfold obj_get. now rewrite Hno.
Qed.

(** C10. A document without an ["assets"] key loads into a timeline whose
    [assets] is the empty dict, and from then on [add_asset] returns false
    and changes nothing, whatever the category, in every run of calls. *)
Theorem load_without_assets_rejects_add_asset path t0 fs top t :
  fs path = Document (JObj top) ->
  dict_get "assets" top = None ->
  load_timeline path t0 fs = Returns t ->
  assets t = JObj []
  /\ (forall category asset_id asset_data,
        add_asset category asset_id asset_data t = Returns (false, t))
  /\ (forall calls,
        add_assets calls t = Returns (map (fun _ => false) calls, t)).
Proof.
  intros Hfs Hno Hload. unfold load_timeline in Hload. rewrite Hfs in Hload.
  pose proof (load_document_no_assets top t Hno Hload) as Ha.
  split; [exact Ha|]. split.
  - intros. now apply add_asset_no_buckets.
  - induction calls as [|[[c i] d] calls IH]; cbn; [reflexivity|].
    rewrite add_asset_no_buckets by exact Ha. cbn [bind snd fst].
    rewrite IH. reflexivity.
Qed.
End Persistence.

(** ** Parent and child links on the reachable timelines *)
Section Links.
Context {R : Runtime}.
Open Scope list_scope.

Lemma add_event_advances_head_aux now ety d parent req t :
  head_event_id (snd (add_event now ety d parent req t))
  = Some (make_event_id now ety d).
Proof. reflexivity. Qed.


Lemma g_children evs : good evs -> forall k e c,
  dict_get k evs = Some e -> In c (child_event_ids e) -> dict_mem c evs = true.
Proof.
  intros G k e c He Hc. destruct (g_parent_of evs G k e c He Hc) as [ec [Hec _]].
  apply dict_mem_get. now exists ec.
Qed.

(** A dict extended by one new childless event under a new key, listed
    last by its parent. *)
Lemma good_extend evs evs' nid pp :
  good evs ->
  dict_mem nid evs = false ->
  nid <> "" ->
  match pp with Some p => dict_mem p evs = true | None => True end ->
  (exists ne, dict_get nid evs' = Some ne /\ event_id ne = nid
              /\ parent_event_id ne = pp /\ child_event_ids ne = []) ->
  (forall k, k <> nid ->
     match dict_get k evs with
     | Some e =>
         exists e', dict_get k evs' = Some e'
                    /\ event_id e' = event_id e
                    /\ parent_event_id e' = parent_event_id e
                    /\ child_event_ids e'
                       = if opt_eqb (Some k) pp
                         then child_event_ids e ++ [nid]
                         else child_event_ids e
     | None => dict_get k evs' = None
     end) ->
  good evs'.
Proof.
  intros G Hfresh Hne Hpp [ne [Hnew [Hnid [Hnpar Hnch]]]] Hold.
  assert (Hkey : forall c, dict_mem c evs = true -> c <> nid) by (intros c Hc ->; congruence).
  assert (Hmono : forall c, dict_mem c evs = true -> dict_mem c evs' = true).
  { intros c Hc. pose proof (Hold c (Hkey c Hc)) as H.
    apply dict_mem_get in Hc. destruct Hc as [e He]. rewrite He in H.
    destruct H as [e' [He' _]]. apply dict_mem_get. now exists e'. }
  assert (Hback : forall k e', k <> nid -> dict_get k evs' = Some e' ->
            exists e, dict_get k evs = Some e
                      /\ event_id e' = event_id e
                      /\ parent_event_id e' = parent_event_id e
                      /\ child_event_ids e'
                         = if opt_eqb (Some k) pp
                           then child_event_ids e ++ [nid]
                           else child_event_ids e).
  { intros k e' Hk He'. pose proof (Hold k Hk) as H.
    destruct (dict_get k evs) as [e|]; [|congruence].
    destruct H as [e1 [He1 H]]. exists e. split; [reflexivity|].
    assert (e1 = e') by congruence. subst e1. exact H. }
  assert (Hkeep : forall q eq x, dict_get q evs = Some eq -> In x (child_event_ids eq) ->
            exists eq', dict_get q evs' = Some eq' /\ In x (child_event_ids eq')).
  { intros q eq x Hq Hx.
    assert (Hqn : q <> nid) by (apply Hkey, dict_mem_get; now exists eq).
    pose proof (Hold q Hqn) as H. rewrite Hq in H.
    destruct H as [eq' [Hq' [_ [_ Hch]]]]. exists eq'. split; [exact Hq'|].
    rewrite Hch. destruct (opt_eqb (Some q) pp); [apply in_or_app; now left | exact Hx]. }
  constructor.
  - intros k e' p He' Hp. destruct (String.eqb_spec k nid) as [->|Hk].
    + assert (e' = ne) by congruence. subst e'.
      rewrite Hnpar in Hp. rewrite Hp in Hpp.
      assert (Hpn : p <> nid) by (apply Hkey; exact Hpp).
      pose proof (Hold p Hpn) as H.
      apply dict_mem_get in Hpp. destruct Hpp as [ep Hep]. rewrite Hep in H.
      destruct H as [ep' [Hep' [_ [_ Hch]]]]. exists ep'. split; [exact Hep'|].
      rewrite Hch, Hp. cbn. rewrite String.eqb_refl. apply in_or_app. right.
      rewrite Hnid. now left.
    + destruct (Hback k e' Hk He') as [e [He [Hid [Hpar _]]]].
      rewrite Hpar in Hp. destruct (g_links evs G k e p He Hp) as [ep [Hep Hin]].
      rewrite Hid. now apply (Hkeep p ep).
  - intros k e' He'. destruct (String.eqb_spec k nid) as [->|Hk].
    + congruence.
    + destruct (Hback k e' Hk He') as [e [He [Hid _]]].
      rewrite Hid. now apply (g_ids evs G).
  - pose proof (Hold "" (not_eq_sym Hne)) as H.
    pose proof (g_nonempty evs G) as Hn. unfold dict_mem in *.
    destruct (dict_get "" evs); [discriminate|]. now rewrite H.
  - intros k e' He'. destruct (String.eqb_spec k nid) as [->|Hk].
    + assert (e' = ne) by congruence. subst e'. rewrite Hnch. constructor.
    + destruct (Hback k e' Hk He') as [e [He [_ [_ Hch]]]]. rewrite Hch.
      pose proof (g_nodup evs G k e He) as Hnd.
      destruct (opt_eqb (Some k) pp); [|exact Hnd].
      apply NoDup_app; [exact Hnd | repeat constructor; intros [] |].
      intros x Hx [E|[]]. apply (Hkey x); [|now symmetry].
      now apply (g_children evs G k e).
  - intros k e' c He' Hc. destruct (String.eqb_spec k nid) as [->|Hk].
    + assert (e' = ne) by congruence. subst e'. rewrite Hnch in Hc. destruct Hc.
    + destruct (Hback k e' Hk He') as [e [He [_ [_ Hch]]]].
      rewrite Hch in Hc.
      assert (Hc' : In c (child_event_ids e)
                    \/ (c = nid /\ opt_eqb (Some k) pp = true)).
      { destruct (opt_eqb (Some k) pp); [|now left].
        apply in_app_or in Hc. destruct Hc as [Hc|[Hc|[]]]; [now left | now right]. }
      destruct Hc' as [Hc'|[-> Hkp]].
      * destruct (g_parent_of evs G k e c He Hc') as [ec [Hec Hpar]].
        assert (Hcn : c <> nid) by (apply Hkey, dict_mem_get; now exists ec).
        pose proof (Hold c Hcn) as H. rewrite Hec in H.
        destruct H as [ec' [Hec' [_ [Hpar' _]]]]. exists ec'.
        split; [exact Hec' | congruence].
      * exists ne. split; [exact Hnew|]. rewrite Hnpar.
        symmetry. now apply opt_eqb_eq.
Qed.

(** A dict in which a new branch event under a new key took over the
    children of [A]. *)
Lemma good_branch_first evs evs' A a nid :
  good evs ->
  dict_get A evs = Some a ->
  dict_mem nid evs = false ->
  nid <> "" ->
  (exists b, dict_get nid evs' = Some b /\ event_id b = nid
             /\ parent_event_id b = Some A
             /\ child_event_ids b = child_event_ids a) ->
  (forall k, k <> nid ->
     match dict_get k evs with
     | Some e =>
         exists e', dict_get k evs' = Some e'
                    /\ event_id e' = event_id e
                    /\ parent_event_id e'
                       = (if existsb (String.eqb k) (child_event_ids a)
                          then Some nid else parent_event_id e)
                    /\ child_event_ids e'
                       = if String.eqb k A then [nid] else child_event_ids e
     | None => dict_get k evs' = None
     end) ->
  good evs'.
Proof.
  intros G HA Hfresh Hne [b [Hnew [Hbid [Hbpar Hbch]]]] Hold.
  assert (Hkey : forall c, dict_mem c evs = true -> c <> nid) by (intros c Hc ->; congruence).
  assert (HAn : A <> nid) by (apply Hkey, dict_mem_get; now exists a).
  assert (Hmono : forall c, dict_mem c evs = true -> dict_mem c evs' = true).
  { intros c Hc. pose proof (Hold c (Hkey c Hc)) as H.
    apply dict_mem_get in Hc. destruct Hc as [e He]. rewrite He in H.
    destruct H as [e' [He' _]]. apply dict_mem_get. now exists e'. }
  assert (Hback : forall k e', k <> nid -> dict_get k evs' = Some e' ->
            exists e, dict_get k evs = Some e
                      /\ event_id e' = event_id e
                      /\ parent_event_id e'
                         = (if existsb (String.eqb k) (child_event_ids a)
                            then Some nid else parent_event_id e)
                      /\ child_event_ids e'
                         = if String.eqb k A then [nid] else child_event_ids e).
  { intros k e' Hk He'. pose proof (Hold k Hk) as H.
    destruct (dict_get k evs) as [e|]; [|congruence].
    destruct H as [e1 [He1 H]]. exists e. split; [reflexivity|].
    assert (e1 = e') by congruence. subst e1. exact H. }
  constructor.
  - intros k e' p He' Hp. destruct (String.eqb_spec k nid) as [->|Hk].
    + assert (e' = b) by congruence. subst e'.
      rewrite Hbpar in Hp. injection Hp as <-.
      pose proof (Hold A HAn) as H. rewrite HA in H.
      destruct H as [a' [Ha' [_ [_ Hch]]]]. exists a'. split; [exact Ha'|].
      rewrite Hch, String.eqb_refl, Hbid. now left.
    + destruct (Hback k e' Hk He') as [e [He [Hid [Hpar _]]]].
      pose proof (g_ids evs G k e He) as Hek.
      destruct (existsb (String.eqb k) (child_event_ids a)) eqn:Eex.
      * rewrite Hpar in Hp. injection Hp as <-. exists b. split; [exact Hnew|].
        rewrite Hbch, Hid, Hek. apply existsb_exists in Eex.
        destruct Eex as [x [Hx Hkx]]. apply String.eqb_eq in Hkx. now subst x.
      * rewrite Hpar in Hp.
        destruct (g_links evs G k e p He Hp) as [ep [Hep Hin]].
        assert (HpA : p <> A).
        { intros ->. assert (ep = a) by congruence. subst ep.
          apply not_true_iff_false in Eex. apply Eex.
          apply existsb_exists. exists k. split; [|apply String.eqb_refl].
          now rewrite <- Hek. }
        assert (Hpn : p <> nid) by (apply Hkey, dict_mem_get; now exists ep).
        pose proof (Hold p Hpn) as H. rewrite Hep in H.
        destruct H as [ep' [Hep' [_ [_ Hch]]]]. exists ep'. split; [exact Hep'|].
        rewrite Hch, (proj2 (String.eqb_neq p A) HpA), Hid. exact Hin.
  - intros k e' He'. destruct (String.eqb_spec k nid) as [->|Hk].
    + congruence.
    + destruct (Hback k e' Hk He') as [e [He [Hid _]]].
      rewrite Hid. now apply (g_ids evs G).
  - pose proof (Hold "" (not_eq_sym Hne)) as H.
    pose proof (g_nonempty evs G) as Hn. unfold dict_mem in *.
    destruct (dict_get "" evs); [discriminate|]. now rewrite H.
  - intros k e' He'. destruct (String.eqb_spec k nid) as [->|Hk].
    + assert (e' = b) by congruence. subst e'. rewrite Hbch.
      now apply (g_nodup evs G A a).
    + destruct (Hback k e' Hk He') as [e [He [_ [_ Hch]]]]. rewrite Hch.
      destruct (String.eqb k A); [repeat constructor; intros [] |].
      now apply (g_nodup evs G k e).
  - intros k e' c He' Hc. destruct (String.eqb_spec k nid) as [->|Hk].
    + assert (e' = b) by congruence. subst e'. rewrite Hbch in Hc.
      destruct (g_parent_of evs G A a c HA Hc) as [ec [Hec Hpar]].
      assert (Hcn : c <> nid) by (apply Hkey, dict_mem_get; now exists ec).
      pose proof (Hold c Hcn) as H. rewrite Hec in H.
      destruct H as [ec' [Hec' [_ [Hpar' _]]]]. exists ec'.
      split; [exact Hec'|]. rewrite Hpar'.
      assert (Hex : existsb (String.eqb c) (child_event_ids a) = true).
      { apply existsb_exists. exists c. split; [exact Hc | apply String.eqb_refl]. }
      now rewrite Hex.
    + destruct (Hback k e' Hk He') as [e [He [_ [_ Hch]]]].
      rewrite Hch in Hc. destruct (String.eqb_spec k A) as [->|HkA].
      * destruct Hc as [<-|[]]. exists b. now split.
      * destruct (g_parent_of evs G k e c He Hc) as [ec [Hec Hpar]].
        assert (Hcn : c <> nid) by (apply Hkey, dict_mem_get; now exists ec).
        pose proof (Hold c Hcn) as H. rewrite Hec in H.
        destruct H as [ec' [Hec' [_ [Hpar' _]]]]. exists ec'.
        split; [exact Hec'|]. rewrite Hpar'.
        destruct (existsb (String.eqb c) (child_event_ids a)) eqn:Eex;
          [|exact Hpar].
        exfalso. apply existsb_exists in Eex.
        destruct Eex as [x [Hx Hcx]]. apply String.eqb_eq in Hcx. subst x.
        destruct (g_parent_of evs G A a c HA Hx) as [ec0 [Hec0 Hpar0]].
        congruence.
Qed.

(** A dict whose events changed in other fields than the three of the
    links. *)
Lemma good_same_links evs evs' :
  good evs ->
  (forall k,
     match dict_get k evs with
     | Some e =>
         exists e', dict_get k evs' = Some e'
                    /\ event_id e' = event_id e
                    /\ parent_event_id e' = parent_event_id e
                    /\ child_event_ids e' = child_event_ids e
     | None => dict_get k evs' = None
     end) ->
  good evs'.
Proof.
  intros G H.
  assert (Hback : forall k e', dict_get k evs' = Some e' ->
            exists e, dict_get k evs = Some e
                      /\ event_id e' = event_id e
                      /\ parent_event_id e' = parent_event_id e
                      /\ child_event_ids e' = child_event_ids e).
  { intros k e' He'. pose proof (H k) as Hk.
    destruct (dict_get k evs) as [e|]; [|congruence].
    destruct Hk as [e1 [He1 Hk]]. exists e. split; [reflexivity|].
    assert (e1 = e') by congruence. subst e1. exact Hk. }
  assert (Hfwd : forall k e, dict_get k evs = Some e ->
            exists e', dict_get k evs' = Some e'
                       /\ child_event_ids e' = child_event_ids e).
  { intros k e He. pose proof (H k) as Hk. rewrite He in Hk.
    destruct Hk as [e' [He' [_ [_ Hch]]]]. now exists e'. }
  constructor.
  - intros k e' p He' Hp.
    destruct (Hback k e' He') as [e [He [Hid [Hpar _]]]].
    rewrite Hpar in Hp. destruct (g_links evs G k e p He Hp) as [ep [Hep Hin]].
    destruct (Hfwd p ep Hep) as [ep' [Hep' Hch]]. exists ep'.
    split; [exact Hep'|]. now rewrite Hch, Hid.
  - intros k e' He'. destruct (Hback k e' He') as [e [He [Hid _]]].
    rewrite Hid. now apply (g_ids evs G).
  - pose proof (H "") as H0. pose proof (g_nonempty evs G) as Hn.
    unfold dict_mem in *. destruct (dict_get "" evs); [discriminate|].
    now rewrite H0.
  - intros k e' He'. destruct (Hback k e' He') as [e [He [_ [_ Hch]]]].
    rewrite Hch. now apply (g_nodup evs G k e).
  - intros k e' c He' Hc.
    destruct (Hback k e' He') as [e [He [_ [_ Hch]]]]. rewrite Hch in Hc.
    destruct (g_parent_of evs G k e c He Hc) as [ec [Hec Hpar]].
    pose proof (H c) as Hc2. rewrite Hec in Hc2.
    destruct Hc2 as [ec' [Hec' [_ [Hpar' _]]]]. exists ec'.
    split; [exact Hec' | congruence].
Qed.

Lemma good_modify evs k (f : StoryEvent datetime -> StoryEvent datetime) :
  good evs ->
  (forall e, event_id (f e) = event_id e
             /\ parent_event_id (f e) = parent_event_id e
             /\ child_event_ids (f e) = child_event_ids e) ->
  good (dict_modify k f evs).
Proof.
  intros G Hf. apply (good_same_links evs); [exact G|].
  intros k'. rewrite dict_get_modify.
  destruct (dict_get k' evs) as [e|]; [|now destruct (String.eqb k' k)].
  destruct (String.eqb k' k); cbn [option_map].
  - exists (f e). split; [reflexivity | apply Hf].
  - exists e. now repeat split.
Qed.

Lemma append_nonempty (a b : string) (c : ascii) :
  (a ++ String c b)%string <> "".
Proof. destruct a; discriminate. Qed.

Lemma make_event_id_nonempty now ety d : make_event_id now ety d <> "".
Proof. unfold make_event_id. apply append_nonempty. Qed.

Lemma good_truthy evs p : good evs -> dict_mem p evs = true -> truthy (Some p) = true.
Proof.
  intros G Hp. cbn. apply negb_true_iff. apply String.eqb_neq.
  intros ->. rewrite (g_nonempty evs G) in Hp. discriminate.
Qed.

(** The events after [add_event] under a parent that is in [events]. *)
Lemma add_event_good now ety d p req t :
  good (events t) ->
  dict_mem p (events t) = true ->
  dict_mem (make_event_id now ety d) (events t) = false ->
  good (events (snd (add_event now ety d (Some p) req t))).
Proof.
  intros G Hp Hfresh.
  set (nid := make_event_id now ety d) in *.
  assert (Hpn : p <> nid) by (intros ->; congruence).
  apply (good_extend (events t) _ nid (Some p)); try assumption.
  - apply make_event_id_nonempty.
  - exists (new_StoryEvent now ety d (Some p) req).
    rewrite add_event_get. cbn zeta. fold nid.
    rewrite String.eqb_refl, (proj2 (String.eqb_neq nid p)) by congruence.
    destruct (truthy (Some p) && _); now repeat split.
  - intros k Hk. rewrite add_event_get. cbn zeta. fold nid.
    rewrite (proj2 (String.eqb_neq k nid)) by exact Hk.
    rewrite (good_truthy _ p G Hp), Hp, orb_true_r. cbn [andb opt_eqb].
    destruct (dict_get k (events t)) as [e|]; [|now destruct (String.eqb k p)].
    destruct (String.eqb k p); cbn [option_map].
    + exists (append_child nid e). now repeat split.
    + exists e. now repeat split.
Qed.

(** The events after [add_event] that found no parent at all. *)
Lemma add_event_root_good now ety d req t :
  good (events t) ->
  head_event_id t = None ->
  dict_mem (make_event_id now ety d) (events t) = false ->
  good (events (snd (add_event now ety d None req t))).
Proof.
  intros G Hhead Hfresh.
  set (nid := make_event_id now ety d) in *.
  apply (good_extend (events t) _ nid None); try assumption.
  - apply make_event_id_nonempty.
  - exact I.
  - exists (new_StoryEvent now ety d None req).
    unfold add_event. rewrite Hhead. cbn [snd events event_id new_StoryEvent].
    fold nid. rewrite dict_get_set, String.eqb_refl. now repeat split.
  - intros k Hk. unfold add_event. rewrite Hhead.
    cbn [snd events event_id new_StoryEvent]. fold nid.
    rewrite dict_get_set, (proj2 (String.eqb_neq k nid)) by exact Hk.
    destruct (dict_get k (events t)) as [e|]; [|reflexivity].
    exists e. now repeat split.
Qed.

Lemma add_event_default now ety d req t :
  add_event now ety d None req t = add_event now ety d (head_event_id t) req t.
Proof. unfold add_event. destruct (head_event_id t); reflexivity. Qed.


Lemma NoDup_snoc (l : list string) (x : string) :
  NoDup l -> ~ In x l -> NoDup (l ++ [x]).
Proof.
  intros Hl Hx. apply NoDup_app; [exact Hl | repeat constructor; intros [] |].
  intros a Ha [E|[]]. now subst a.
Qed.

Lemma add_event_keys_fresh now ety d parent req t :
  dict_mem (make_event_id now ety d) (events t) = false ->
  dict_keys (events (snd (add_event now ety d parent req t)))
  = dict_keys (events t) ++ [make_event_id now ety d].
Proof.
  intros Hfresh. rewrite add_event_keys, dict_set_fresh.
  - unfold dict_keys. now rewrite map_app.
  - intros Hin. apply dict_mem_In in Hin. congruence.
Qed.

Lemma add_event_NoDup now ety d parent req t :
  NoDup (dict_keys (events t)) ->
  dict_mem (make_event_id now ety d) (events t) = false ->
  NoDup (dict_keys (events (snd (add_event now ety d parent req t)))).
Proof.
  intros Hnd Hfresh. rewrite add_event_keys_fresh by exact Hfresh.
  apply NoDup_snoc; [exact Hnd|].
  intros Hin. apply dict_mem_In in Hin. congruence.
Qed.


Lemma add_event_inv now ety d parent req t :
  Inv t ->
  parent_ok parent t = true ->
  dict_mem (make_event_id now ety d) (events t) = false ->
  Inv (snd (add_event now ety d parent req t)).
Proof.
  intros [G [Hnd Hhead]] Hparent Hfresh. split; [|split].
  - destruct parent as [p|].
    + now apply add_event_good.
    + destruct (head_event_id t) as [h|] eqn:Eh.
      * rewrite add_event_default, Eh. apply add_event_good; auto.
      * now apply add_event_root_good.
  - now apply add_event_NoDup.
  - intros h Hh. rewrite add_event_advances_head_aux in Hh.
    injection Hh as <-. rewrite add_event_mem, String.eqb_refl. reflexivity.
Qed.




Lemma branch_body_events now eid ex c live created t :
  events (snd (branch_body now eid ex c live created t))
  = let bid := make_event_id now "branch_option" (choice_payload c) in
    let t1 := snd (add_event now "branch_option" (choice_payload c) (Some eid) None t) in
    let evs2 := if negb (is_nil ex) && is_nil created
                then reattach_children bid ex (events t1) else events t1 in
    if live && negb (String.eqb bid eid)
    then dict_modify eid (append_choice (choice_entry c bid)) evs2
    else evs2.
Proof.
  unfold branch_body.
  change (add_event now "branch_option" (choice_payload c) (Some eid) None t)
    with (fst (add_event now "branch_option" (choice_payload c) (Some eid) None t),
          snd (add_event now "branch_option" (choice_payload c) (Some eid) None t)).
  cbn iota beta zeta. rewrite add_event_id. cbn [snd].
  destruct (live && negb _); destruct (negb (is_nil ex) && is_nil created);
    reflexivity.
Qed.

Lemma branch_body_head now eid ex c live created t :
  head_event_id (snd (branch_body now eid ex c live created t))
  = Some (make_event_id now "branch_option" (choice_payload c)).
Proof.
  unfold branch_body.
  change (add_event now "branch_option" (choice_payload c) (Some eid) None t)
    with (fst (add_event now "branch_option" (choice_payload c) (Some eid) None t),
          snd (add_event now "branch_option" (choice_payload c) (Some eid) None t)).
  cbn iota beta zeta. rewrite add_event_id. cbn [snd].
  destruct (live && negb _); destruct (negb (is_nil ex) && is_nil created);
    reflexivity.
Qed.

Lemma reattach_children_keys b ex : forall evs,
  dict_keys (reattach_children b ex evs) = dict_keys evs.
Proof.
  unfold reattach_children.
  induction ex as [|c ex IH]; intros evs; cbn [fold_left]; [reflexivity|].
  rewrite IH. unfold reattach_one.
  destruct (dict_get c evs); [|reflexivity]. now rewrite !dict_keys_modify.
Qed.

Lemma branch_body_keys now eid ex c live created t :
  dict_keys (events (snd (branch_body now eid ex c live created t)))
  = dict_keys (events (snd (add_event now "branch_option" (choice_payload c)
                             (Some eid) None t))).
Proof.
  rewrite branch_body_events. cbn zeta.
  destruct (live && negb _); destruct (negb (is_nil ex) && is_nil created);
    rewrite ?dict_keys_modify, ?reattach_children_keys; reflexivity.
Qed.

Lemma append_choice_links x e :
  event_id (append_choice x e) = event_id e
  /\ parent_event_id (append_choice x e) = parent_event_id e
  /\ child_event_ids (append_choice x e) = child_event_ids e.
Proof. now repeat split. Qed.

(** A turn of the loop after the first one. *)
Lemma later_body_inv now eid ex c live created t :
  Inv t ->
  dict_mem eid (events t) = true ->
  dict_mem (make_event_id now "branch_option" (choice_payload c)) (events t) = false ->
  created <> [] ->
  Inv (snd (branch_body now eid ex c live created t)).
Proof.
  intros [G [Hnd Hhead]] Heid Hfresh Hcreated. split; [|split].
  - rewrite branch_body_events. cbn zeta.
    assert (Hplain : negb (is_nil ex) && is_nil created = false)
      by (destruct created; [congruence | apply andb_false_r]).
    rewrite Hplain.
    pose proof (add_event_good now "branch_option" (choice_payload c) eid None t
                  G Heid Hfresh) as G1.
    destruct (live && negb _); [|exact G1].
    apply good_modify; [exact G1 | apply append_choice_links].
  - rewrite branch_body_keys. now apply add_event_NoDup.
  - intros h Hh. rewrite branch_body_head in Hh. injection Hh as <-.
    rewrite branch_body_mem, String.eqb_refl. reflexivity.
Qed.

Lemma filter_all {A : Type} (f : A -> bool) (l : list A) :
  (forall x, In x l -> f x = true) -> filter f l = l.
Proof.
  intros H. apply forallb_filter_id. now apply forallb_forall.
Qed.

(** The first turn of the loop, which takes the children of the branch
    point over. *)
Lemma first_body_good now A a c t :
  good (events t) ->
  dict_get A (events t) = Some a ->
  dict_mem (make_event_id now "branch_option" (choice_payload c)) (events t) = false ->
  good (events
          (snd (branch_body now A (child_event_ids a) c true []
                  (set_events
                     (dict_modify A
                        (fun e => set_branch_choices []
                                    (set_child_event_ids []
                                       (set_is_branch_point true e)))
                        (events t)) t)))).
Proof.
  intros G HA Hfresh.
  set (nid := make_event_id now "branch_option" (choice_payload c)) in *.
  set (reset := fun e => set_branch_choices []
                           (set_child_event_ids [] (set_is_branch_point true e))).
  set (t0 := set_events (dict_modify A reset (events t)) t).
  assert (HAm : dict_mem A (events t) = true) by (apply dict_mem_get; now exists a).
  assert (HAn : A <> nid) by (intros E; rewrite E in HAm; congruence).
  assert (Hex : forall x, In x (child_event_ids a) -> dict_mem x (events t) = true)
    by (intros x Hx; apply (g_children _ G A a x HA Hx)).
  assert (Hexn : existsb (String.eqb nid) (child_event_ids a) = false).
  { apply not_true_iff_false. intros H. apply existsb_exists in H.
    destruct H as [x [Hx Hnx]]. apply String.eqb_eq in Hnx. subst x.
    rewrite (Hex nid Hx) in Hfresh. discriminate. }
  rewrite branch_body_events. cbn zeta. fold nid.
  set (t1 := snd (add_event now "branch_option" (choice_payload c) (Some A) None t0)).
  set (evs2 := reattach_children nid (child_event_ids a) (events t1)).
  assert (E2 : (if negb (is_nil (child_event_ids a)) && is_nil (@nil string)
                then evs2 else events t1) = evs2).
  { destruct (child_event_ids a); reflexivity. }
  rewrite E2. clear E2.
  assert (G2 : good evs2).
  { assert (Hmem1 : forall x, dict_mem x (events t1)
                              = String.eqb x nid || dict_mem x (events t)).
    { intros x. unfold t1. rewrite add_event_mem. fold nid. unfold t0.
      cbn [events set_events]. now rewrite dict_mem_modify. }
    assert (Hfilter : filter (fun x => dict_mem x (events t1)) (child_event_ids a)
                      = child_event_ids a).
    { apply filter_all. intros x Hx. rewrite Hmem1, (Hex x Hx). apply orb_true_r. }
    assert (Hget1 : forall k,
               dict_get k (events t1)
               = if String.eqb k nid
                 then Some (new_StoryEvent now "branch_option" (choice_payload c)
                              (Some A) None)
                 else if String.eqb k A
                      then Some (append_child nid (reset a))
                      else dict_get k (events t)).
    { intros k. unfold t1. rewrite add_event_get. cbn zeta. fold nid.
      unfold t0. cbn [events set_events].
      rewrite dict_mem_modify, HAm, orb_true_r, (good_truthy _ A G HAm).
      cbn [andb]. rewrite dict_get_modify.
      destruct (String.eqb_spec k A) as [->|HkA].
      - rewrite (proj2 (String.eqb_neq A nid) HAn), HA. reflexivity.
      - reflexivity. }
    apply (good_branch_first (events t) evs2 A a nid); try assumption.
    - apply make_event_id_nonempty.
    - eexists. unfold evs2. rewrite reattach_children_get, Hget1.
      rewrite String.eqb_refl. cbn [option_map]. split; [reflexivity|].
      unfold reattached. rewrite Hexn, String.eqb_refl, Hfilter.
      now repeat split.
    - intros k Hk. unfold evs2. rewrite reattach_children_get, Hget1.
      rewrite (proj2 (String.eqb_neq k nid) Hk).
      unfold reattached. rewrite (proj2 (String.eqb_neq k nid) Hk).
      destruct (String.eqb_spec k A) as [->|HkA].
      + rewrite HA. cbn [option_map]. eexists. split; [reflexivity|].
        destruct (existsb (String.eqb A) (child_event_ids a)); now repeat split.
      + destruct (dict_get k (events t)) as [e|]; [|reflexivity].
        cbn [option_map]. eexists. split; [reflexivity|].
        destruct (existsb (String.eqb k) (child_event_ids a)); now repeat split. }
  destruct (true && negb _); [|exact G2].
  apply good_modify; [exact G2 | apply append_choice_links].
Qed.

Lemma all_fresh_cons id ids t :
  all_fresh (id :: ids) t = negb (dict_mem id (events t)) && all_fresh ids t.
Proof. reflexivity. Qed.

(** The turns of the loop after the first one. *)
Lemma later_loop_inv clock eid ex choices : forall i live created t,
  Inv t ->
  dict_mem eid (events t) = true ->
  all_distinct (branch_ids clock i choices) = true ->
  all_fresh (branch_ids clock i choices) t = true ->
  created <> [] ->
  Inv (snd (branch_loop clock i eid ex choices live created t)).
Proof.
  induction choices as [|c rest IH]; intros i live created t HI Heid Hd Hf Hc.
  - exact HI.
  - rewrite branch_loop_cons. cbn zeta.
    cbn [branch_ids all_distinct] in Hd. cbn [branch_ids] in Hf.
    rewrite all_fresh_cons in Hf.
    apply andb_true_iff in Hd, Hf. destruct Hd as [Hd1 Hd2], Hf as [Hf1 Hf2].
    apply negb_true_iff in Hd1, Hf1.
    apply IH.
    + now apply later_body_inv.
    + rewrite branch_body_mem, Heid. apply orb_true_r.
    + exact Hd2.
    + unfold all_fresh in *. apply forallb_forall. intros id Hid.
      rewrite branch_body_mem.
      rewrite forallb_forall in Hf2. specialize (Hf2 id Hid).
      apply negb_true_iff in Hf2. rewrite Hf2, orb_false_r.
      apply negb_true_iff. apply String.eqb_neq. intros ->.
      apply not_true_iff_false in Hd1. apply Hd1.
      apply existsb_exists. eexists. split; [exact Hid | apply String.eqb_refl].
    + now destruct created.
Qed.

Lemma create_branch_point_inv clock eid choices t :
  Inv t ->
  choices <> [] ->
  all_distinct (branch_ids clock 0 choices) = true ->
  all_fresh (branch_ids clock 0 choices) t = true ->
  Inv (snd (create_branch_point clock eid choices t)).
Proof.
  intros [G [Hnd Hhead]] Hne Hd Hf. unfold create_branch_point.
  destruct (dict_get eid (events t)) as [a|] eqn:Ea;
    [|exact (conj G (conj Hnd Hhead))].
  destruct choices as [|c rest]; [congruence|].
  rewrite branch_loop_cons. cbn zeta.
  set (t0 := set_events _ t).
  set (body := branch_body (clock 0) eid (child_event_ids a) c true [] t0).
  cbn [branch_ids all_distinct] in Hd. cbn [branch_ids] in Hf.
  rewrite all_fresh_cons in Hf.
  apply andb_true_iff in Hd, Hf. destruct Hd as [Hd1 Hd2], Hf as [Hf1 Hf2].
  apply negb_true_iff in Hd1, Hf1.
  assert (HAm : dict_mem eid (events t) = true) by (apply dict_mem_get; now exists a).
  assert (Hmem0 : forall x, dict_mem x (events (snd body))
                    = String.eqb x (make_event_id (clock 0) "branch_option"
                                      (choice_payload c))
                      || dict_mem x (events t)).
  { intros x. unfold body. rewrite branch_body_mem. unfold t0.
    cbn [events set_events]. now rewrite dict_mem_modify. }
  assert (HI : Inv (snd body)).
  { split; [|split].
    - unfold body, t0. now apply first_body_good.
    - unfold body. rewrite branch_body_keys. apply add_event_NoDup.
      + unfold t0. cbn [events set_events]. now rewrite dict_keys_modify.
      + unfold t0. cbn [events set_events]. now rewrite dict_mem_modify.
    - intros h Hh. unfold body in Hh. rewrite branch_body_head in Hh.
      injection Hh as <-. rewrite Hmem0, String.eqb_refl. reflexivity. }
  match goal with
  | |- Inv (snd (let '(created, t') := ?L in _)) =>
      assert (HL : Inv (snd L)); [|destruct L as [created t']; exact HL]
  end.
  apply later_loop_inv.
  - exact HI.
  - rewrite Hmem0, HAm. apply orb_true_r.
  - exact Hd2.
  - unfold all_fresh in *. apply forallb_forall. intros id Hid.
    rewrite Hmem0.
    rewrite forallb_forall in Hf2. specialize (Hf2 id Hid).
    apply negb_true_iff in Hf2. rewrite Hf2, orb_false_r.
    apply negb_true_iff. apply String.eqb_neq. intros ->.
    apply not_true_iff_false in Hd1. apply Hd1.
    apply existsb_exists. eexists. split; [exact Hid | apply String.eqb_refl].
  - discriminate.
Qed.

(** *** Undo of events without children *)

Lemma list_remove_Some x l r :
  list_remove x l = Some r ->
  (forall c, In c r -> In c l)
  /\ (forall c, In c l -> c <> x -> In c r)
  /\ (NoDup l -> NoDup r /\ ~ In x r).
Proof.
  revert r. induction l as [|y l IH]; intros r; cbn; [discriminate|].
  destruct (String.eqb_spec x y) as [->|Hxy].
  - intros [= <-]. split; [|split].
    + intros c Hc. now right.
    + intros c [Hc|Hc] Hne; [congruence | exact Hc].
    + intros Hnd. inversion Hnd; subst. now split.
  - destruct (list_remove x l) as [r0|]; [|discriminate].
    intros [= <-]. destruct (IH r0 eq_refl) as [H1 [H2 H3]]. split; [|split].
    + intros c [Hc|Hc]; [now left | right; now apply H1].
    + intros c [Hc|Hc] Hne; [now left | right; now apply H2].
    + intros Hnd. inversion Hnd as [|? ? Hy Hl]; subst.
      destruct (H3 Hl) as [Hr Hx]. split.
      * constructor; [|exact Hr]. intros Hin. apply Hy. now apply H1.
      * intros [E|Hin]; [congruence | contradiction].
Qed.

Lemma remove_child_links k e :
  event_id (remove_child k e) = event_id e
  /\ parent_event_id (remove_child k e) = parent_event_id e.
Proof. unfold remove_child. destruct (list_remove k _); now split. Qed.

Lemma remove_child_children k e :
  (forall c, In c (child_event_ids (remove_child k e)) -> In c (child_event_ids e))
  /\ (forall c, In c (child_event_ids e) -> c <> k ->
                In c (child_event_ids (remove_child k e)))
  /\ (NoDup (child_event_ids e) ->
      NoDup (child_event_ids (remove_child k e))
      /\ ~ In k (child_event_ids (remove_child k e))).
Proof.
  unfold remove_child. destruct (list_remove k (child_event_ids e)) as [r|] eqn:E.
  - cbn. now apply list_remove_Some.
  - split; [|split]; try tauto. intros Hnd. split; [exact Hnd|].
    clear Hnd. revert E. induction (child_event_ids e) as [|y l IH]; cbn; [tauto|].
    destruct (String.eqb_spec k y) as [->|Hky]; [discriminate|].
    destruct (list_remove k l); [discriminate|]. intros _ [E|Hin];
      [congruence | now apply IH].
Qed.

Lemma dict_get_del_same {V : Type} k (d : dict V) :
  NoDup (dict_keys d) -> dict_get k (dict_del k d) = None.
Proof.
  intros Hnd. apply dict_get_None. rewrite dict_keys_del by exact Hnd.
  intros Hin. apply filter_In in Hin. destruct Hin as [_ H].
  rewrite String.eqb_refl in H. discriminate.
Qed.

Lemma undo_step_get_same t k :
  NoDup (dict_keys (events t)) -> dict_get k (events (undo_step t k)) = None.
Proof.
  intros Hnd. apply dict_get_None. rewrite undo_step_keys by exact Hnd.
  intros Hin. apply filter_In in Hin. destruct Hin as [_ H].
  rewrite String.eqb_refl in H. discriminate.
Qed.

(** What one turn of the removal loop leaves under another key. *)
Lemma undo_step_get_other t k x :
  x <> k ->
  dict_get x (events (undo_step t k))
  = match dict_get k (events t) with
    | Some ek =>
        match parent_event_id ek with
        | Some p =>
            if truthy (Some p) && String.eqb x p
            then option_map (remove_child k) (dict_get x (events t))
            else dict_get x (events t)
        | None => dict_get x (events t)
        end
    | None => dict_get x (events t)
    end.
Proof.
  intros Hx. unfold undo_step. cbn [events set_head_event_id set_events].
  pose proof (dict_get_del_other k x (events t) Hx) as Hdel.
  destruct (dict_get k (events t)) as [ek|]; [|exact Hdel].
  destruct (parent_event_id ek) as [p|]; [|exact Hdel].
  destruct (truthy (Some p)); cbn [andb]; [|exact Hdel].
  destruct (dict_get p (dict_del k (events t))) eqn:Ep.
  - rewrite dict_get_modify, Hdel. reflexivity.
  - rewrite Hdel. destruct (String.eqb_spec x p) as [->|Hxp]; [|reflexivity].
    rewrite Hdel in Ep. now rewrite Ep.
Qed.

(** One turn of the removal loop on an event without children. *)
Lemma undo_step_inv t k :
  Inv t ->
  (forall ek, dict_get k (events t) = Some ek -> child_event_ids ek = []) ->
  Inv (undo_step t k).
Proof.
  intros [G [Hnd Hhead]] Hleaf.
  pose proof (undo_step_get_same t k Hnd) as Hsame.
  pose proof (undo_step_get_other t k) as Hother.
  (* every binding that is left comes from one of before, children shrunk *)
  assert (Hback : forall x e', dict_get x (events (undo_step t k)) = Some e' ->
            x <> k
            /\ exists e, dict_get x (events t) = Some e
                         /\ (e' = e \/ e' = remove_child k e)).
  { intros x e' He'. destruct (String.eqb_spec x k) as [->|Hx]; [congruence|].
    split; [exact Hx|]. rewrite (Hother x Hx) in He'.
    destruct (dict_get k (events t)) as [ek|]; [|now exists e'; split; [|left]].
    destruct (parent_event_id ek) as [p|]; [|now exists e'; split; [|left]].
    destruct (truthy (Some p) && String.eqb x p);
      [|now exists e'; split; [|left]].
    destruct (dict_get x (events t)) as [e|]; [|discriminate].
    injection He' as <-. exists e. split; [reflexivity | now right]. }
  assert (Hfwd : forall x e, x <> k -> dict_get x (events t) = Some e ->
            exists e', dict_get x (events (undo_step t k)) = Some e'
                       /\ (e' = e \/ e' = remove_child k e)).
  { intros x e Hx He. rewrite (Hother x Hx), He.
    destruct (dict_get k (events t)) as [ek|]; [|now exists e; split; [|left]].
    destruct (parent_event_id ek) as [p|]; [|now exists e; split; [|left]].
    destruct (truthy (Some p) && String.eqb x p);
      [|now exists e; split; [|left]].
    exists (remove_child k e). split; [reflexivity | now right]. }
  assert (Hlinks : forall e e', e' = e \/ e' = remove_child k e ->
            event_id e' = event_id e /\ parent_event_id e' = parent_event_id e).
  { intros e e' [->| ->]; [now split | apply remove_child_links]. }
  assert (Hsub : forall e e' c, e' = e \/ e' = remove_child k e ->
            In c (child_event_ids e') -> In c (child_event_ids e)).
  { intros e e' c [->| ->]; [tauto | apply remove_child_children]. }
  assert (Hkeep : forall e e' c, e' = e \/ e' = remove_child k e ->
            In c (child_event_ids e) -> c <> k -> In c (child_event_ids e')).
  { intros e e' c [->| ->]; [tauto | apply remove_child_children]. }
  split; [|split].
  - constructor.
    + intros x e' q He' Hq. destruct (Hback x e' He') as [Hx [e [He Hrel]]].
      destruct (Hlinks e e' Hrel) as [Hid Hpar]. rewrite Hpar in Hq.
      destruct (g_links _ G x e q He Hq) as [eq [Heq Hin]].
      assert (Hqk : q <> k).
      { intros ->. rewrite (Hleaf eq Heq) in Hin. destruct Hin. }
      destruct (Hfwd q eq Hqk Heq) as [eq' [Heq' Hrel']]. exists eq'.
      split; [exact Heq'|]. rewrite Hid. apply (Hkeep eq eq' _ Hrel' Hin).
      rewrite (g_ids _ G x e He). exact Hx.
    + intros x e' He'. destruct (Hback x e' He') as [Hx [e [He Hrel]]].
      destruct (Hlinks e e' Hrel) as [Hid _]. rewrite Hid. now apply (g_ids _ G).
    + apply not_true_iff_false. intros Hm. apply dict_mem_get in Hm.
      destruct Hm as [e' E]. destruct (Hback "" e' E) as [_ [e [He _]]].
      pose proof (g_nonempty _ G) as Hn. unfold dict_mem in Hn.
      now rewrite He in Hn.
    + intros x e' He'. destruct (Hback x e' He') as [Hx [e [He [->| ->]]]].
      * now apply (g_nodup _ G x e).
      * apply remove_child_children. now apply (g_nodup _ G x e).
    + intros x e' c He' Hc. destruct (Hback x e' He') as [Hx [e [He Hrel]]].
      pose proof (Hsub e e' c Hrel Hc) as Hc0.
      destruct (g_parent_of _ G x e c He Hc0) as [ec [Hec Hpar]].
      assert (Hck : c <> k).
      { intros ->. rewrite (Hother x Hx), Hec, Hpar in He'.
        assert (Ht : truthy (Some x) = true)
          by (apply (good_truthy _ x G), dict_mem_get; now exists e).
        rewrite Ht, String.eqb_refl, He in He'. cbn in He'.
        injection He' as <-.
        apply (remove_child_children k e); [now apply (g_nodup _ G x e) | exact Hc]. }
      destruct (Hfwd c ec Hck Hec) as [ec' [Hec' Hrel']]. exists ec'.
      split; [exact Hec'|]. destruct (Hlinks ec ec' Hrel') as [_ Hp]. congruence.
  - now apply undo_step_NoDup.
  - intros h Hh.
    assert (Hstay : forall x, x <> k -> dict_mem x (events t) = true ->
              dict_mem x (events (undo_step t k)) = true).
    { intros x Hx Hm. apply dict_mem_get in Hm. destruct Hm as [e He].
      destruct (Hfwd x e Hx He) as [e' [He' _]]. apply dict_mem_get. now exists e'. }
    destruct (head_event_id t) as [h0|] eqn:Eh0.
    + destruct (String.eqb_spec h0 k) as [->|Hh0].
      * pose proof (Hhead k eq_refl) as Hm. apply dict_mem_get in Hm.
        destruct Hm as [ek Hek].
        rewrite (undo_step_head_same t k ek Eh0 Hek) in Hh.
        destruct (g_links _ G k ek h Hek Hh) as [eh [Heh Hin]].
        apply Hstay; [|apply dict_mem_get; now exists eh].
        intros ->. rewrite (Hleaf eh Heh) in Hin. destruct Hin.
      * rewrite undo_step_head_other in Hh by (rewrite Eh0; congruence).
        rewrite Eh0 in Hh. injection Hh as <-. apply Hstay; auto.
    + rewrite undo_step_head_other in Hh by (rewrite Eh0; congruence).
      congruence.
Qed.

Lemma undo_fold_inv ks : forall t,
  Inv t ->
  (forall k ek, In k ks -> dict_get k (events t) = Some ek ->
                child_event_ids ek = []) ->
  Inv (fold_left undo_step ks t).
Proof.
  induction ks as [|k ks IH]; intros t HI Hleaf; cbn [fold_left]; [exact HI|].
  apply IH.
  - apply undo_step_inv; [exact HI|]. intros ek. apply Hleaf. now left.
  - intros k' ek' Hin Hget.
    destruct (String.eqb_spec k' k) as [->|Hk].
    + rewrite undo_step_get_same in Hget by apply HI. discriminate.
    + revert Hget. rewrite (undo_step_get_other t k k' Hk).
      assert (Hrc : forall e, child_event_ids e = [] ->
                child_event_ids (remove_child k e) = []).
      { intros e He. unfold remove_child. now rewrite He. }
      destruct (dict_get k' (events t)) as [e|] eqn:E.
      * pose proof (Hleaf k' e (or_intror Hin) E) as Hnil.
        destruct (dict_get k (events t)) as [ek|]; [|congruence].
        destruct (parent_event_id ek) as [p|]; [|congruence].
        destruct (truthy (Some p) && String.eqb k' p); [|congruence].
        cbn. intros [= <-]. now apply Hrc.
      * destruct (dict_get k (events t)) as [ek|]; [|discriminate].
        destruct (parent_event_id ek) as [p|]; [|discriminate].
        destruct (truthy (Some p) && String.eqb k' p); discriminate.
Qed.


Lemma undo_inv req t :
  Inv t -> childless req t = true -> Inv (snd (undo_ollama_generation req t)).
Proof.
  intros HI Hleaf. unfold undo_ollama_generation.
  destruct (is_nil (events_to_remove req t)); [exact HI|].
  cbn [snd].
  assert (H : Inv (fold_left undo_step (events_to_remove req t) t)).
  { apply undo_fold_inv; [exact HI|]. intros k ek Hin Hget.
    apply events_to_remove_In in Hin; [|apply HI].
    destruct Hin as [e [He Hreq]]. assert (e = ek) by congruence. subst e.
    unfold childless in Hleaf. rewrite forallb_forall in Hleaf.
    specialize (Hleaf (k, ek) (dict_get_In _ _ _ Hget)). cbn in Hleaf.
    rewrite (proj2 (opt_eqb_eq _ _) Hreq) in Hleaf. cbn in Hleaf.
    now destruct (child_event_ids ek). }
  exact H.
Qed.

(** *** The timelines that the public calls reach *)




Lemma reachable_api t : reachable t -> api_reachable t.
Proof.
  induction 1; try (econstructor; eassumption).
Qed.

Lemma init_inv : Inv init_timeline.
Proof.
  split; [|split].
  - constructor; cbn; try discriminate; reflexivity.
  - constructor.
  - discriminate.
Qed.

Lemma add_asset_events category asset_id asset_data t r :
  add_asset category asset_id asset_data t = Returns r ->
  events (snd r) = events t /\ head_event_id (snd r) = head_event_id t.
Proof.
  unfold add_asset, bind.
  destruct (json_contains (assets t) category) as [[|]| |]; cbn [negb];
    try discriminate.
  - destruct (assets t) as [| | | | | |m]; try discriminate.
    destruct (dict_get category m) as [[| | | | | |bucket]|]; try discriminate.
    intros [= <-]. now split.
  - intros [= <-]. now split.
Qed.

Lemma remove_asset_events category asset_id t r :
  remove_asset category asset_id t = Returns r ->
  events (snd r) = events t /\ head_event_id (snd r) = head_event_id t.
Proof.
  unfold remove_asset, bind.
  destruct (json_contains (assets t) category) as [[|]| |]; cbn [negb];
    try discriminate.
  - destruct (assets_bucket category t) as [b| |]; try discriminate.
    destruct (json_contains b asset_id) as [[|]| |]; cbn [negb];
      try discriminate.
    + destruct (assets t) as [| | | | | |m]; try discriminate.
      destruct b as [| | | | | |bucket]; try discriminate.
      intros [= <-]. now split.
    + intros [= <-]. now split.
  - intros [= <-]. now split.
Qed.

Lemma select_branch_inv branch_id t : Inv t -> Inv (snd (select_branch branch_id t)).
Proof.
  intros HI. unfold select_branch.
  destruct (dict_mem branch_id (events t)) eqn:E; [|exact HI].
  destruct HI as [G [Hnd Hhead]]. split; [exact G | split; [exact Hnd|]].
  cbn. intros h [= <-]. exact E.
Qed.

Lemma reachable_inv t : reachable t -> Inv t.
Proof.
  induction 1 as [ | now ety d parent req t Hr IH Hp Hf
                   | clock eid choices t Hr IH Hn Hd Hf
                   | branch_id t Hr IH
                   | req t Hr IH Hc
                   | category asset_id asset_data t r Hr IH Ha
                   | category asset_id t r Hr IH Ha ].
  - apply init_inv.
  - now apply add_event_inv.
  - apply create_branch_point_inv; try assumption.
    intros ->. discriminate.
  - now apply select_branch_inv.
  - now apply undo_inv.
  - destruct (add_asset_events _ _ _ _ _ Ha) as [He Hh].
    unfold Inv. rewrite He, Hh. exact IH.
  - destruct (remove_asset_events _ _ _ _ Ha) as [He Hh].
    unfold Inv. rewrite He, Hh. exact IH.
Qed.

(** C2, as the program has it. On every timeline reached from the empty
    one by [add_event] (parent omitted or in [events]),
    [create_branch_point] with at least one option, [select_branch], the
    asset calls and [undo_ollama_generation] of events without children,
    all generated ids being new, every event with a parent has that
    parent in [events] and is in its list of children. *)
Theorem reachable_links_consistent t : reachable t -> links_consistent t.
Proof.
  intros Hr. destruct (reachable_inv t Hr) as [G _].
  intros k e p He Hp. now apply (g_links _ G k e p).
Qed.
End Links.

(** ** The properties on the timelines to compute with *)

Lemma all_distinct_NoDup (l : list string) : all_distinct l = true -> NoDup l.
Proof.
  induction l as [|x l IH]; cbn; [constructor|].
  intros H. apply andb_true_iff in H. destruct H as [Hx Hl].
  constructor; [|now apply IH].
  intros Hin. apply negb_true_iff in Hx. apply not_true_iff_false in Hx.
  apply Hx. apply existsb_exists. exists x. split; [exact Hin | apply String.eqb_refl].
Qed.

Section Examples.
#[local] Existing Instance Ref.runtime.

Lemma story_chain_keys : NoDup (dict_keys (events story_chain)).
Proof. apply all_distinct_NoDup. vm_compute. reflexivity. Qed.

(** C1, counter-example. Two generated events of one request, the second
    the child of the first and the head: after the undo the head names the
    first, which is no longer in [events]. *)
Lemma undo_chain_head_on_removed_event :
  (exists eh, head_event_id story_chain = Some (fst story_gen2)
              /\ dict_get (fst story_gen2) (events story_chain) = Some eh
              /\ ollama_request_id eh = Some "g1")
  /\ head_event_id (snd (undo_ollama_generation (Some "g1") story_chain))
     = Some (fst story_gen1)
  /\ dict_mem (fst story_gen1) (events story_chain) = true
  /\ dict_mem (fst story_gen1)
       (events (snd (undo_ollama_generation (Some "g1") story_chain))) = false.
Proof.
  split; [|split; [|split]]; try (vm_compute; reflexivity).
  eexists. split; [|split]; vm_compute; reflexivity.
Qed.

(** C1, the amended claim at a story of one text event and one generated
    event. *)
Lemma undo_head_retreats_witness :
  head_event_id (snd (undo_ollama_generation (Some "g1") (snd story_gen1)))
  = Some (fst story_root)
  /\ dict_mem (fst story_root)
       (events (snd (undo_ollama_generation (Some "g1") (snd story_gen1)))) = true
  /\ dict_mem (fst story_gen1)
       (events (snd (undo_ollama_generation (Some "g1") (snd story_gen1)))) = false.
Proof.
  apply (undo_head_retreats_to_surviving_parent "g1" (snd story_gen1)
           (fst story_gen1)
           (new_StoryEvent at2 "ollama_generation" (generation_payload "a")
              (Some (fst story_root)) (Some "g1"))
           (fst story_root)
           (append_child (fst story_gen1)
              (new_StoryEvent at1 "text_node" (text_payload "start") None None))).
  - apply all_distinct_NoDup. vm_compute. reflexivity.
  - vm_compute. reflexivity.
  - vm_compute. reflexivity.
  - reflexivity.
  - reflexivity.
  - vm_compute. reflexivity.
  - discriminate.
Defined.

(** C2, counter-example. A text event added after a generated event keeps
    the generated event as parent when the generation is undone, and that
    parent is gone. *)
Lemma undo_leaves_dangling_parent :
  api_reachable (snd (undo_ollama_generation (Some "g1") (snd story_text_after)))
  /\ ~ links_consistent
         (snd (undo_ollama_generation (Some "g1") (snd story_text_after))).
Proof.
  split.
  - apply api_undo. unfold story_text_after. apply api_add_event; [|reflexivity].
    unfold story_gen1. apply api_add_event; [|reflexivity].
    unfold story_root. apply api_add_event; [|reflexivity].
    apply api_init.
  - intros H.
    destruct (H (fst story_text_after)
                (new_StoryEvent at3 "text_node" (text_payload "then")
                   (Some (fst story_gen1)) None)
                (fst story_gen1)) as [ep [Hep _]].
    + vm_compute. reflexivity.
    + reflexivity.
    + vm_compute in Hep. discriminate.
Qed.

Lemma studio_reachable : reachable studio.
Proof.
  unfold studio, studio_undone. apply reach_undo; [|vm_compute; reflexivity].
  unfold studio_selected. apply reach_select_branch.
  unfold studio_branch.
  apply reach_create_branch_point;
    [|reflexivity | vm_compute; reflexivity | vm_compute; reflexivity].
  unfold studio_text.
  apply reach_add_event; [|vm_compute; reflexivity | vm_compute; reflexivity].
  unfold studio_gen.
  apply reach_add_event; [|vm_compute; reflexivity | vm_compute; reflexivity].
  unfold story_root.
  apply reach_add_event; [|reflexivity | vm_compute; reflexivity].
  apply reach_init.
Qed.

(** C2, the amended claim at the text event of [studio], whose parent is
    the first option. *)
Lemma reachable_links_witness :
  exists ep,
    dict_get (make_event_id at4 "branch_option" (choice_payload option_x))
      (events studio) = Some ep
    /\ In (fst studio_text) (child_event_ids ep).
Proof.
  apply (reachable_links_consistent studio studio_reachable (fst studio_text)
           (set_parent_event_id
              (Some (make_event_id at4 "branch_option" (choice_payload option_x)))
              (new_StoryEvent at3 "text_node" (text_payload "plain")
                 (Some (fst story_root)) None))).
  - vm_compute. reflexivity.
  - reflexivity.
Defined.

(** Without an option [create_branch_point] empties the children of the
    event and re-attaches none. *)
Lemma no_option_breaks_links :
  api_reachable (snd (create_branch_point stuck_clock (fst story_root) [] fork))
  /\ ~ links_consistent
         (snd (create_branch_point stuck_clock (fst story_root) [] fork)).
Proof.
  split.
  - apply api_create_branch_point.
    unfold fork, fork_c2. apply api_add_event; [|vm_compute; reflexivity].
    unfold fork_c1. apply api_add_event; [|vm_compute; reflexivity].
    unfold story_root. apply api_add_event; [|reflexivity].
    apply api_init.
  - intros H.
    destruct (H (fst fork_c1)
                (new_StoryEvent at2 "text_node" (text_payload "left")
                   (Some (fst story_root)) None)
                (fst story_root)) as [ep [Hep Hin]].
    + vm_compute. reflexivity.
    + reflexivity.
    + vm_compute in Hep. injection Hep as <-. cbn in Hin. exact Hin.
Qed.

(** C3, at the instant [at1]: the second call returns the id of the first
    and [events] holds one event. *)
Lemma same_instant_one_event :
  fst (add_event at1 "text_node" (text_payload "start") None None (snd story_root))
  = fst story_root
  /\ List.length (events (snd (add_event at1 "text_node" (text_payload "start")
                            None None (snd story_root)))) = 1.
Proof. split; vm_compute; reflexivity. Qed.

(** C4. An event with the two children of [fork], two equal options, and a
    clock that reads the same instant in both calls of [add_event]: the
    two returned ids are one id, the event under it has no children, and
    the two former children name it as parent. *)
Lemma branch_options_collide :
  (exists a, dict_get (fst story_root) (events fork) = Some a
             /\ child_event_ids a = [fst fork_c1; fst fork_c2])
  /\ fst (create_branch_point stuck_clock (fst story_root) [option_x; option_x] fork)
     = (true, [make_event_id at4 "branch_option" (choice_payload option_x);
               make_event_id at4 "branch_option" (choice_payload option_x)])
  /\ (exists b,
        dict_get (make_event_id at4 "branch_option" (choice_payload option_x))
          (events (snd (create_branch_point stuck_clock (fst story_root)
                          [option_x; option_x] fork))) = Some b
        /\ child_event_ids b = [])
  /\ (exists c1 c2,
        dict_get (fst fork_c1)
          (events (snd (create_branch_point stuck_clock (fst story_root)
                          [option_x; option_x] fork))) = Some c1
        /\ dict_get (fst fork_c2)
             (events (snd (create_branch_point stuck_clock (fst story_root)
                             [option_x; option_x] fork))) = Some c2
        /\ parent_event_id c1
           = Some (make_event_id at4 "branch_option" (choice_payload option_x))
        /\ parent_event_id c2
           = Some (make_event_id at4 "branch_option" (choice_payload option_x)))
  /\ List.length (events (snd (create_branch_point stuck_clock (fst story_root)
                            [option_x; option_x] fork))) = 4.
Proof.
  split; [|split; [|split; [|split]]].
  - eexists. split; vm_compute; reflexivity.
  - vm_compute. reflexivity.
  - eexists. split; vm_compute; reflexivity.
  - eexists. eexists. split; [|split; [|split]]; vm_compute; reflexivity.
  - vm_compute. reflexivity.
Qed.

(** C4 with two readings of the clock: the lemma on new and distinct ids
    applies. *)
Lemma branch_options_distinct_example :
  fst (create_branch_point ticking_clock (fst story_root) [option_x; option_y] fork)
  = (true, [make_event_id at4 "branch_option" (choice_payload option_x);
            make_event_id at5 "branch_option" (choice_payload option_y)])
  /\ exists b1,
       dict_get (make_event_id at4 "branch_option" (choice_payload option_x))
         (events (snd (create_branch_point ticking_clock (fst story_root)
                         [option_x; option_y] fork))) = Some b1
       /\ child_event_ids b1 = [fst fork_c1; fst fork_c2].
Proof.
  destruct (create_branch_point_reattaches ticking_clock (fst story_root)
              (append_child (fst fork_c2)
                 (append_child (fst fork_c1)
                    (new_StoryEvent at1 "text_node" (text_payload "start") None None)))
              (fst fork_c1) (fst fork_c2) option_x option_y fork)
    as [H1 [_ [[b1 [Hb1 [_ [_ Hch]]]] _]]].
  - vm_compute. reflexivity.
  - vm_compute. reflexivity.
  - vm_compute. reflexivity.
  - vm_compute. reflexivity.
  - vm_compute. reflexivity.
  - vm_compute. reflexivity.
  - vm_compute. discriminate.
  - split; [exact H1|]. exists b1. now split.
Qed.

(** C5 at [story_chain]. *)
Lemma undo_removes_witness :
  (forall k, dict_mem k (events (snd (undo_ollama_generation (Some "g1") story_chain)))
             = true
             <-> exists e, dict_get k (events story_chain) = Some e
                           /\ ollama_request_id e <> Some "g1")
  /\ fst (undo_ollama_generation (Some "g1") story_chain) = true.
Proof.
  destruct (undo_removes_exactly_tagged "g1" story_chain story_chain_keys)
    as [H1 _].
  split; [exact H1 | vm_compute; reflexivity].
Defined.

Lemma studio_branch_keys : NoDup (dict_keys (events (snd studio_branch))).
Proof. apply all_distinct_NoDup. vm_compute. reflexivity. Qed.


(** C6 at the empty timeline. *)
Lemma save_load_empty :
  load_timeline "story.json" (snd studio_branch)
    (snd (save_timeline "story.json" init_timeline no_files))
  = Returns init_timeline.
Proof. vm_compute. reflexivity. Qed.


(** A file that holds a JSON list: the [AttributeError] leaves the call. *)
Lemma load_json_list_raises :
  load_timeline "list.json" (snd story_root) list_project = Raises AttributeError.
Proof. reflexivity. Qed.


(** C8 with the parent ["ghost"] on the story of one event. *)
Lemma add_event_unknown_parent_witness :
  dict_mem "ghost" (events (snd story_root)) = false
  /\ fst (add_event at2 "text_node" (text_payload "lost") (Some "ghost") None
            (snd story_root))
     = make_event_id at2 "text_node" (text_payload "lost")
  /\ dict_get (fst story_root)
       (events (snd (add_event at2 "text_node" (text_payload "lost")
                       (Some "ghost") None (snd story_root))))
     = dict_get (fst story_root) (events (snd story_root)).
Proof.
  assert (H : dict_mem "ghost" (events (snd story_root)) = false)
    by (vm_compute; reflexivity).
  destruct (add_event_unknown_parent at2 "text_node" (text_payload "lost")
              "ghost" None (snd story_root) H) as [H1 [_ [H3 _]]].
  split; [exact H|]. split; [exact H1|].
  rewrite (H3 (fst story_root)
             (new_StoryEvent at1 "text_node" (text_payload "start") None None)).
  - vm_compute. reflexivity.
  - vm_compute. reflexivity.
  - vm_compute. discriminate.
Defined.

(** C10 at a project file that has no ["assets"] key. *)
Lemma load_without_assets_witness :
  add_asset "backgrounds" "sky.png" (JStr "assets/sky.png")
    {| events := []; head_event_id := None; characters := JObj [];
       active_branch_id := None; assets := JObj []; dirty := false |}
  = Returns (false,
             {| events := []; head_event_id := None; characters := JObj [];
                active_branch_id := None; assets := JObj []; dirty := false |}).
Proof.
  apply (load_without_assets_rejects_add_asset "old.json" init_timeline
           old_project [("events", JObj []); ("head_event_id", JNull)]).
  - vm_compute. reflexivity.
  - reflexivity.
  - vm_compute. reflexivity.
Defined.
End Examples.

(** ** More on add_event *)
Section AddEventRegistration.
Context {R : Runtime}.
Open Scope list_scope.

(** X1. With a parent that is in [events] (given, or the head when it is
    omitted), is not the empty string and is not the new id, [add_event]
    binds the new event under its id with that parent and no children,
    appends the new id to the children of the parent, and leaves every
    other event as it was. *)
Theorem add_event_registers_child now ety d parent req t p ep :
  (parent = Some p \/ (parent = None /\ head_event_id t = Some p)) ->
  p <> "" ->
  dict_get p (events t) = Some ep ->
  p <> make_event_id now ety d ->
  let nid := make_event_id now ety d in
  let t' := snd (add_event now ety d parent req t) in
  dict_get nid (events t') = Some (new_StoryEvent now ety d (Some p) req)
  /\ dict_get p (events t') = Some (append_child nid ep)
  /\ (forall k, k <> nid -> k <> p -> dict_get k (events t') = dict_get k (events t)).
Proof.
  intros Hpar Hne Hp Hpn. cbn zeta.
  assert (E : add_event now ety d parent req t = add_event now ety d (Some p) req t).
  { destruct Hpar as [->|[-> Hh]]; [reflexivity|].
    rewrite add_event_default, Hh. reflexivity. }
  rewrite E. set (nid := make_event_id now ety d) in *.
  assert (Ht : truthy (Some p) = true).
  { cbn. now rewrite (proj2 (String.eqb_neq p "")). }
  assert (Hm : dict_mem p (events t) = true) by (unfold dict_mem; now rewrite Hp).
  split; [|split].
  - rewrite add_event_get. cbn zeta. fold nid. rewrite Ht, Hm, orb_true_r.
    cbn [andb]. rewrite String.eqb_refl.
    rewrite (proj2 (String.eqb_neq nid p)) by congruence. reflexivity.
  - rewrite add_event_get. cbn zeta. fold nid. rewrite Ht, Hm, orb_true_r.
    cbn [andb]. rewrite String.eqb_refl.
    rewrite (proj2 (String.eqb_neq p nid)) by congruence. now rewrite Hp.
  - intros k Hk1 Hk2. rewrite add_event_get. cbn zeta. fold nid.
    rewrite Ht, Hm, orb_true_r. cbn [andb].
    rewrite (proj2 (String.eqb_neq k p)) by congruence.
    now rewrite (proj2 (String.eqb_neq k nid)) by congruence.
Qed.

(** X2. [add_event] adds at most one key and never moves one: a new id
    goes to the end of [events]; an id that is already a key keeps its
    place. *)
Theorem add_event_key_order now ety d parent req t :
  dict_keys (events (snd (add_event now ety d parent req t)))
  = if dict_mem (make_event_id now ety d) (events t)
    then dict_keys (events t)
    else dict_keys (events t) ++ [make_event_id now ety d].
Proof.
  destruct (dict_mem _ _) eqn:E.
  - rewrite add_event_keys. now apply dict_keys_set_bound.
  - now apply add_event_keys_fresh.
Qed.
End AddEventRegistration.

(** ** create_branch_point with any number of options *)
Section BranchOptions.
Context {R : Runtime}.
Open Scope list_scope.

Lemma branch_loop_created clock eid ex choices : forall i live created t,
  fst (branch_loop clock i eid ex choices live created t)
  = created ++ branch_ids clock i choices.
Proof.
  induction choices as [|c rest IH]; intros i live created t.
  - cbn. now rewrite app_nil_r.
  - rewrite branch_loop_cons. cbn zeta. rewrite IH, branch_body_id.
    cbn [branch_ids]. now rewrite <- app_assoc.
Qed.

Lemma last_cons_default {A : Type} (x d : A) (l : list A) :
  last (x :: l) d = last l x.
Proof.
  revert x d. induction l as [|y l IH]; intros x d; [reflexivity|].
  change (last (x :: y :: l) d) with (last (y :: l) d).
  now rewrite !IH.
Qed.

Lemma branch_loop_head clock eid ex choices : forall i live created t,
  head_event_id (snd (branch_loop clock i eid ex choices live created t))
  = last (map Some (branch_ids clock i choices)) (head_event_id t).
Proof.
  induction choices as [|c rest IH]; intros i live created t; [reflexivity|].
  rewrite branch_loop_cons. cbn zeta. rewrite IH, branch_body_head.
  cbn [branch_ids map]. now rewrite last_cons_default.
Qed.

Lemma branch_body_rest now eid ex c live created t :
  let t' := snd (branch_body now eid ex c live created t) in
  characters t' = characters t /\ active_branch_id t' = active_branch_id t
  /\ assets t' = assets t.
Proof.
  unfold branch_body.
  change (add_event now "branch_option" (choice_payload c) (Some eid) None t)
    with (fst (add_event now "branch_option" (choice_payload c) (Some eid) None t),
          snd (add_event now "branch_option" (choice_payload c) (Some eid) None t)).
  cbn iota beta zeta. cbn [snd].
  destruct (live && negb _); destruct (negb (is_nil ex) && is_nil created);
    now repeat split.
Qed.

Lemma branch_loop_rest clock eid ex choices : forall i live created t,
  let t' := snd (branch_loop clock i eid ex choices live created t) in
  characters t' = characters t /\ active_branch_id t' = active_branch_id t
  /\ assets t' = assets t.
Proof.
  induction choices as [|c rest IH]; intros i live created t; [now repeat split|].
  cbn zeta. rewrite branch_loop_cons. cbn zeta.
  destruct (IH (S i) (snd (fst (branch_body (clock i) eid ex c live created t)))
              (created ++ [fst (fst (branch_body (clock i) eid ex c live created t))])
              (snd (branch_body (clock i) eid ex c live created t)))
    as (H1 & H2 & H3).
  destruct (branch_body_rest (clock i) eid ex c live created t) as (G1 & G2 & G3).
  cbn zeta in *. repeat split; congruence.
Qed.

(** X3. [create_branch_point] on an id that is not in [events] returns
    [(False, [])] and changes nothing.  Otherwise it returns [True] with
    one generated id per option, in the order of the options; the head is
    the last of them (unchanged when there is no option), [dirty] is set,
    and the active branch, the assets and the characters are as before. *)
Theorem create_branch_point_outcome clock eid choices t :
  let r := create_branch_point clock eid choices t in
  if dict_mem eid (events t)
  then fst r = (true, branch_ids clock 0 choices)
       /\ List.length (branch_ids clock 0 choices) = List.length choices
       /\ head_event_id (snd r)
          = last (map Some (branch_ids clock 0 choices)) (head_event_id t)
       /\ dirty (snd r) = true
       /\ active_branch_id (snd r) = active_branch_id t
       /\ assets (snd r) = assets t
       /\ characters (snd r) = characters t
  else r = ((false, []), t).
Proof.
  cbn zeta. unfold dict_mem, create_branch_point.
  destruct (dict_get eid (events t)) as [a|]; [|reflexivity].
  set (t0 := set_events _ t).
  pose proof (branch_loop_created clock eid (child_event_ids a) choices 0 true [] t0) as Hc.
  pose proof (branch_loop_head clock eid (child_event_ids a) choices 0 true [] t0) as Hh.
  pose proof (branch_loop_rest clock eid (child_event_ids a) choices 0 true [] t0) as Hr.
  destruct (branch_loop clock 0 eid (child_event_ids a) choices true [] t0) as [created t'].
  cbn [fst snd] in *. cbn zeta in Hr. destruct Hr as (H1 & H2 & H3).
  cbn [app] in Hc. subst created.
  repeat split; try assumption.
  clear. generalize 0. induction choices as [|c rest IH]; intros n; cbn; [reflexivity|].
  now rewrite IH.
Qed.

(** The turns after the first, key by key. *)
Lemma later_loop_get clock eid ex choices k : forall i created t,
  truthy (Some eid) = true ->
  dict_mem eid (events t) = true ->
  (forall id, In id (branch_ids clock i choices) -> id <> eid) ->
  created <> [] ->
  dict_get k (events (snd (branch_loop clock i eid ex choices true created t)))
  = later_lookup clock i eid choices k (dict_get k (events t)).
Proof.
  induction choices as [|c rest IH]; intros i created t Ht Hm Hne Hcr; [reflexivity|].
  rewrite branch_loop_cons. cbn zeta.
  set (bid := make_event_id (clock i) "branch_option" (choice_payload c)).
  assert (Hb : bid <> eid) by (apply Hne; now left).
  rewrite branch_body_live. fold bid.
  rewrite (proj2 (String.eqb_neq bid eid) Hb). cbn [negb andb].
  rewrite IH; try assumption.
  - cbn [later_lookup]. fold bid. f_equal.
    rewrite branch_body_get. cbn zeta. fold bid.
    rewrite (proj2 (String.eqb_neq bid eid) Hb). cbn [negb andb].
    assert (Hnil : is_nil created = false) by (destruct created; [congruence | reflexivity]).
    rewrite Hnil, andb_false_r.
    rewrite add_event_get. cbn zeta. fold bid. rewrite Ht, Hm, orb_true_r.
    cbn [andb].
    destruct (String.eqb_spec k bid) as [->|Hkb].
    + rewrite (proj2 (String.eqb_neq bid eid) Hb). reflexivity.
    + destruct (String.eqb k eid); [|reflexivity].
      destruct (dict_get k (events t)); reflexivity.
  - rewrite branch_body_mem, Hm. apply orb_true_r.
  - intros id Hid. apply Hne. now right.
  - destruct created; discriminate.
Qed.

Lemma later_lookup_other clock eid choices k : forall i o,
  k <> eid ->
  ~ In k (branch_ids clock i choices) ->
  later_lookup clock i eid choices k o = o.
Proof.
  induction choices as [|c rest IH]; intros i o Hk Hn; [reflexivity|].
  cbn [later_lookup]. cbn [branch_ids] in Hn.
  rewrite IH; [| assumption | intros H; apply Hn; now right].
  rewrite (proj2 (String.eqb_neq k eid) Hk).
  destruct (String.eqb_spec k (make_event_id (clock i) "branch_option" (choice_payload c)))
    as [E|E]; [|reflexivity].
  exfalso. apply Hn. left. now symmetry.
Qed.

Lemma later_lookup_point clock eid choices : forall i a,
  ~ In eid (branch_ids clock i choices) ->
  later_lookup clock i eid choices eid (Some a)
  = Some (set_branch_choices (branch_choices a ++ branch_entries clock i choices)
            (set_child_event_ids (child_event_ids a ++ branch_ids clock i choices) a)).
Proof.
  induction choices as [|c rest IH]; intros i a Hn.
  - cbn. rewrite !app_nil_r. now destruct a.
  - cbn [later_lookup branch_ids branch_entries]. cbn [branch_ids] in Hn.
    rewrite String.eqb_refl.
    destruct (String.eqb_spec eid (make_event_id (clock i) "branch_option" (choice_payload c)))
      as [E|E]; [exfalso; apply Hn; left; now symmetry|].
    cbn [option_map]. rewrite IH by (intros H; apply Hn; now right).
    f_equal. destruct a. cbn. now rewrite <- !app_assoc.
Qed.

Lemma later_lookup_option clock eid choices : forall i n c o,
  NoDup (branch_ids clock i choices) ->
  ~ In eid (branch_ids clock i choices) ->
  nth_error choices n = Some c ->
  later_lookup clock i eid choices
    (make_event_id (clock (i + n)) "branch_option" (choice_payload c)) o
  = Some (new_StoryEvent (clock (i + n)) "branch_option" (choice_payload c)
            (Some eid) None).
Proof.
  induction choices as [|c0 rest IH]; intros i n c o Hnd Hn Hnth.
  - destruct n; discriminate.
  - cbn [branch_ids] in Hnd, Hn. inversion Hnd as [|x l Hx Hnd']; subst.
    destruct n as [|n]; cbn [nth_error] in Hnth.
    + injection Hnth as ->. rewrite Nat.add_0_r. cbn [later_lookup].
      rewrite String.eqb_refl. rewrite later_lookup_other; [reflexivity| |exact Hx].
      intros E. apply Hn. left. exact E.
    + cbn [later_lookup]. replace (i + S n) with (S i + n) by lia.
      apply IH; [exact Hnd' | intros H; apply Hn; now right | exact Hnth].
Qed.

Lemma branch_ids_nth clock choices : forall i n c,
  nth_error choices n = Some c ->
  In (make_event_id (clock (i + n)) "branch_option" (choice_payload c))
     (branch_ids clock i choices).
Proof.
  induction choices as [|c0 rest IH]; intros i n c Hnth; [destruct n; discriminate|].
  destruct n as [|n]; cbn [nth_error] in Hnth.
  - injection Hnth as ->. rewrite Nat.add_0_r. now left.
  - right. replace (i + S n) with (S i + n) by lia. now apply IH.
Qed.

Lemma all_fresh_In ids t id :
  all_fresh ids t = true -> In id ids -> dict_mem id (events t) = false.
Proof.
  unfold all_fresh. rewrite forallb_forall. intros H Hin.
  apply H in Hin. now apply negb_true_iff in Hin.
Qed.

Lemma existsb_eqb_In x l : existsb (String.eqb x) l = true <-> In x l.
Proof.
  rewrite existsb_exists. split.
  - intros (y & Hy & E). apply String.eqb_eq in E. now subst.
  - intros H. exists x. split; [exact H | apply String.eqb_refl].
Qed.

Lemma existsb_eqb_notIn x l : existsb (String.eqb x) l = false <-> ~ In x l.
Proof.
  rewrite <- existsb_eqb_In. destruct (existsb _ l); split; congruence.
Qed.

(** The first turn of the loop, key by key. *)
Lemma first_body_get now A a c t k :
  good (events t) ->
  dict_get A (events t) = Some a ->
  dict_mem (make_event_id now "branch_option" (choice_payload c)) (events t) = false ->
  dict_get k (events
                (snd (branch_body now A (child_event_ids a) c true []
                        (set_events
                           (dict_modify A
                              (fun e => set_branch_choices []
                                          (set_child_event_ids []
                                             (set_is_branch_point true e)))
                              (events t)) t))))
  = first_lookup now A a c k (dict_get k (events t)).
Proof.
  intros Hg HA Hf. unfold first_lookup.
  set (bid := make_event_id now "branch_option" (choice_payload c)) in *.
  set (reset := fun e : StoryEvent datetime =>
                  set_branch_choices []
                    (set_child_event_ids [] (set_is_branch_point true e))).
  assert (HAm : dict_mem A (events t) = true) by (unfold dict_mem; now rewrite HA).
  assert (Ht : truthy (Some A) = true) by (eapply good_truthy; eauto).
  assert (HbA : bid <> A) by (intros E; rewrite E in Hf; congruence).
  assert (Hex : forall x, In x (child_event_ids a) -> dict_mem x (events t) = true).
  { intros x Hx. eapply g_children; eauto. }
  assert (Hbex : existsb (String.eqb bid) (child_event_ids a) = false).
  { apply existsb_eqb_notIn. intros H. apply Hex in H. congruence. }
  rewrite branch_body_get. cbn zeta. fold bid.
  rewrite (proj2 (String.eqb_neq bid A) HbA). cbn [negb andb is_nil].
  rewrite add_event_get. cbn zeta. fold bid. cbn [events set_events].
  rewrite dict_mem_modify, Ht, HAm, orb_true_r. cbn [andb].
  rewrite dict_get_modify.
  set (mem1 := fun x => dict_mem x _).
  assert (Hmem1 : forall x, mem1 x = String.eqb x bid || dict_mem x (events t)).
  { intros x. subst mem1. cbn beta. rewrite add_event_mem. fold bid.
    cbn [events set_events]. now rewrite dict_mem_modify. }
  assert (Hfil : filter mem1 (child_event_ids a) = child_event_ids a).
  { apply filter_all. intros x Hx. rewrite Hmem1, (Hex x Hx). apply orb_true_r. }
  destruct (String.eqb_spec k bid) as [->|Hkb].
  - rewrite (proj2 (String.eqb_neq bid A) HbA).
    destruct (child_event_ids a) as [|x ex] eqn:Ech; cbn [is_nil negb andb].
    + reflexivity.
    + cbn [option_map]. unfold reattached. rewrite Hbex, String.eqb_refl, Hfil.
      reflexivity.
  - destruct (String.eqb_spec k A) as [->|HkA].
    + rewrite HA. cbn [option_map].
      destruct (child_event_ids a) as [|x ex] eqn:Ech; cbn [is_nil negb andb].
      * reflexivity.
      * cbn [option_map]. unfold reattached.
        rewrite (proj2 (String.eqb_neq A bid)) by congruence.
        destruct (existsb (String.eqb A) (x :: ex)); reflexivity.
    + destruct (dict_get k (events t)) as [e|]; cbn [option_map];
        destruct (child_event_ids a) as [|x ex] eqn:Ech; cbn [is_nil negb andb];
        try reflexivity.
      cbn [option_map]. unfold reattached.
      rewrite (proj2 (String.eqb_neq k bid) Hkb).
      destruct (existsb (String.eqb k) (x :: ex)); reflexivity.
Qed.

(** [create_branch_point] with at least one option, key by key. *)
Lemma create_branch_point_get clock A a c1 rest t k :
  good (events t) ->
  dict_get A (events t) = Some a ->
  all_fresh (branch_ids clock 0 (c1 :: rest)) t = true ->
  dict_get k (events (snd (create_branch_point clock A (c1 :: rest) t)))
  = later_lookup clock 1 A rest k
      (first_lookup (clock 0) A a c1 k (dict_get k (events t))).
Proof.
  intros Hg HA Hf. cbn [branch_ids] in Hf.
  set (id1 := make_event_id (clock 0) "branch_option" (choice_payload c1)) in *.
  rewrite all_fresh_cons in Hf. apply andb_true_iff in Hf. destruct Hf as [Hf1 Hf].
  apply negb_true_iff in Hf1.
  assert (HAm : dict_mem A (events t) = true) by (unfold dict_mem; now rewrite HA).
  assert (Ht : truthy (Some A) = true) by (eapply good_truthy; eauto).
  assert (H1A : id1 <> A) by congruence.
  assert (HrA : forall id, In id (branch_ids clock 1 rest) -> id <> A).
  { intros id Hid E. subst id. apply (all_fresh_In _ _ _ Hf) in Hid. congruence. }
  rewrite <- (first_body_get (clock 0) A a c1 t k Hg HA Hf1).
  unfold create_branch_point. rewrite HA.
  set (t0 := set_events _ t).
  rewrite branch_loop_cons. cbn zeta. rewrite branch_body_live. fold id1.
  rewrite (proj2 (String.eqb_neq id1 A) H1A). cbn [negb andb].
  set (t1 := snd (branch_body (clock 0) A (child_event_ids a) c1 true [] t0)).
  destruct (branch_loop clock 1 A (child_event_ids a) rest true _ t1)
    as [created t'] eqn:E.
  cbn [snd events set_dirty].
  change t' with (snd (created, t')). rewrite <- E.
  apply later_loop_get; try assumption.
  - subst t1. rewrite branch_body_mem. subst t0. cbn [events set_events].
    rewrite dict_mem_modify, HAm. apply orb_true_r.
  - rewrite branch_body_id. discriminate.
Qed.

(** X4. On a reachable timeline, with at least one option and generated
    ids that are new and pairwise distinct, [create_branch_point] leaves
    the event flagged, with the generated ids as its children and one entry
    per option in [branch_choices], which is what [is_branch_point] and
    [get_branch_options] then return; option number [n] is in [events] as a
    [branch_option] event with the payload of the option and the branch
    point as parent; the first option has the former children of the
    branch point as children and the others none; every former child names
    the first option as parent. *)
Theorem create_branch_point_options clock A a choices t :
  reachable t ->
  dict_get A (events t) = Some a ->
  is_nil choices = false ->
  all_distinct (branch_ids clock 0 choices) = true ->
  all_fresh (branch_ids clock 0 choices) t = true ->
  let t' := snd (create_branch_point clock A choices t) in
  (exists a', dict_get A (events t') = Some a'
              /\ is_branch_point a' = true
              /\ child_event_ids a' = branch_ids clock 0 choices
              /\ branch_choices a' = branch_entries clock 0 choices)
  /\ is_branch_point_at A t' = true
  /\ get_branch_options A t' = branch_entries clock 0 choices
  /\ (forall n c, nth_error choices n = Some c ->
        exists b,
          dict_get (make_event_id (clock n) "branch_option" (choice_payload c))
            (events t') = Some b
          /\ event_type b = "branch_option"
          /\ data b = choice_payload c
          /\ parent_event_id b = Some A
          /\ child_event_ids b
             = match n with O => child_event_ids a | S _ => [] end)
  /\ (forall x, In x (child_event_ids a) ->
        exists e', dict_get x (events t') = Some e'
                   /\ parent_event_id e' = hd_error (branch_ids clock 0 choices)).
Proof.
  intros Hr HA Hnil Hd Hf.
  destruct (reachable_inv t Hr) as (Hg & Hnd & _).
  destruct choices as [|c1 rest]; [discriminate|]. clear Hnil.
  cbn [branch_ids] in Hd, Hf.
  set (id1 := make_event_id (clock 0) "branch_option" (choice_payload c1)) in *.
  apply all_distinct_NoDup in Hd. inversion Hd as [|x l Hx Hd']; subst x l.
  rewrite all_fresh_cons in Hf. apply andb_true_iff in Hf. destruct Hf as [Hf1 Hf].
  apply negb_true_iff in Hf1.
  assert (HAm : dict_mem A (events t) = true) by (unfold dict_mem; now rewrite HA).
  assert (Ht : truthy (Some A) = true) by (eapply good_truthy; eauto).
  assert (H1A : id1 <> A) by congruence.
  assert (HrA : forall id, In id (branch_ids clock 1 rest) -> id <> A).
  { intros id Hid E. subst id. apply (all_fresh_In _ _ _ Hf) in Hid. congruence. }
  assert (HAr : ~ In A (branch_ids clock 1 rest)).
  { intros H. now apply (HrA A H). }
  assert (Hex : forall x, In x (child_event_ids a) -> dict_mem x (events t) = true).
  { intros x Hx0. eapply g_children; eauto. }
  assert (Hget : forall k,
            dict_get k (events (snd (create_branch_point clock A (c1 :: rest) t)))
            = later_lookup clock 1 A rest k
                (first_lookup (clock 0) A a c1 k (dict_get k (events t)))).
  { intros k. apply create_branch_point_get; try assumption.
    cbn [branch_ids]. rewrite all_fresh_cons. fold id1. now rewrite Hf1, Hf. }
  assert (HA' : exists a', dict_get A (events (snd (create_branch_point clock A (c1 :: rest) t)))
                           = Some a'
              /\ is_branch_point a' = true
              /\ child_event_ids a' = id1 :: branch_ids clock 1 rest
              /\ branch_choices a' = branch_entries clock 0 (c1 :: rest)
              /\ (In A (child_event_ids a) -> parent_event_id a' = Some id1)).
  { rewrite Hget. unfold first_lookup. fold id1.
    rewrite (proj2 (String.eqb_neq A id1)) by congruence.
    rewrite HA, String.eqb_refl. cbn [option_map]. cbn zeta.
    rewrite later_lookup_point by exact HAr.
    eexists. split; [reflexivity|].
    destruct (existsb (String.eqb A) (child_event_ids a)) eqn:EA;
      (repeat split; try reflexivity).
    intros HIn. apply existsb_eqb_In in HIn. congruence. }
  cbn zeta. split; [|split; [|split; [|split]]].
  - destruct HA' as (a' & H1 & H2 & H3 & H4 & _). exists a'. now repeat split.
  - destruct HA' as (a' & H1 & H2 & _). unfold is_branch_point_at. now rewrite H1.
  - destruct HA' as (a' & H1 & H2 & _ & H4 & _). unfold get_branch_options.
    now rewrite H1, H2.
  - intros n c Hn. rewrite Hget. destruct n as [|n]; cbn [nth_error] in Hn.
    + injection Hn as <-. fold id1.
      rewrite later_lookup_other; [| exact H1A | exact Hx].
      unfold first_lookup. fold id1. rewrite String.eqb_refl.
      eexists. split; [reflexivity|]. now repeat split.
    + rewrite (later_lookup_option clock A rest 1 n c); try assumption.
      eexists. split; [reflexivity|]. now repeat split.
  - intros x Hxin. cbn [hd_error].
    destruct (String.eqb_spec x A) as [->|HxA].
    + destruct HA' as (a' & H1 & _ & _ & _ & H5). exists a'. split; [exact H1|].
      now rewrite H5.
    + pose proof (Hex x Hxin) as Hxm.
      assert (Hx1 : x <> id1) by congruence.
      assert (Hxr : ~ In x (branch_ids clock 1 rest)).
      { intros H. apply (all_fresh_In _ _ _ Hf) in H. congruence. }
      rewrite Hget, later_lookup_other by assumption.
      unfold first_lookup. fold id1.
      rewrite (proj2 (String.eqb_neq x id1) Hx1).
      rewrite (proj2 (String.eqb_neq x A) HxA).
      apply dict_mem_get in Hxm. destruct Hxm as [e He]. rewrite He.
      cbn [option_map]. cbn zeta.
      rewrite (proj2 (existsb_eqb_In x (child_event_ids a)) Hxin).
      eexists. split; reflexivity.
Qed.

Lemma reattached_id b ex mem k (e : StoryEvent datetime) :
  k <> b -> ~ In k ex -> reattached b ex mem k e = e.
Proof.
  intros Hb Hex. unfold reattached.
  rewrite (proj2 (existsb_eqb_notIn k ex) Hex).
  now rewrite (proj2 (String.eqb_neq k b) Hb).
Qed.

Lemma branch_loop_frame clock eid ex choices k : forall i live created t,
  k <> eid ->
  ~ In k ex ->
  ~ In k (branch_ids clock i choices) ->
  dict_get k (events (snd (branch_loop clock i eid ex choices live created t)))
  = dict_get k (events t).
Proof.
  induction choices as [|c rest IH]; intros i live created t Hk Hex Hids;
    [reflexivity|].
  rewrite branch_loop_cons. cbn zeta. cbn [branch_ids] in Hids.
  rewrite IH; [| assumption | assumption | intros H; apply Hids; now right].
  set (bid := make_event_id (clock i) "branch_option" (choice_payload c)) in *.
  assert (Hkb : k <> bid) by (intros E; apply Hids; left; now symmetry).
  rewrite branch_body_get. cbn zeta. fold bid.
  rewrite (proj2 (String.eqb_neq k eid) Hk).
  rewrite add_event_get. cbn zeta. fold bid.
  rewrite (proj2 (String.eqb_neq k eid) Hk), (proj2 (String.eqb_neq k bid) Hkb).
  assert (Hbase : (if truthy (Some eid) && (String.eqb eid bid || dict_mem eid (events t))
                   then dict_get k (events t) else dict_get k (events t))
                  = dict_get k (events t)) by (now destruct (_ && _)).
  rewrite Hbase.
  assert (Ho : forall mem, option_map (reattached bid ex mem k) (dict_get k (events t))
                           = dict_get k (events t)).
  { intros mem. destruct (dict_get k (events t)) as [e|]; [|reflexivity].
    cbn. now rewrite reattached_id. }
  rewrite Ho.
  destruct (live && negb _); destruct (negb (is_nil ex) && is_nil created); reflexivity.
Qed.

(** X5. [create_branch_point] touches only the branch point, its former
    children and the keys of the generated ids: under any other key
    [events] holds what it held. *)
Theorem create_branch_point_frame clock eid choices t a k :
  dict_get eid (events t) = Some a ->
  k <> eid ->
  ~ In k (child_event_ids a) ->
  ~ In k (branch_ids clock 0 choices) ->
  dict_get k (events (snd (create_branch_point clock eid choices t)))
  = dict_get k (events t).
Proof.
  intros HA Hk Hex Hids. unfold create_branch_point. rewrite HA.
  set (t0 := set_events _ t).
  pose proof (branch_loop_frame clock eid (child_event_ids a) choices k 0 true [] t0
                Hk Hex Hids) as H.
  destruct (branch_loop clock 0 eid (child_event_ids a) choices true [] t0)
    as [created t'].
  cbn [snd events set_dirty] in *. rewrite H. subst t0. cbn [events set_events].
  rewrite dict_get_modify. now rewrite (proj2 (String.eqb_neq k eid) Hk).
Qed.

End BranchOptions.

(** ** More on undo_ollama_generation *)
Section UndoComposition.
Context {R : Runtime}.
Open Scope list_scope.

Lemma undo_NoDup req t :
  NoDup (dict_keys (events t)) ->
  NoDup (dict_keys (events (snd (undo_ollama_generation req t)))).
Proof.
  intros Hnd. unfold undo_ollama_generation.
  destruct (is_nil (events_to_remove req t)); cbn [snd]; [exact Hnd|].
  cbn [events set_dirty]. rewrite undo_fold_keys by exact Hnd.
  now apply NoDup_filter.
Qed.

Lemma same_but_children_request (e e' : StoryEvent datetime) :
  same_but_children e e' -> ollama_request_id e' = ollama_request_id e.
Proof. unfold same_but_children. intros ->. reflexivity. Qed.

(** X6. A second [undo_ollama_generation] of the same request id finds
    nothing: it returns [False] and leaves the timeline as the first call
    left it. *)
Theorem undo_twice req t :
  NoDup (dict_keys (events t)) ->
  undo_ollama_generation req (snd (undo_ollama_generation req t))
  = (false, snd (undo_ollama_generation req t)).
Proof.
  intros Hnd.
  set (t' := snd (undo_ollama_generation req t)).
  assert (Hnd' : NoDup (dict_keys (events t'))) by now apply undo_NoDup.
  assert (Hnone : events_to_remove req t' = []).
  { destruct (events_to_remove req t') as [|k ks] eqn:E; [reflexivity|].
    exfalso.
    assert (Hin : In k (events_to_remove req t')) by (rewrite E; now left).
    apply events_to_remove_In in Hin; [|exact Hnd'].
    destruct Hin as [e' [He' Hreq]].
    destruct (undo_survivor_same req t k e' Hnd He') as [e [He Hs]].
    assert (Hm : dict_mem k (events t') = true) by (apply dict_mem_get; eauto).
    apply undo_survivors in Hm; [|exact Hnd].
    destruct Hm as [e0 [He0 Hne]].
    apply same_but_children_request in Hs. congruence. }
  unfold undo_ollama_generation at 1. now rewrite Hnone.
Qed.

Lemma undo_step_rest t k :
  characters (undo_step t k) = characters t
  /\ active_branch_id (undo_step t k) = active_branch_id t
  /\ assets (undo_step t k) = assets t
  /\ dirty (undo_step t k) = dirty t.
Proof. now repeat split. Qed.

Lemma undo_fold_rest ks : forall t,
  characters (fold_left undo_step ks t) = characters t
  /\ active_branch_id (fold_left undo_step ks t) = active_branch_id t
  /\ assets (fold_left undo_step ks t) = assets t
  /\ dirty (fold_left undo_step ks t) = dirty t.
Proof.
  induction ks as [|k ks IH]; intros t; cbn [fold_left]; [now repeat split|].
  destruct (IH (undo_step t k)) as (H1 & H2 & H3 & H4).
  now rewrite H1, H2, H3, H4.
Qed.

(** X7. [undo_ollama_generation] never touches the characters, the
    assets or the active branch; [dirty] is as before unless the call
    returns [True]. *)
Theorem undo_keeps_registry req t :
  let t' := snd (undo_ollama_generation req t) in
  characters t' = characters t
  /\ assets t' = assets t
  /\ active_branch_id t' = active_branch_id t
  /\ dirty t' = (fst (undo_ollama_generation req t) || dirty t).
Proof.
  cbn zeta. unfold undo_ollama_generation.
  destruct (is_nil (events_to_remove req t)); cbn [fst snd]; [now repeat split|].
  destruct (undo_fold_rest (events_to_remove req t) t) as (H1 & H2 & H3 & H4).
  now repeat split.
Qed.

(** Two dicts with the same keys, all distinct, and the same value under
    each key are the same dict. *)
Lemma dict_ext {V : Type} (d : dict V) : forall d',
  NoDup (dict_keys d) ->
  dict_keys d = dict_keys d' ->
  (forall k, dict_get k d = dict_get k d') ->
  d = d'.
Proof.
  induction d as [|[k v] d IH]; intros d' Hnd Hk Hget.
  - destruct d'; [reflexivity | discriminate].
  - destruct d' as [|[k' v'] d']; [discriminate|].
    cbn in Hk. injection Hk as <- Hk. inversion Hnd as [|x l Hx Hnd']; subst.
    pose proof (Hget k) as H0. cbn in H0. rewrite String.eqb_refl in H0.
    injection H0 as <-. f_equal. apply IH; [exact Hnd' | exact Hk |].
    intros x. pose proof (Hget x) as H1. cbn in H1.
    destruct (String.eqb x k) eqn:Exk; [|exact H1].
    apply String.eqb_eq in Exk. subst x.
    rewrite (proj2 (dict_get_None k d)) by exact Hx.
    symmetry. apply dict_get_None. unfold dict_keys in *. now rewrite <- Hk.
Qed.

Lemma events_to_remove_modify req k (f : StoryEvent datetime -> StoryEvent datetime)
    (evs : dict (StoryEvent datetime)) :
  (forall e, ollama_request_id (f e) = ollama_request_id e) ->
  map fst (filter (fun kv => opt_eqb (ollama_request_id (snd kv)) req)
             (dict_modify k f evs))
  = map fst (filter (fun kv => opt_eqb (ollama_request_id (snd kv)) req) evs).
Proof.
  intros Hf. induction evs as [|[k0 e0] evs IH]; [reflexivity|].
  cbn [dict_modify]. destruct (String.eqb k k0).
  - cbn [filter snd]. rewrite Hf. now destruct (opt_eqb _ _).
  - cbn [filter snd]. destruct (opt_eqb _ _); cbn [map]; now rewrite IH.
Qed.

Lemma add_event_to_remove now ety d parent (r : string) t :
  dict_mem (make_event_id now ety d) (events t) = false ->
  events_to_remove (Some r) (snd (add_event now ety d parent (Some r) t))
  = events_to_remove (Some r) t ++ [make_event_id now ety d].
Proof.
  intros Hf. unfold events_to_remove.
  assert (Hset : forall pp,
            map fst (filter (fun kv => opt_eqb (ollama_request_id (snd kv)) (Some r))
                       (dict_set (make_event_id now ety d)
                          (new_StoryEvent now ety d pp (Some r)) (events t)))
            = map fst (filter (fun kv => opt_eqb (ollama_request_id (snd kv)) (Some r))
                         (events t)) ++ [make_event_id now ety d]).
  { intros pp. rewrite dict_set_fresh.
    - rewrite filter_app, map_app. cbn [filter snd ollama_request_id new_StoryEvent].
      cbn [opt_eqb]. now rewrite String.eqb_refl.
    - intros Hin. apply dict_mem_In in Hin. congruence. }
  unfold add_event. cbn [snd events event_id new_StoryEvent].
  destruct parent as [p|]; [|destruct (head_event_id t) as [p|]];
    try (destruct (truthy (Some p) && _));
    rewrite ?events_to_remove_modify by reflexivity; apply Hset.
Qed.

Lemma list_remove_snoc x l : ~ In x l -> list_remove x (l ++ [x]) = Some l.
Proof.
  induction l as [|y l IH]; intros Hn; cbn.
  - now rewrite String.eqb_refl.
  - destruct (String.eqb_spec x y) as [->|Hxy]; [exfalso; apply Hn; now left|].
    rewrite IH; [reflexivity|]. intros H. apply Hn. now right.
Qed.

(** X8. On a reachable timeline, [add_event] with a request id that no
    event carries and a new generated id, followed by
    [undo_ollama_generation] of that request id: the undo returns [True],
    [events] is what it was before the [add_event], the head is the parent
    the event was given (the former head when it was omitted), characters,
    active branch and assets are unchanged, and [dirty] is set. *)
Theorem undo_reverts_add_event now ety d parent (r : string) t :
  reachable t ->
  parent_ok parent t = true ->
  dict_mem (make_event_id now ety d) (events t) = false ->
  events_to_remove (Some r) t = [] ->
  let t1 := snd (add_event now ety d parent (Some r) t) in
  let t2 := snd (undo_ollama_generation (Some r) t1) in
  fst (undo_ollama_generation (Some r) t1) = true
  /\ events t2 = events t
  /\ head_event_id t2
     = match parent with None => head_event_id t | Some _ => parent end
  /\ characters t2 = characters t
  /\ active_branch_id t2 = active_branch_id t
  /\ assets t2 = assets t
  /\ dirty t2 = true.
Proof.
  intros Hr Hpar Hf Hnone.
  destruct (reachable_inv t Hr) as (Hg & Hnd & Hhead).
  set (nid := make_event_id now ety d) in *.
  set (pp := match parent with None => head_event_id t | Some _ => parent end).
  assert (Hpp : parent_ok pp t = true).
  { subst pp. destruct parent as [p|]; [exact Hpar|].
    destruct (head_event_id t) as [h|] eqn:Eh; [|reflexivity]. now apply Hhead. }
  assert (E : add_event now ety d parent (Some r) t = add_event now ety d pp (Some r) t).
  { subst pp. destruct parent; [reflexivity | apply add_event_default]. }
  cbn zeta. rewrite E.
  set (t1 := snd (add_event now ety d pp (Some r) t)).
  assert (Hrem : events_to_remove (Some r) t1 = [nid]).
  { subst t1. rewrite add_event_to_remove by exact Hf. now rewrite Hnone. }
  assert (Hnd1 : NoDup (dict_keys (events t1))) by (now apply add_event_NoDup).
  assert (Hk1 : dict_keys (events t1) = dict_keys (events t) ++ [nid])
    by (now apply add_event_keys_fresh).
  assert (Hnin : ~ In nid (dict_keys (events t))).
  { intros H. apply dict_mem_In in H. congruence. }
  assert (Hnew : exists ne, dict_get nid (events t1) = Some ne /\ parent_event_id ne = pp).
  { subst t1. destruct pp as [p|] eqn:Epp.
    - rewrite add_event_get. cbn zeta. fold nid. rewrite String.eqb_refl.
      cbn [parent_ok] in Hpp.
      assert (Hpn : p <> nid) by congruence.
      rewrite (proj2 (String.eqb_neq nid p)) by congruence.
      destruct (truthy (Some p) && _); eexists; split; reflexivity.
    - unfold add_event.
      assert (Hh : head_event_id t = None).
      { subst pp. destruct parent; [discriminate | assumption]. }
      rewrite Hh. cbn [snd events event_id new_StoryEvent]. fold nid.
      rewrite dict_get_set, String.eqb_refl. eexists; split; reflexivity. }
  destruct Hnew as (ne & Hne & Hnep).
  unfold undo_ollama_generation. rewrite Hrem. cbn [is_nil fst snd fold_left].
  cbn [events head_event_id characters active_branch_id assets set_dirty].
  split; [reflexivity|]. split; [|split; [|now repeat split]].
  - symmetry. apply dict_ext; [exact Hnd | |].
    + rewrite undo_step_keys by exact Hnd1. rewrite Hk1, filter_app.
      cbn [filter]. rewrite String.eqb_refl. cbn [negb]. rewrite app_nil_r.
      symmetry. apply filter_all. intros x Hx.
      apply negb_true_iff, String.eqb_neq. congruence.
    + intros x. destruct (String.eqb_spec x nid) as [->|Hx].
      * rewrite undo_step_get_same by exact Hnd1.
        unfold dict_mem in Hf. now destruct (dict_get nid (events t)).
      * rewrite undo_step_get_other by exact Hx. rewrite Hne, Hnep.
        destruct pp as [p|] eqn:Epp.
        -- cbn [parent_ok] in Hpp.
           assert (Ht : truthy (Some p) = true) by (eapply good_truthy; eauto).
           assert (Hpn : p <> nid) by congruence.
           subst t1. rewrite add_event_get. cbn zeta. fold nid.
           rewrite Ht, Hpp, orb_true_r. cbn [andb].
           rewrite (proj2 (String.eqb_neq x nid) Hx).
           destruct (String.eqb_spec x p) as [->|Hxp]; [|reflexivity].
           destruct (dict_get p (events t)) as [ep|] eqn:Ep; [|reflexivity].
           cbn [option_map]. f_equal. unfold remove_child, append_child.
           cbn [child_event_ids set_child_event_ids].
           rewrite list_remove_snoc.
           ++ now destruct ep.
           ++ intros Hin. pose proof (g_children _ Hg p ep nid Ep Hin). congruence.
        -- subst t1. unfold add_event.
           assert (Hh : head_event_id t = None).
           { subst pp. destruct parent; [discriminate | assumption]. }
           rewrite Hh. cbn [snd events event_id new_StoryEvent]. fold nid.
           rewrite dict_get_set. now rewrite (proj2 (String.eqb_neq x nid) Hx).
  - unfold undo_step. cbn [head_event_id set_head_event_id].
    assert (Hh1 : head_event_id t1 = Some nid) by reflexivity.
    rewrite Hh1. cbn [opt_eqb]. rewrite String.eqb_refl, Hne. exact Hnep.
Qed.

End UndoComposition.

(** ** The asset registry *)
Section Assets.
Context {R : Runtime}.
Open Scope list_scope.

Lemma dict_set_set {V : Type} k (v v' : V) (d : dict V) :
  dict_set k v (dict_set k v' d) = dict_set k v d.
Proof.
  induction d as [|[k0 v0] d IH]; cbn.
  - now rewrite String.eqb_refl.
  - destruct (String.eqb k k0) eqn:E; cbn; rewrite E; [reflexivity|].
    now rewrite IH.
Qed.

Lemma dict_set_same {V : Type} k (v : V) (d : dict V) :
  dict_get k d = Some v -> dict_set k v d = d.
Proof.
  induction d as [|[k0 v0] d IH]; cbn; [discriminate|].
  destruct (String.eqb k k0) eqn:E.
  - now intros [= ->].
  - intros H. now rewrite IH.
Qed.

Lemma dict_del_set_fresh {V : Type} k (v : V) (d : dict V) :
  dict_mem k d = false -> dict_del k (dict_set k v d) = d.
Proof.
  unfold dict_mem. induction d as [|[k0 v0] d IH]; cbn.
  - now rewrite String.eqb_refl.
  - destruct (String.eqb k k0) eqn:E; [discriminate|].
    intros H. cbn. rewrite E. now rewrite IH.
Qed.

(** X9. When [add_asset] returns [True], [get_assets] of that category
    returns the dict it returned before with the asset id bound to the
    stored value (the value itself when it is a dict,
    [{'path': str(value)}] otherwise) and the other ids as before; the
    other categories, [events] and the head are unchanged and [dirty] is
    set. *)
Theorem add_asset_then_get category asset_id asset_data t t' :
  add_asset category asset_id asset_data t = Returns (true, t') ->
  exists bucket0 bucket,
    get_assets (Some category) t = Returns (JObj bucket0)
    /\ get_assets (Some category) t' = Returns (JObj bucket)
    /\ dict_get asset_id bucket = Some (stored_asset asset_data)
    /\ (forall i, i <> asset_id -> dict_get i bucket = dict_get i bucket0)
    /\ (forall c, c <> category -> get_assets (Some c) t' = get_assets (Some c) t)
    /\ events t' = events t
    /\ head_event_id t' = head_event_id t
    /\ dirty t' = true.
Proof.
  unfold add_asset, get_assets, assets_bucket, json_contains.
  destruct (assets t) as [| | | |s|l|m] eqn:Ea; cbn [bind]; try discriminate.
  - destruct (substringb category s); cbn [negb]; discriminate.
  - destruct (existsb _ l); cbn [negb]; discriminate.
  - unfold dict_mem. destruct (dict_get category m) as [b|] eqn:Ec; cbn [negb];
      [|discriminate].
    destruct b as [| | | | | |bucket0]; try discriminate.
    intros [= <-]. cbn [assets set_dirty set_assets events head_event_id dirty bind].
    unfold dict_mem. rewrite !dict_get_set, String.eqb_refl. cbn [negb].
    exists bucket0, (dict_set asset_id (stored_asset asset_data) bucket0).
    repeat split; try reflexivity.
    + now rewrite dict_get_set, String.eqb_refl.
    + intros i Hi. rewrite dict_get_set.
      now rewrite (proj2 (String.eqb_neq i asset_id) Hi).
    + intros c Hc. rewrite !dict_get_set.
      now rewrite (proj2 (String.eqb_neq c category) Hc).
Qed.

(** X10. Adding an asset under an id that the category did not hold and
    removing it again gives back the registry: [remove_asset] returns
    [True] and [assets] is what it was before the [add_asset]; [events] and
    the head are unchanged. *)
Theorem remove_asset_reverts_add category asset_id asset_data t t' bucket0 :
  get_assets (Some category) t = Returns (JObj bucket0) ->
  dict_mem asset_id bucket0 = false ->
  add_asset category asset_id asset_data t = Returns (true, t') ->
  exists t'', remove_asset category asset_id t' = Returns (true, t'')
              /\ assets t'' = assets t
              /\ events t'' = events t
              /\ head_event_id t'' = head_event_id t.
Proof.
  unfold add_asset, get_assets, remove_asset, assets_bucket, json_contains.
  destruct (assets t) as [| | | |s|l|m] eqn:Ea; cbn [bind]; try discriminate.
  - destruct (substringb category s); cbn [negb]; discriminate.
  - destruct (existsb _ l); cbn [negb]; discriminate.
  - unfold dict_mem at 1 3. destruct (dict_get category m) as [b|] eqn:Ec; cbn [negb].
    + intros [= ->] Hfresh [= <-].
      cbn [assets set_dirty set_assets events head_event_id dirty bind].
      unfold dict_mem at 1. rewrite !dict_get_set, String.eqb_refl. cbn [negb bind].
      unfold dict_mem at 1. rewrite dict_get_set, String.eqb_refl. cbn [negb].
      eexists. split; [reflexivity|].
      cbn [assets set_dirty set_assets events head_event_id].
      rewrite dict_set_set, dict_del_set_fresh by exact Hfresh.
      rewrite dict_set_same by exact Ec. now repeat split.
    + intros _ _. discriminate.
Qed.

(** X11. When [remove_asset] returns [True] the category held the asset
    id; afterwards [get_assets] of the category returns that dict without
    the id (its keys being distinct, as the keys of a Python dict are) and
    with every other id as before; the other categories, [events] and the
    head are unchanged. *)
Theorem remove_asset_removes category asset_id t t' :
  remove_asset category asset_id t = Returns (true, t') ->
  exists bucket0 bucket,
    get_assets (Some category) t = Returns (JObj bucket0)
    /\ dict_mem asset_id bucket0 = true
    /\ get_assets (Some category) t' = Returns (JObj bucket)
    /\ (NoDup (dict_keys bucket0) -> dict_mem asset_id bucket = false)
    /\ (forall i, i <> asset_id -> dict_get i bucket = dict_get i bucket0)
    /\ (forall c, c <> category -> get_assets (Some c) t' = get_assets (Some c) t)
    /\ events t' = events t
    /\ head_event_id t' = head_event_id t.
Proof.
  unfold remove_asset, get_assets, assets_bucket, json_contains.
  destruct (assets t) as [| | | |s|l|m] eqn:Ea; cbn [bind]; try discriminate.
  - destruct (substringb category s); cbn [negb bind]; discriminate.
  - destruct (existsb _ l); cbn [negb bind]; discriminate.
  - unfold dict_mem at 1 3. destruct (dict_get category m) as [b|] eqn:Ec; cbn [negb bind];
      [|discriminate].
    destruct b as [| | | |s|l|bucket0]; cbn [bind]; try discriminate.
    + destruct (substringb asset_id s); cbn [negb]; discriminate.
    + destruct (existsb _ l); cbn [negb]; discriminate.
    + destruct (dict_mem asset_id bucket0) eqn:Eh; cbn [negb]; [|discriminate].
      intros [= <-]. cbn [assets set_dirty set_assets events head_event_id].
      unfold dict_mem at 2. rewrite !dict_get_set, String.eqb_refl. cbn [negb].
      exists bucket0, (dict_del asset_id bucket0).
      repeat split; try reflexivity.
      * exact Eh.
      * intros Hnd. unfold dict_mem. now rewrite dict_get_del_same.
      * intros i Hi. now apply dict_get_del_other.
      * intros c Hc. cbn [bind]. unfold dict_mem. rewrite !dict_get_set.
        now rewrite (proj2 (String.eqb_neq c category) Hc).
Qed.
End Assets.

(** *** The four categories *)
Section Registry.
Context {R : Runtime}.
Open Scope list_scope.

Lemma create_branch_point_assets clock eid choices t :
  assets (snd (create_branch_point clock eid choices t)) = assets t.
Proof.
  unfold create_branch_point.
  destruct (dict_get eid (events t)) as [a|]; [|reflexivity].
  set (t0 := set_events _ t).
  pose proof (branch_loop_rest clock eid (child_event_ids a) choices 0 true [] t0) as Hr.
  destruct (branch_loop clock 0 eid (child_event_ids a) choices true [] t0) as [created t'].
  cbn zeta in Hr. cbn [snd] in *. destruct Hr as (_ & _ & Hr). exact Hr.
Qed.

Lemma undo_assets req t :
  assets (snd (undo_ollama_generation req t)) = assets t.
Proof.
  unfold undo_ollama_generation.
  destruct (is_nil (events_to_remove req t)); cbn [snd]; [reflexivity|].
  destruct (undo_fold_rest (events_to_remove req t) t) as (_ & _ & H & _). exact H.
Qed.

Ltac by_category c :=
  destruct (String.eqb c "backgrounds"); [|
  destruct (String.eqb c "characters"); [|
  destruct (String.eqb c "sounds"); [|
  destruct (String.eqb c "music")]]].

Lemma add_asset_four c i d t :
  four_buckets (assets t) ->
  exists t', add_asset c i d t = Returns (is_category c, t')
             /\ four_buckets (assets t').
Proof.
  intros (b1 & b2 & b3 & b4 & Ea). unfold add_asset, is_category. rewrite Ea.
  cbn [json_contains bind]. unfold dict_mem. cbn [dict_get dict_set existsb].
  by_category c; cbn [orb negb]; eexists; (split; [reflexivity|]);
    try (rewrite Ea); cbn [assets set_assets set_dirty];
    unfold four_buckets; eauto 10.
Qed.

Lemma remove_asset_four c i t :
  four_buckets (assets t) ->
  exists ok t', remove_asset c i t = Returns (ok, t')
                /\ four_buckets (assets t').
Proof.
  intros (b1 & b2 & b3 & b4 & Ea). unfold remove_asset, assets_bucket. rewrite Ea.
  cbn [json_contains bind]. unfold dict_mem at 1. cbn [dict_get dict_set].
  by_category c; cbn [negb bind json_contains].
  1: destruct (dict_mem i b1).
  3: destruct (dict_mem i b2).
  5: destruct (dict_mem i b3).
  7: destruct (dict_mem i b4).
  all: cbn [negb dict_set]; do 2 eexists; (split; [reflexivity|]);
    try (rewrite Ea); cbn [assets set_assets set_dirty];
    unfold four_buckets; eauto 10.
Qed.

Lemma api_four_buckets t : api_reachable t -> four_buckets (assets t).
Proof.
  induction 1 as [ | now ety d parent req t Ht IH Hp | clock eid choices t Ht IH
                 | b t Ht IH | req t Ht IH | c i d t r Ht IH Hr | c i t r Ht IH Hr ].
  - unfold four_buckets. cbn. eauto 10.
  - exact IH.
  - now rewrite create_branch_point_assets.
  - unfold select_branch. now destruct (dict_mem b (events t)).
  - now rewrite undo_assets.
  - destruct (add_asset_four c i d t IH) as (t' & E & H4).
    rewrite E in Hr. injection Hr as <-. exact H4.
  - destruct (remove_asset_four c i t IH) as (ok & t' & E & H4).
    rewrite E in Hr. injection Hr as <-. exact H4.
Qed.

(** X12. On every timeline built from the empty one by the public calls
    (without [load_timeline]) the registry holds exactly the four
    categories of [__init__], each a dict; so [add_asset] raises nothing
    and returns [True] exactly for these four names, and [remove_asset]
    and [get_assets] raise nothing either. *)
Theorem api_registry_categories t :
  api_reachable t ->
  four_buckets (assets t)
  /\ (forall c i d, exists t', add_asset c i d t = Returns (is_category c, t'))
  /\ (forall c i, exists ok t', remove_asset c i t = Returns (ok, t'))
  /\ (forall c, exists bucket, get_assets (Some c) t = Returns (JObj bucket)).
Proof.
  intros Hr. pose proof (api_four_buckets t Hr) as H4.
  split; [exact H4|]. split; [|split].
  - intros c i d. destruct (add_asset_four c i d t H4) as (t' & E & _). eauto.
  - intros c i. destruct (remove_asset_four c i t H4) as (ok & t' & E & _). eauto.
  - intros c. destruct H4 as (b1 & b2 & b3 & b4 & Ea).
    unfold get_assets, assets_bucket. rewrite Ea.
    cbn [json_contains bind]. unfold dict_mem. cbn [dict_get].
    by_category c; cbn [negb]; eauto.
Qed.
End Registry.

(** ** StoryEvent.from_dict *)
Section Codec.
Context {R : Runtime}.
Open Scope list_scope.

Lemma item_Returns k m v : item k m = Returns v -> dict_get k m = Some v.
Proof. unfold item. destruct (dict_get k m); [now intros [= ->] | discriminate]. Qed.

Lemma parse_timestamp_Returns x ts :
  parse_timestamp x = Returns ts -> exists s, x = JStr s /\ fromisoformat s = Some ts.
Proof.
  destruct x; try discriminate. cbn.
  destruct (fromisoformat s) eqn:E; [|discriminate].
  intros [= ->]. eauto.
Qed.

Lemma dec_str_Returns j s : dec_str j = Returns s -> j = JStr s.
Proof. destruct j; try discriminate. now intros [= ->]. Qed.

Lemma dec_opt_str_Returns j o : dec_opt_str j = Returns o -> j = enc_opt_str o.
Proof. destruct j; try discriminate; now intros [= <-]. Qed.

Lemma dec_bool_Returns j b : dec_bool j = Returns b -> j = JBool b.
Proof. destruct j; try discriminate. now intros [= ->]. Qed.

Lemma dec_list_Returns j l : dec_list j = Returns l -> j = JArr l.
Proof. destruct j; try discriminate. now intros [= ->]. Qed.

Lemma dec_strs_Returns l : forall r, dec_strs l = Returns r -> l = map JStr r.
Proof.
  induction l as [|j l IH]; intros r; cbn.
  - now intros [= <-].
  - destruct (dec_str j) as [s| |] eqn:Ej; cbn [bind]; try discriminate.
    destruct (dec_strs l) as [r0| |] eqn:El; cbn [bind]; try discriminate.
    intros [= <-]. apply dec_str_Returns in Ej. subst j. cbn. f_equal. now apply IH.
Qed.

Lemma dec_str_list_Returns j l : dec_str_list j = Returns l -> j = JArr (map JStr l).
Proof.
  destruct j; try discriminate. cbn. intros H. f_equal. now apply dec_strs_Returns.
Qed.

Ltac step_bind H :=
  match type of H with
  | bind ?c _ = Returns _ =>
      let E := fresh "E" in
      destruct c eqn:E; cbn [bind] in H; try discriminate H
  end.

(** X13. [StoryEvent.from_dict] returns an event exactly when the
    document is a dict with the four keys [timestamp] (a string that
    [fromisoformat] accepts), [event_type], [data] and [event_id], the
    optional keys having the types [to_dict] writes; every field of the
    event is then the stored one, the event id included (it is not
    generated again), and a missing optional key gives [None], an empty
    list or [False]. *)
Theorem from_dict_reads_document d e :
  from_dict d = Returns e
  <-> exists m s,
        d = JObj m
        /\ dict_get "timestamp" m = Some (JStr s)
        /\ fromisoformat s = Some (timestamp e)
        /\ dict_get "event_type" m = Some (JStr (event_type e))
        /\ dict_get "data" m = Some (data e)
        /\ dict_get "event_id" m = Some (JStr (event_id e))
        /\ obj_get "parent_event_id" m JNull = enc_opt_str (parent_event_id e)
        /\ obj_get "ollama_request_id" m JNull = enc_opt_str (ollama_request_id e)
        /\ obj_get "child_event_ids" m (JArr []) = JArr (map JStr (child_event_ids e))
        /\ obj_get "emotion" m JNull = emotion e
        /\ obj_get "is_branch_point" m (JBool false) = JBool (is_branch_point e)
        /\ obj_get "branch_choices" m (JArr []) = JArr (branch_choices e).
Proof.
  split.
  - destruct d as [| | | | | |m]; try discriminate.
    unfold from_dict. intros H.
    do 12 step_bind H. cbn zeta in H. injection H as <-.
    apply item_Returns in E, E1, E3, E6.
    apply parse_timestamp_Returns in E0. destruct E0 as (s & -> & Hs).
    apply dec_str_Returns in E2, E7. subst.
    apply dec_opt_str_Returns in E4, E5.
    apply dec_str_list_Returns in E8. apply dec_bool_Returns in E9.
    apply dec_list_Returns in E10.
    exists m, s. cbn. repeat split; assumption.
  - intros (m & s & -> & H1 & H2 & H3 & H4 & H5 & H6 & H7 & H8 & H9 & H10 & H11).
    unfold from_dict, item. rewrite H1, H3, H4, H5, H6, H7, H8, H10, H11.
    cbn [bind parse_timestamp dec_str]. rewrite H2. cbn [bind].
    rewrite !dec_opt_str_enc. cbn [bind dec_str_list dec_bool dec_list].
    rewrite dec_strs_JStr. cbn [bind]. rewrite H9. f_equal. now destruct e.
Qed.
End Codec.

(** ** The entries of branch_choices *)
Section ChoicesInvariant.
Context {R : Runtime}.
Open Scope list_scope.

Lemma choices_ok_set k (v : StoryEvent datetime) evs :
  Forall entry_ok (branch_choices v) -> choices_ok evs ->
  choices_ok (dict_set k v evs).
Proof.
  intros Hv. unfold choices_ok. induction evs as [|[k0 v0] evs IH]; intros H; cbn.
  - constructor; [exact Hv | constructor].
  - inversion H as [|x l Hx Hl]; subst.
    destruct (String.eqb k k0); constructor; auto.
Qed.

Lemma choices_ok_modify k (f : StoryEvent datetime -> StoryEvent datetime) evs :
  (forall e, Forall entry_ok (branch_choices e) ->
             Forall entry_ok (branch_choices (f e))) ->
  choices_ok evs -> choices_ok (dict_modify k f evs).
Proof.
  intros Hf. unfold choices_ok. induction evs as [|[k0 v0] evs IH]; intros H; cbn.
  - constructor.
  - inversion H as [|x l Hx Hl]; subst.
    destruct (String.eqb k k0); constructor; auto. cbn. now apply Hf.
Qed.

Lemma choices_ok_del k (evs : dict (StoryEvent datetime)) :
  choices_ok evs -> choices_ok (dict_del k evs).
Proof.
  unfold choices_ok. induction evs as [|[k0 v0] evs IH]; intros H; cbn.
  - constructor.
  - inversion H as [|x l Hx Hl]; subst.
    destruct (String.eqb k k0); [exact Hl | constructor; auto].
Qed.

Lemma choices_ok_get k (evs : dict (StoryEvent datetime)) e :
  choices_ok evs -> dict_get k evs = Some e -> Forall entry_ok (branch_choices e).
Proof.
  intros H Hk. apply dict_get_In in Hk. unfold choices_ok in H.
  rewrite Forall_forall in H. exact (H _ Hk).
Qed.

Lemma add_event_choices_ok now ety d parent req t :
  choices_ok (events t) ->
  choices_ok (events (snd (add_event now ety d parent req t))).
Proof.
  intros H. unfold add_event. cbn [snd events].
  assert (Hset : forall pp, choices_ok (dict_set (event_id (new_StoryEvent now ety d pp req))
                                         (new_StoryEvent now ety d pp req) (events t))).
  { intros pp. apply choices_ok_set; [constructor | exact H]. }
  destruct parent as [p|]; [|destruct (head_event_id t) as [p|]];
    try (destruct (truthy (Some p) && _));
    try apply choices_ok_modify; try apply Hset; intros e He; exact He.
Qed.

Lemma reattach_children_choices_ok b ex : forall evs,
  choices_ok evs -> choices_ok (reattach_children b ex evs).
Proof.
  unfold reattach_children.
  induction ex as [|c ex IH]; intros evs H; cbn [fold_left]; [exact H|].
  apply IH. unfold reattach_one. destruct (dict_get c evs); [|exact H].
  apply choices_ok_modify; [intros e He; exact He|].
  apply choices_ok_modify; [intros e He; exact He | exact H].
Qed.

Lemma entry_ok_choice_entry c bid : entry_ok (choice_entry c bid).
Proof. unfold entry_ok, choice_entry. eauto. Qed.

Lemma branch_body_choices_ok now eid ex c live created t :
  choices_ok (events t) ->
  choices_ok (events (snd (branch_body now eid ex c live created t))).
Proof.
  intros H. rewrite branch_body_events. cbn zeta.
  pose proof (add_event_choices_ok now "branch_option" (choice_payload c)
                (Some eid) None t H) as H1.
  assert (H2 : choices_ok
                 (if negb (is_nil ex) && is_nil created
                  then reattach_children
                         (make_event_id now "branch_option" (choice_payload c)) ex
                         (events (snd (add_event now "branch_option"
                                         (choice_payload c) (Some eid) None t)))
                  else events (snd (add_event now "branch_option"
                                      (choice_payload c) (Some eid) None t)))).
  { destruct (negb (is_nil ex) && is_nil created);
      [now apply reattach_children_choices_ok | exact H1]. }
  destruct (live && negb _); [|exact H2].
  apply choices_ok_modify; [|exact H2].
  intros e He. cbn. apply Forall_app. split; [exact He|].
  constructor; [apply entry_ok_choice_entry | constructor].
Qed.

Lemma branch_loop_choices_ok clock eid ex choices : forall i live created t,
  choices_ok (events t) ->
  choices_ok (events (snd (branch_loop clock i eid ex choices live created t))).
Proof.
  induction choices as [|c rest IH]; intros i live created t H; [exact H|].
  rewrite branch_loop_cons. cbn zeta. apply IH. now apply branch_body_choices_ok.
Qed.

Lemma create_branch_point_choices_ok clock eid choices t :
  choices_ok (events t) ->
  choices_ok (events (snd (create_branch_point clock eid choices t))).
Proof.
  intros H. unfold create_branch_point.
  destruct (dict_get eid (events t)) as [a|]; [|exact H].
  set (t0 := set_events _ t).
  assert (H0 : choices_ok (events t0)).
  { subst t0. cbn [events set_events]. apply choices_ok_modify; [|exact H].
    intros e _. constructor. }
  pose proof (branch_loop_choices_ok clock eid (child_event_ids a) choices 0 true []
                t0 H0) as HL.
  destruct (branch_loop clock 0 eid (child_event_ids a) choices true [] t0)
    as [created t'].
  exact HL.
Qed.

Lemma undo_step_choices_ok t k :
  choices_ok (events t) -> choices_ok (events (undo_step t k)).
Proof.
  intros H. unfold undo_step. cbn [events set_head_event_id set_events].
  pose proof (choices_ok_del k (events t) H) as Hd.
  destruct (dict_get k (events t)) as [e|]; [|exact Hd].
  destruct (parent_event_id e) as [p|]; [|exact Hd].
  destruct (truthy (Some p)); [|exact Hd].
  destruct (dict_get p (dict_del k (events t))); [|exact Hd].
  apply choices_ok_modify; [|exact Hd].
  intros e0 He0. unfold remove_child.
  now destruct (list_remove k (child_event_ids e0)).
Qed.

Lemma undo_fold_choices_ok ks : forall t,
  choices_ok (events t) -> choices_ok (events (fold_left undo_step ks t)).
Proof.
  induction ks as [|k ks IH]; intros t H; cbn [fold_left]; [exact H|].
  apply IH. now apply undo_step_choices_ok.
Qed.

Lemma api_choices_ok t : api_reachable t -> choices_ok (events t).
Proof.
  induction 1 as [ | now ety d parent req t Ht IH Hp | clock eid choices t Ht IH
                 | b t Ht IH | req t Ht IH | c i d t r Ht IH Hr | c i t r Ht IH Hr ].
  - constructor.
  - now apply add_event_choices_ok.
  - now apply create_branch_point_choices_ok.
  - unfold select_branch. now destruct (dict_mem b (events t)).
  - unfold undo_ollama_generation.
    destruct (is_nil (events_to_remove req t)); [exact IH|].
    cbn [snd events set_dirty]. now apply undo_fold_choices_ok.
  - destruct (add_asset_events c i d t r Hr) as [-> _]. exact IH.
  - destruct (remove_asset_events c i t r Hr) as [-> _]. exact IH.
Qed.
End ChoicesInvariant.

(** ** No circle of parents *)
Section Ranking.
Context {R : Runtime}.
Open Scope list_scope.

(** One step that adds the events [news] under the parent [P] and hands
    the events [ex], until then children of [P], over to [b], one of the
    new events. *)
Lemma ranked_step (evs evs' : dict (StoryEvent datetime)) (news : list string)
    (P : option string) (ex : list string) (b : string) :
  good evs -> ranked evs ->
  (forall n, In n news -> dict_mem n evs = false) ->
  (forall x, In x ex ->
     In b news
     /\ exists e A, dict_get x evs = Some e /\ parent_event_id e = Some A
                    /\ P = Some A) ->
  (forall A, P = Some A -> dict_mem A evs = true) ->
  (forall k e', dict_get k evs' = Some e' ->
     (In k news /\ parent_event_id e' = P)
     \/ (~ In k news
         /\ exists e, dict_get k evs = Some e
                      /\ parent_event_id e'
                         = if existsb (String.eqb k) ex
                           then Some b else parent_event_id e)) ->
  ranked evs'.
Proof.
  intros Hg [rank Hrank] Hnew Hex HP Hspec.
  set (rankP := match P with Some A => rank A | None => 0 end).
  exists (fun k => if existsb (String.eqb k) news then 2 * rankP + 1 else 2 * rank k).
  intros k e' p Hk Hp.
  assert (Hkey : forall q, dict_mem q evs = true -> existsb (String.eqb q) news = false).
  { intros q Hq. apply existsb_eqb_notIn. intros Hin. apply Hnew in Hin. congruence. }
  destruct (Hspec k e' Hk) as [[Hin HPe] | [Hnin (e & He & Hpar)]].
  - rewrite (proj2 (existsb_eqb_In k news) Hin).
    assert (EP : P = Some p) by congruence.
    rewrite (Hkey p (HP p EP)). subst rankP. rewrite EP. lia.
  - rewrite (proj2 (existsb_eqb_notIn k news) Hnin).
    destruct (existsb (String.eqb k) ex) eqn:Eex.
    + apply existsb_eqb_In in Eex. destruct (Hex k Eex) as (Hb & e0 & A & He0 & Hpa & EP).
      assert (p = b) by congruence. subst p.
      rewrite (proj2 (existsb_eqb_In b news) Hb).
      subst rankP. rewrite EP.
      assert (e0 = e) by congruence. subst e0.
      pose proof (Hrank k e A He Hpa). lia.
    + assert (Hpe : parent_event_id e = Some p) by congruence.
      destruct (g_links _ Hg k e p He Hpe) as (ep & Hep & _).
      rewrite (Hkey p) by (apply dict_mem_get; eauto).
      pose proof (Hrank k e p He Hpe). lia.
Qed.

Lemma ranked_same (evs evs' : dict (StoryEvent datetime)) :
  ranked evs ->
  (forall k e', dict_get k evs' = Some e' ->
     exists e, dict_get k evs = Some e /\ parent_event_id e' = parent_event_id e) ->
  ranked evs'.
Proof.
  intros [rank Hrank] Hspec. exists rank. intros k e' p Hk Hp.
  destruct (Hspec k e' Hk) as (e & He & Hpar).
  apply (Hrank k e p He). congruence.
Qed.

Lemma add_event_ranked now ety d parent req t :
  Inv t -> ranked (events t) ->
  parent_ok parent t = true ->
  dict_mem (make_event_id now ety d) (events t) = false ->
  ranked (events (snd (add_event now ety d parent req t))).
Proof.
  intros (Hg & Hnd & Hhead) Hrk Hpar Hf.
  set (nid := make_event_id now ety d) in *.
  set (pp := match parent with None => head_event_id t | Some _ => parent end).
  assert (Hpp : parent_ok pp t = true).
  { subst pp. destruct parent as [p|]; [exact Hpar|].
    destruct (head_event_id t) as [h|] eqn:Eh; [|reflexivity]. now apply Hhead. }
  assert (E : add_event now ety d parent req t = add_event now ety d pp req t).
  { subst pp. destruct parent; [reflexivity | apply add_event_default]. }
  rewrite E.
  apply (ranked_step (events t) _ [nid] pp [] ""); try assumption.
  - intros n [<-|[]]. exact Hf.
  - intros x [].
  - intros A EA. rewrite EA in Hpp. exact Hpp.
  - intros k e' Hk. cbn [existsb].
    destruct pp as [p|] eqn:Epp.
    + cbn [parent_ok] in Hpp.
      assert (Ht : truthy (Some p) = true) by (eapply good_truthy; eauto).
      assert (Hpn : p <> nid) by congruence.
      rewrite add_event_get in Hk. cbn zeta in Hk. fold nid in Hk.
      rewrite Ht, Hpp, orb_true_r in Hk. cbn [andb] in Hk.
      destruct (String.eqb_spec k nid) as [->|Hkn].
      * left. split; [now left|].
        rewrite (proj2 (String.eqb_neq nid p)) in Hk by congruence.
        injection Hk as <-. reflexivity.
      * right. split; [intros [H|[]]; congruence|].
        destruct (dict_get k (events t)) as [e|];
          [|destruct (String.eqb k p); discriminate].
        exists e. split; [reflexivity|].
        destruct (String.eqb k p); injection Hk as <-; reflexivity.
    + assert (Hh : head_event_id t = None).
      { subst pp. destruct parent; [discriminate | assumption]. }
      unfold add_event in Hk. rewrite Hh in Hk.
      cbn [snd events event_id new_StoryEvent] in Hk. fold nid in Hk.
      rewrite dict_get_set in Hk.
      destruct (String.eqb_spec k nid) as [->|Hkn].
      * left. split; [now left|]. injection Hk as <-. reflexivity.
      * right. split; [intros [H|[]]; congruence|]. eauto.
Qed.

Lemma later_lookup_parent clock eid choices k : forall i o e',
  ~ In eid (branch_ids clock i choices) ->
  later_lookup clock i eid choices k o = Some e' ->
  (In k (branch_ids clock i choices) /\ parent_event_id e' = Some eid)
  \/ (~ In k (branch_ids clock i choices)
      /\ exists e, o = Some e /\ parent_event_id e' = parent_event_id e).
Proof.
  induction choices as [|c rest IH]; intros i o e' Hn H.
  - right. split; [intros []|]. cbn in H. eauto.
  - cbn [later_lookup] in H. cbn [branch_ids] in *.
    set (bid := make_event_id (clock i) "branch_option" (choice_payload c)) in *.
    assert (Hn' : ~ In eid (branch_ids clock (S i) rest)) by (intros X; apply Hn; now right).
    destruct (IH _ _ _ Hn' H) as [[Hin Hp] | [Hnin (e & He & Hp)]].
    + left. split; [now right | exact Hp].
    + destruct (String.eqb_spec k bid) as [->|Hkb].
      * left. split; [now left|]. injection He as <-. exact Hp.
      * right. split; [intros [X|X]; [congruence | contradiction]|].
        destruct (String.eqb k eid).
        -- destruct o as [e0|]; [|discriminate]. injection He as <-.
           exists e0. split; [reflexivity | exact Hp].
        -- exists e. split; [exact He | exact Hp].
Qed.

Lemma create_branch_point_ranked clock eid choices t :
  Inv t -> ranked (events t) ->
  is_nil choices = false ->
  all_fresh (branch_ids clock 0 choices) t = true ->
  ranked (events (snd (create_branch_point clock eid choices t))).
Proof.
  intros (Hg & Hnd & Hhead) Hrk Hnil Hf.
  destruct (dict_get eid (events t)) as [a|] eqn:HA.
  2:{ unfold create_branch_point. now rewrite HA. }
  destruct choices as [|c1 rest]; [discriminate|].
  assert (HAm : dict_mem eid (events t) = true) by (unfold dict_mem; now rewrite HA).
  assert (HAn : ~ In eid (branch_ids clock 0 (c1 :: rest))).
  { intros H. apply (all_fresh_In _ _ _ Hf) in H. congruence. }
  apply (ranked_step (events t) _ (branch_ids clock 0 (c1 :: rest)) (Some eid)
           (child_event_ids a)
           (make_event_id (clock 0) "branch_option" (choice_payload c1)));
    try assumption.
  - intros n Hn. exact (all_fresh_In _ _ _ Hf Hn).
  - intros x Hx. split; [now left|].
    destruct (g_parent_of _ Hg eid a x HA Hx) as (ec & Hec & Hpc). eauto.
  - intros A [= <-]. exact HAm.
  - intros k e' Hk.
    rewrite (create_branch_point_get clock eid a c1 rest t k Hg HA Hf) in Hk.
    cbn [branch_ids] in *.
    set (id1 := make_event_id (clock 0) "branch_option" (choice_payload c1)) in *.
    assert (HAr : ~ In eid (branch_ids clock 1 rest)) by (intros X; apply HAn; now right).
    destruct (later_lookup_parent clock eid rest k 1 _ e' HAr Hk)
      as [[Hin Hp] | [Hnin (e1 & He1 & Hp)]].
    + left. split; [now right | exact Hp].
    + unfold first_lookup in He1. fold id1 in He1.
      destruct (String.eqb_spec k id1) as [->|Hk1].
      * left. split; [now left|]. injection He1 as <-. exact Hp.
      * right. split; [intros [X|X]; [congruence | contradiction]|].
        destruct (dict_get k (events t)) as [e|]; [|discriminate].
        exists e. split; [reflexivity|]. cbn [option_map] in He1.
        injection He1 as <-. rewrite Hp.
        destruct (String.eqb k eid), (existsb (String.eqb k) (child_event_ids a));
          reflexivity.
Qed.

Lemma undo_ranked req t :
  NoDup (dict_keys (events t)) -> ranked (events t) ->
  ranked (events (snd (undo_ollama_generation req t))).
Proof.
  intros Hnd Hrk. apply (ranked_same (events t)); [exact Hrk|].
  intros k e' Hk. destruct (undo_survivor_same req t k e' Hnd Hk) as (e & He & Hs).
  exists e. split; [exact He|]. unfold same_but_children in Hs. now rewrite Hs.
Qed.

Lemma reachable_ranked t : reachable t -> ranked (events t).
Proof.
  induction 1 as [ | now ety d parent req t Ht IH Hp Hf
                 | clock eid choices t Ht IH Hn Hd Hf
                 | b t Ht IH | req t Ht IH Hc
                 | c i d t r Ht IH Hr | c i t r Ht IH Hr ].
  - exists (fun _ => 0). intros k e p Hk. discriminate.
  - apply add_event_ranked; try assumption. now apply reachable_inv.
  - apply create_branch_point_ranked; try assumption. now apply reachable_inv.
  - unfold select_branch. now destruct (dict_mem b (events t)).
  - apply undo_ranked; [|exact IH]. now destruct (reachable_inv t Ht) as (_ & Hnd & _).
  - destruct (add_asset_events c i d t r Hr) as [-> _]. exact IH.
  - destruct (remove_asset_events c i t r Hr) as [-> _]. exact IH.
Qed.
End Ranking.

(** ** get_timeline_data *)
Section Traversal.
Context {R : Runtime}.
Open Scope list_scope.

Lemma branch_details_returns t choices :
  Forall entry_ok choices -> exists ds, branch_details t choices = Returns ds.
Proof.
  induction 1 as [|c rest (text & target & ->) Hrest (ds & IH)].
  - cbn. eauto.
  - cbn [branch_details subscript item dict_get String.eqb Ascii.eqb Bool.eqb bind
         get_event_of].
    destruct (get_event t target); cbn [bind]; rewrite IH; cbn [bind]; eauto.
Qed.

Lemma event_data_returns inc t e :
  Forall entry_ok (branch_choices e) -> exists ed, event_data inc t e = Returns ed.
Proof.
  intros H. unfold event_data. destruct (inc && is_branch_point e); [|eauto].
  destruct (branch_details_returns t _ H) as (ds & ->). cbn. eauto.
Qed.

Lemma timeline_walk_returns t (rank : string -> nat) :
  (forall k e p, dict_get k (events t) = Some e -> parent_event_id e = Some p ->
                 rank p < rank k) ->
  choices_ok (events t) ->
  forall fuel start inc cur path,
    (forall k, cur = Some k -> rank k < fuel) ->
    exists p, timeline_walk fuel start inc t cur path = Some (Returns p).
Proof.
  intros Hrank Hch. induction fuel as [|fuel IH]; intros start inc cur path Hcur.
  - destruct cur as [k|]; [|cbn; eauto]. specialize (Hcur k eq_refl). lia.
  - destruct cur as [k|]; [|cbn; eauto]. cbn [timeline_walk].
    destruct (negb (truthy (Some k))); [eauto|].
    unfold get_event. destruct (dict_get k (events t)) as [e|] eqn:Ek; [|eauto].
    destruct (event_data_returns inc t e (choices_ok_get _ _ _ Hch Ek)) as (ed & ->).
    cbn zeta. destruct (truthy start && _); [eauto|].
    apply IH. intros p Hp. pose proof (Hrank k e p Ek Hp).
    specialize (Hcur k eq_refl). lia.
Qed.

(** X14. On a reachable timeline the loop of [get_timeline_data] ends and
    no exception leaves it, for every [start_event_id] and both values of
    [include_branches]: with enough turns it returns a path. *)
Theorem get_timeline_data_returns t :
  reachable t ->
  exists n, forall fuel, n <= fuel ->
    forall start_event_id include_branches,
      exists path,
        get_timeline_data fuel start_event_id include_branches t
        = Some (Returns path).
Proof.
  intros Hr. destruct (reachable_ranked t Hr) as [rank Hrank].
  pose proof (api_choices_ok t (reachable_api t Hr)) as Hch.
  exists (S (match walk_start t with Some k => rank k | None => 0 end)).
  intros fuel Hfuel start inc. unfold get_timeline_data.
  destruct (timeline_walk_returns t rank Hrank Hch fuel start inc (walk_start t) [])
    as (p & ->); [|eauto].
  intros k Hk. rewrite Hk in Hfuel. lia.
Qed.

Lemma timeline_walk_line t (rank : string -> nat) inc :
  good (events t) ->
  (forall k e p, dict_get k (events t) = Some e -> parent_event_id e = Some p ->
                 rank p < rank k) ->
  choices_ok (events t) ->
  forall fuel cur path,
    (forall k, cur = Some k -> rank k < fuel /\ dict_mem k (events t) = true) ->
    exists up docs,
      timeline_walk fuel None inc t cur path = Some (Returns (path ++ docs))
      /\ line_to_root t cur up
      /\ Forall2 (fun e doc => event_data inc t e = Returns doc) up docs.
Proof.
  intros Hg Hrank Hch. induction fuel as [|fuel IH]; intros cur path Hcur.
  - destruct cur as [k|]; [destruct (Hcur k eq_refl); lia|].
    exists [], []. cbn. rewrite app_nil_r. now repeat split.
  - destruct cur as [k|].
    2:{ exists [], []. cbn. rewrite app_nil_r. now repeat split. }
    destruct (Hcur k eq_refl) as [Hk Hmem]. cbn [timeline_walk].
    rewrite (good_truthy _ _ Hg Hmem). cbn [negb].
    apply dict_mem_get in Hmem. destruct Hmem as [e Ek].
    unfold get_event. rewrite Ek.
    destruct (event_data_returns inc t e (choices_ok_get _ _ _ Hch Ek)) as (ed & Hed).
    rewrite Hed. cbn zeta. cbn [truthy andb].
    destruct (IH (parent_event_id e) (path ++ [ed])) as (up & docs & Hw & Hl & Hd).
    { intros p Hp. pose proof (Hrank k e p Ek Hp).
      destruct (g_links _ Hg k e p Ek Hp) as (ep & Hep & _).
      split; [lia | apply dict_mem_get; eauto]. }
    exists (e :: up), (ed :: docs). rewrite Hw, <- app_assoc.
    split; [reflexivity|]. split; [|now constructor].
    pose proof (g_ids _ Hg k e Ek) as Hid. cbn [line_to_root]. rewrite Hid.
    now repeat split.
Qed.

Lemma event_data_plain t (up : list (StoryEvent datetime)) : forall docs,
  Forall2 (fun e doc => event_data false t e = Returns doc) up docs ->
  docs = map to_dict up.
Proof.
  induction up as [|e up IH]; intros docs H; inversion H; subst; [reflexivity|].
  cbn. f_equal; [|now apply IH].
  match goal with X : event_data false t e = Returns _ |- _ =>
    unfold event_data in X; cbn in X; now injection X end.
Qed.

(** X15. On a reachable timeline [get_timeline_data()] returns, oldest
    first, the documents of the line of events from a root down to the
    event it starts from (the active branch if there is one, else the
    head): each event is in [events] under its id and is the parent of the
    next; without [include_branches] the documents are the [to_dict] of
    these events.  When the id it starts from is not in [events], or there
    is none, the path is empty. *)
Theorem get_timeline_data_line t include_branches :
  reachable t ->
  exists n, forall fuel, n <= fuel ->
    exists up docs,
      get_timeline_data fuel None include_branches t = Some (Returns (rev docs))
      /\ Forall2 (fun e doc => event_data include_branches t e = Returns doc) up docs
      /\ (include_branches = false -> docs = map to_dict up)
      /\ match walk_start t with
         | Some s => if dict_mem s (events t)
                     then line_to_root t (Some s) up
                     else up = []
         | None => up = []
         end.
Proof.
  intros Hr. destruct (reachable_ranked t Hr) as [rank Hrank].
  pose proof (api_choices_ok t (reachable_api t Hr)) as Hch.
  destruct (reachable_inv t Hr) as (Hg & _ & _).
  exists (S (match walk_start t with Some k => rank k | None => 0 end)).
  intros fuel Hfuel. unfold get_timeline_data.
  destruct (walk_start t) as [s|] eqn:Es.
  - destruct (dict_mem s (events t)) eqn:Em.
    + destruct (timeline_walk_line t rank include_branches Hg Hrank Hch fuel (Some s) [])
        as (up & docs & Hw & Hl & Hd).
      { intros k [= <-]. split; [lia | exact Em]. }
      rewrite Hw. cbn [app]. exists up, docs. repeat split; try assumption.
      intros ->. exact (event_data_plain t up docs Hd).
    + exists [], []. destruct fuel as [|fuel]; [lia|]. cbn [timeline_walk].
      unfold get_event. unfold dict_mem in Em.
      destruct (dict_get s (events t)); [discriminate|].
      destruct (negb (truthy (Some s))); cbn; repeat split; constructor.
  - exists [], []. destruct fuel; cbn; repeat split; constructor.
Qed.

Lemma self_parent_walk t k e :
  dict_get k (events t) = Some e ->
  parent_event_id e = Some k ->
  is_branch_point e = false ->
  k <> "" ->
  forall fuel inc path, timeline_walk fuel None inc t (Some k) path = None.
Proof.
  intros Ek Hp Hb Hk. induction fuel as [|fuel IH]; intros inc path;
    cbn [timeline_walk truthy]; rewrite (proj2 (String.eqb_neq k "") Hk);
    cbn [negb]; [reflexivity|].
  unfold get_event. rewrite Ek. unfold event_data. rewrite Hb, andb_false_r.
  cbn zeta. cbn [truthy andb]. rewrite Hp. apply IH.
Qed.

(** X16. Two calls of [add_event] that read the same instant with the
    same kind and payload, the second with the parent omitted, leave the
    event as its own parent; when no branch is active the loop of
    [get_timeline_data] then never ends, however many turns it is
    given. *)
Theorem same_reading_walk_never_ends now ety d p1 r1 r2 t :
  truthy (active_branch_id t) = false ->
  let t1 := snd (add_event now ety d p1 r1 t) in
  let t2 := snd (add_event now ety d None r2 t1) in
  forall fuel include_branches,
    get_timeline_data fuel None include_branches t2 = None.
Proof.
  intros Ha. cbn zeta. intros fuel inc.
  set (nid := make_event_id now ety d).
  set (t1 := snd (add_event now ety d p1 r1 t)).
  assert (Hh1 : head_event_id t1 = Some nid) by reflexivity.
  assert (E : add_event now ety d None r2 t1 = add_event now ety d (Some nid) r2 t1).
  { rewrite add_event_default, Hh1. reflexivity. }
  rewrite E.
  set (t2 := snd (add_event now ety d (Some nid) r2 t1)).
  assert (Hn : nid <> "") by apply make_event_id_nonempty.
  assert (Hget : dict_get nid (events t2)
                 = Some (append_child nid (new_StoryEvent now ety d (Some nid) r2))).
  { subst t2. rewrite add_event_get. cbn zeta. fold nid.
    rewrite !String.eqb_refl. cbn [truthy orb].
    rewrite (proj2 (String.eqb_neq nid "") Hn). reflexivity. }
  unfold get_timeline_data, walk_start.
  assert (Ha2 : active_branch_id t2 = active_branch_id t) by reflexivity.
  rewrite Ha2, Ha.
  assert (Hh2 : head_event_id t2 = Some nid) by reflexivity.
  rewrite Hh2.
  now rewrite (self_parent_walk t2 nid _ Hget eq_refl eq_refl Hn).
Qed.
End Traversal.

(** ** The undo button *)
Section UndoButton.
Context {R : Runtime}.
Open Scope list_scope.

Lemma last_ollama_event_found fuel t : forall cur last,
  last_ollama_event fuel t cur = Some (Some last) ->
  truthy (ollama_request_id last) = true
  /\ exists k, dict_get k (events t) = Some last.
Proof.
  induction fuel as [|fuel IH]; intros cur last; destruct cur as [k|];
    cbn [last_ollama_event]; try discriminate;
    destruct (negb (truthy (Some k))); try discriminate.
  unfold get_event. destruct (dict_get k (events t)) as [e|] eqn:Ek; [|discriminate].
  destruct (String.eqb (event_type e) "ollama_generation"
            && truthy (ollama_request_id e)) eqn:E.
  - intros [= <-]. apply andb_true_iff in E. split; [apply E | eauto].
  - apply IH.
Qed.

(** X17. The request id that [MainWindow.undo_last_ollama] hands to
    [undo_ollama_generation] is not empty and is carried by an event of the
    timeline: the call returns [True], and (the keys being distinct) no
    event left in [events] carries that id. *)
Theorem undo_last_ollama_finds_events fuel t r :
  request_id_to_undo fuel t = Some (Some r) ->
  r <> ""
  /\ fst (undo_ollama_generation (Some r) t) = true
  /\ (NoDup (dict_keys (events t)) ->
      forall k e, dict_get k (events (snd (undo_ollama_generation (Some r) t))) = Some e ->
                  ollama_request_id e <> Some r).
Proof.
  unfold request_id_to_undo.
  destruct (last_ollama_event fuel t (head_event_id t)) as [[last|]|] eqn:E;
    try discriminate.
  destruct (last_ollama_event_found fuel t _ _ E) as (Ht & k & Hk).
  rewrite Ht. intros [= Hr]. split; [|split].
  - rewrite Hr in Ht. cbn in Ht. apply negb_true_iff in Ht.
    now apply String.eqb_neq.
  - unfold undo_ollama_generation.
    destruct (events_to_remove (Some r) t) as [|x xs] eqn:Er; [|reflexivity].
    exfalso. apply dict_get_In in Hk.
    assert (Hin : In k (events_to_remove (Some r) t)).
    { unfold events_to_remove. apply in_map_iff. exists (k, last). split; [reflexivity|].
      apply filter_In. split; [exact Hk|]. cbn [snd]. rewrite Hr.
      cbn. apply String.eqb_refl. }
    rewrite Er in Hin. contradiction.
  - intros Hnd k0 e0 H0.
    destruct (undo_survivor_same (Some r) t k0 e0 Hnd H0) as (e1 & He1 & Hs).
    assert (Hm : dict_mem k0 (events (snd (undo_ollama_generation (Some r) t))) = true)
      by (apply dict_mem_get; eauto).
    apply undo_survivors in Hm; [|exact Hnd]. destruct Hm as (e2 & He2 & Hne).
    apply same_but_children_request in Hs. congruence.
Qed.
End UndoButton.

(** ** The shape of a reachable timeline *)
Section Shape.
Context {R : Runtime}.
Open Scope list_scope.

(** X18. On a reachable timeline the keys of [events] are distinct, the
    head (if set) is a key, every event is bound to its own non-empty
    [event_id], lists each child once, every listed child is in [events]
    and names the event as its parent, and no chain of [parent_event_id]
    links goes round in a circle. *)
Theorem reachable_tree_shape t :
  reachable t ->
  NoDup (dict_keys (events t))
  /\ (forall h, head_event_id t = Some h -> dict_mem h (events t) = true)
  /\ (forall k e, dict_get k (events t) = Some e ->
        event_id e = k
        /\ k <> ""
        /\ NoDup (child_event_ids e)
        /\ forall c, In c (child_event_ids e) ->
             exists ec, dict_get c (events t) = Some ec
                        /\ parent_event_id ec = Some k)
  /\ ranked (events t).
Proof.
  intros Hr. destruct (reachable_inv t Hr) as (Hg & Hnd & Hh).
  split; [exact Hnd|]. split; [exact Hh|]. split; [|now apply reachable_ranked].
  intros k e Hk. split; [exact (g_ids _ Hg k e Hk)|]. split; [|split].
  - intros ->. pose proof (g_nonempty _ Hg) as Hn. unfold dict_mem in Hn.
    now rewrite Hk in Hn.
  - exact (g_nodup _ Hg k e Hk).
  - intros c Hc. exact (g_parent_of _ Hg k e c Hk Hc).
Qed.

(** X19. [get_all_branches], [is_branch_point] and [get_branch_options]
    agree: [is_branch_point(k)] holds exactly when [get_all_branches] has
    the entry of [k], whose [choices] are [get_branch_options(k)]. *)
Theorem get_all_branches_agrees t k :
  NoDup (dict_keys (events t)) ->
  is_branch_point_at k t = true
  <-> exists e,
        dict_get k (events t) = Some e
        /\ In (JObj [("event_id", JStr k);
                     ("timestamp", JStr (isoformat (timestamp e)));
                     ("content", data e);
                     ("choices", JArr (get_branch_options k t))])
              (get_all_branches t).
Proof.
  intros Hnd. unfold is_branch_point_at, get_branch_options, get_all_branches. split.
  - destruct (dict_get k (events t)) as [e|] eqn:Ek; [|discriminate].
    intros Hb. exists e. split; [reflexivity|]. rewrite Hb.
    apply in_map_iff. exists (k, e). split; [reflexivity|].
    apply filter_In. split; [now apply dict_get_In | exact Hb].
  - intros (e & Ek & Hin). rewrite Ek in *.
    apply in_map_iff in Hin. destruct Hin as ([k' e'] & Heq & Hin).
    apply filter_In in Hin. destruct Hin as [Hin Hb]. cbn [fst snd] in *.
    injection Heq as -> _ _ _.
    apply In_dict_get in Hin; [|exact Hnd]. congruence.
Qed.

(** X20. Right after [add_event] of an [ollama_generation] event with a
    non-empty request id, the loop of [MainWindow.undo_last_ollama] stops
    at that event: the request id it would undo is the one just added. *)
Theorem undo_targets_latest_generation now d parent (r : string) t fuel :
  r <> "" ->
  1 <= fuel ->
  request_id_to_undo fuel (snd (add_event now "ollama_generation" d parent (Some r) t))
  = Some (Some r).
Proof.
  intros Hr Hfuel. destruct fuel as [|fuel]; [lia|].
  set (nid := make_event_id now "ollama_generation" d).
  set (pp := match parent with None => head_event_id t | Some _ => parent end).
  assert (Hget : exists e,
            dict_get nid (events (snd (add_event now "ollama_generation" d parent
                                         (Some r) t))) = Some e
            /\ event_type e = "ollama_generation"
            /\ ollama_request_id e = Some r).
  { unfold add_event. cbn [snd events event_id new_StoryEvent]. fold nid. fold pp.
    assert (Hset : dict_get nid
                     (dict_set nid (new_StoryEvent now "ollama_generation" d pp (Some r))
                        (events t))
                   = Some (new_StoryEvent now "ollama_generation" d pp (Some r)))
      by (now rewrite dict_get_set, String.eqb_refl).
    destruct pp as [p|]; [|eauto].
    destruct (truthy (Some p) && _); [|eauto].
    rewrite dict_get_modify, Hset. destruct (String.eqb nid p); cbn; eauto. }
  destruct Hget as (e & He & Hty & Hreq).
  unfold request_id_to_undo.
  assert (Hh : head_event_id (snd (add_event now "ollama_generation" d parent
                                     (Some r) t)) = Some nid) by reflexivity.
  rewrite Hh. cbn [last_ollama_event truthy].
  rewrite (proj2 (String.eqb_neq nid "")) by apply make_event_id_nonempty.
  cbn [negb]. unfold get_event. rewrite He, Hty, Hreq.
  cbn [truthy]. rewrite (proj2 (String.eqb_neq r "") Hr), String.eqb_refl.
  cbn [negb andb]. rewrite Hreq. cbn [truthy].
  now rewrite (proj2 (String.eqb_neq r "") Hr).
Qed.
End Shape.

(** ** select_branch *)
Section SelectBranch.
Context {R : Runtime}.
Open Scope list_scope.

Lemma line_to_root_events t t' (up : list (StoryEvent datetime)) : forall cur,
  events t' = events t -> line_to_root t' cur up -> line_to_root t cur up.
Proof.
  induction up as [|e up IH]; intros cur E; cbn [line_to_root]; [auto|].
  intros (H1 & H2 & H3). rewrite E in H2. split; [exact H1|]. split; [exact H2|].
  now apply IH.
Qed.

(** X21. On a reachable timeline, [select_branch] of an id that is in
    [events] returns [True] and makes it the head, and
    [get_timeline_data()] then returns the documents of the ancestors of
    that event, oldest first, followed by the document of the event
    itself. *)
Theorem select_branch_path_ends t b e :
  reachable t ->
  dict_get b (events t) = Some e ->
  let t' := snd (select_branch b t) in
  fst (select_branch b t) = true
  /\ head_event_id t' = Some b
  /\ exists n, forall fuel, n <= fuel ->
       exists up,
         line_to_root t (parent_event_id e) up
         /\ get_timeline_data fuel None false t'
            = Some (Returns (rev (map to_dict up) ++ [to_dict e])).
Proof.
  intros Hr Hb. cbn zeta.
  assert (Hm : dict_mem b (events t) = true) by (unfold dict_mem; now rewrite Hb).
  unfold select_branch. rewrite Hm. cbn [fst snd].
  split; [reflexivity|]. split; [reflexivity|].
  destruct (reachable_ranked t Hr) as [rank Hrank].
  pose proof (api_choices_ok t (reachable_api t Hr)) as Hch.
  destruct (reachable_inv t Hr) as (Hg & _ & _).
  set (t' := set_head_event_id (Some b) (set_active_branch_id (Some b) t)).
  exists (S (rank b)). intros fuel Hfuel.
  assert (Hs : walk_start t' = Some b).
  { unfold walk_start. cbn [active_branch_id t' set_head_event_id set_active_branch_id].
    now rewrite (good_truthy _ _ Hg Hm). }
  destruct (timeline_walk_line t' rank false Hg Hrank Hch fuel (Some b) [])
    as (up & docs & Hw & Hl & Hd).
  { intros k [= <-]. split; [lia | exact Hm]. }
  apply event_data_plain in Hd. subst docs.
  destruct up as [|e0 up]; [discriminate Hl|].
  cbn [line_to_root] in Hl. destruct Hl as ([= Eb] & He0 & Hup).
  change (events t') with (events t) in He0. rewrite <- Eb, Hb in He0.
  injection He0 as <-.
  exists up. split; [exact (line_to_root_events t t' up _ eq_refl Hup)|].
  unfold get_timeline_data. rewrite Hs, Hw. reflexivity.
Qed.
End SelectBranch.

(** ** The properties above at the example timelines *)
Section ExtraExamples.
#[local] Existing Instance Ref.runtime.
Open Scope list_scope.

Lemma story_root_reachable : reachable (snd story_root).
Proof.
  unfold story_root.
  apply reach_add_event; [|reflexivity | vm_compute; reflexivity].
  apply reach_init.
Qed.

Lemma studio_text_reachable : reachable (snd studio_text).
Proof.
  unfold studio_text.
  apply reach_add_event; [|vm_compute; reflexivity | vm_compute; reflexivity].
  unfold studio_gen.
  apply reach_add_event; [|vm_compute; reflexivity | vm_compute; reflexivity].
  apply story_root_reachable.
Qed.

Lemma studio_branch_reachable : reachable (snd studio_branch).
Proof.
  unfold studio_branch.
  apply reach_create_branch_point;
    [|reflexivity | vm_compute; reflexivity | vm_compute; reflexivity].
  apply studio_text_reachable.
Qed.

(** X1 at the story of one event, the parent omitted. *)
Lemma add_event_registers_child_witness :
  dict_get (make_event_id at2 "text_node" (text_payload "next"))
    (events (snd (add_event at2 "text_node" (text_payload "next") None None
                    (snd story_root))))
  = Some (new_StoryEvent at2 "text_node" (text_payload "next")
            (Some (fst story_root)) None)
  /\ dict_get (fst story_root)
       (events (snd (add_event at2 "text_node" (text_payload "next") None None
                       (snd story_root))))
     = Some (append_child (make_event_id at2 "text_node" (text_payload "next"))
               (new_StoryEvent at1 "text_node" (text_payload "start") None None)).
Proof.
  destruct (add_event_registers_child at2 "text_node" (text_payload "next") None None
              (snd story_root) (fst story_root)
              (new_StoryEvent at1 "text_node" (text_payload "start") None None))
    as (H1 & H2 & _).
  - right. split; [reflexivity | vm_compute; reflexivity].
  - vm_compute. discriminate.
  - vm_compute. reflexivity.
  - vm_compute. discriminate.
  - split; [exact H1 | exact H2].
Defined.

(** X4 at the two options of [studio_branch]. *)
Lemma create_branch_point_options_witness :
  is_branch_point_at (fst story_root) (snd studio_branch) = true
  /\ get_branch_options (fst story_root) (snd studio_branch)
     = branch_entries ticking_clock 0 [option_x; option_y].
Proof.
  destruct (create_branch_point_options ticking_clock (fst story_root)
              studio_root_event [option_x; option_y] (snd studio_text)
              studio_text_reachable)
    as (_ & H2 & H3 & _).
  - vm_compute. reflexivity.
  - reflexivity.
  - vm_compute. reflexivity.
  - vm_compute. reflexivity.
  - split; [exact H2 | exact H3].
Defined.

(** X5: a branch point made of the first generated event of [story_chain]
    leaves the root as it was. *)
Lemma create_branch_point_frame_witness :
  dict_get (fst story_root)
    (events (snd (create_branch_point ticking_clock (fst story_gen1) [option_x]
                    story_chain)))
  = dict_get (fst story_root) (events story_chain).
Proof.
  apply (create_branch_point_frame ticking_clock (fst story_gen1) [option_x]
           story_chain
           (append_child (fst story_gen2)
              (new_StoryEvent at2 "ollama_generation" (generation_payload "a")
                 (Some (fst story_root)) (Some "g1")))
           (fst story_root)).
  - vm_compute. reflexivity.
  - vm_compute. discriminate.
  - vm_compute. intros [H|[]]. discriminate H.
  - vm_compute. intros [H|[]]. discriminate H.
Defined.

(** X6 at [story_chain]. *)
Lemma undo_twice_witness :
  undo_ollama_generation (Some "g1")
    (snd (undo_ollama_generation (Some "g1") story_chain))
  = (false, snd (undo_ollama_generation (Some "g1") story_chain)).
Proof. apply (undo_twice (Some "g1") story_chain story_chain_keys). Defined.

(** X8: a generation added to the story of one event, then undone. *)
Lemma undo_reverts_add_event_witness :
  events (snd (undo_ollama_generation (Some "g1") (snd story_gen1)))
  = events (snd story_root)
  /\ head_event_id (snd (undo_ollama_generation (Some "g1") (snd story_gen1)))
     = head_event_id (snd story_root).
Proof.
  destruct (undo_reverts_add_event at2 "ollama_generation" (generation_payload "a")
              None "g1" (snd story_root) story_root_reachable)
    as (_ & H2 & H3 & _).
  - reflexivity.
  - vm_compute. reflexivity.
  - vm_compute. reflexivity.
  - split; [exact H2 | exact H3].
Defined.

(** X9 at the first background of the empty registry. *)
Lemma add_asset_then_get_witness :
  exists bucket0 bucket,
    get_assets (Some "backgrounds") init_timeline = Returns (JObj bucket0)
    /\ get_assets (Some "backgrounds") with_sky = Returns (JObj bucket)
    /\ dict_get "sky.png" bucket = Some (stored_asset (JStr "assets/sky.png")).
Proof.
  destruct (add_asset_then_get "backgrounds" "sky.png" (JStr "assets/sky.png")
              init_timeline with_sky)
    as (bucket0 & bucket & H1 & H2 & H3 & _).
  - vm_compute. reflexivity.
  - exists bucket0, bucket. now repeat split.
Defined.

(** X10 at the same background. *)
Lemma remove_asset_reverts_add_witness :
  exists t'', remove_asset "backgrounds" "sky.png" with_sky = Returns (true, t'')
              /\ assets t'' = assets init_timeline.
Proof.
  destruct (remove_asset_reverts_add "backgrounds" "sky.png" (JStr "assets/sky.png")
              init_timeline with_sky [])
    as (t'' & H1 & H2 & _).
  - reflexivity.
  - reflexivity.
  - vm_compute. reflexivity.
  - exists t''. now split.
Defined.

(** X11 at the same background. *)
Lemma remove_asset_removes_witness :
  exists bucket0 bucket,
    get_assets (Some "backgrounds") with_sky = Returns (JObj bucket0)
    /\ dict_mem "sky.png" bucket0 = true
    /\ get_assets (Some "backgrounds") without_sky = Returns (JObj bucket).
Proof.
  destruct (remove_asset_removes "backgrounds" "sky.png" with_sky without_sky)
    as (bucket0 & bucket & H1 & H2 & H3 & _).
  - vm_compute. reflexivity.
  - exists bucket0, bucket. now repeat split.
Defined.

(** X12 at [studio]. *)
Lemma api_registry_categories_witness :
  four_buckets (assets studio)
  /\ exists t', add_asset "fonts" "a.ttf" JNull studio = Returns (false, t').
Proof.
  destruct (api_registry_categories studio (reachable_api studio studio_reachable))
    as (H1 & H2 & _).
  split; [exact H1 | exact (H2 "fonts" "a.ttf" JNull)].
Defined.

(** X14 at [studio]. *)
Lemma get_timeline_data_returns_witness :
  exists n, forall fuel, n <= fuel ->
    forall start_event_id include_branches,
      exists path,
        get_timeline_data fuel start_event_id include_branches studio
        = Some (Returns path).
Proof. apply (get_timeline_data_returns studio studio_reachable). Defined.

(** X15 at the story with a branch point. *)
Lemma get_timeline_data_line_witness :
  exists n, forall fuel, n <= fuel ->
    exists up docs,
      get_timeline_data fuel None false (snd studio_branch)
      = Some (Returns (rev docs))
      /\ Forall2 (fun e doc => event_data false (snd studio_branch) e = Returns doc)
           up docs
      /\ (false = false -> docs = map to_dict up)
      /\ match walk_start (snd studio_branch) with
         | Some s => if dict_mem s (events (snd studio_branch))
                     then line_to_root (snd studio_branch) (Some s) up
                     else up = []
         | None => up = []
         end.
Proof.
  apply (get_timeline_data_line (snd studio_branch) false studio_branch_reachable).
Defined.

(** X16 at [same_instant], with room for five turns. *)
Lemma same_reading_walk_never_ends_witness :
  get_timeline_data 5 None true same_instant = None.
Proof.
  apply (same_reading_walk_never_ends at1 "text_node" (text_payload "start") None None
           None init_timeline).
  reflexivity.
Defined.

(** X17 at the story whose head is a generated event. *)
Lemma undo_last_ollama_finds_events_witness :
  "g1" <> ""
  /\ fst (undo_ollama_generation (Some "g1") (snd story_gen1)) = true.
Proof.
  destruct (undo_last_ollama_finds_events 2 (snd story_gen1) "g1") as (H1 & H2 & _).
  - vm_compute. reflexivity.
  - split; [exact H1 | exact H2].
Defined.

(** X18 at [studio]. *)
Lemma reachable_tree_shape_witness :
  NoDup (dict_keys (events studio)) /\ ranked (events studio).
Proof.
  destruct (reachable_tree_shape studio studio_reachable) as (H1 & _ & _ & H4).
  split; [exact H1 | exact H4].
Defined.

(** X19 at the branch point of [studio_branch]. *)
Lemma get_all_branches_agrees_witness :
  exists e,
    dict_get (fst story_root) (events (snd studio_branch)) = Some e
    /\ In (JObj [("event_id", JStr (fst story_root));
                 ("timestamp", JStr (isoformat (timestamp e)));
                 ("content", data e);
                 ("choices", JArr (get_branch_options (fst story_root)
                                     (snd studio_branch)))])
          (get_all_branches (snd studio_branch)).
Proof.
  apply (proj1 (get_all_branches_agrees (snd studio_branch) (fst story_root)
                  studio_branch_keys)).
  vm_compute. reflexivity.
Defined.

(** X20 at the generation of [story_gen1]. *)
Lemma undo_targets_latest_generation_witness :
  request_id_to_undo 1 (snd story_gen1) = Some (Some "g1").
Proof.
  apply (undo_targets_latest_generation at2 (generation_payload "a") None "g1"
           (snd story_root) 1).
  - discriminate.
  - lia.
Defined.

(** X21 at the first option of [studio_branch]. *)
Lemma select_branch_path_ends_witness :
  fst studio_selected = true
  /\ head_event_id (snd studio_selected)
     = Some (make_event_id at4 "branch_option" (choice_payload option_x))
  /\ exists n, forall fuel, n <= fuel ->
       exists up,
         line_to_root (snd studio_branch) (parent_event_id studio_option_x) up
         /\ get_timeline_data fuel None false (snd studio_selected)
            = Some (Returns (rev (map to_dict up) ++ [to_dict studio_option_x])).
Proof.
  apply (select_branch_path_ends (snd studio_branch)
           (make_event_id at4 "branch_option" (choice_payload option_x))
           studio_option_x studio_branch_reachable).
  vm_compute. reflexivity.
Defined.
End ExtraExamples.
